(** * libweave: property type engine, command dictionary and state store

    A shallow embedding of [libweave/src/commands/object_schema.cc] and of the
    collaborators it is linked against, together with the properties the
    specification of the command and state engine states about them.

    Conventions.
    - [base::Value] is a closed sum with one constructor per
      [base::Value::Type]; a [base::DictionaryValue] is iterated in key order
      (it is a [std::map]), so a dictionary is an association list whose list
      order is the iteration order.
    - [std::map<std::string, T>] is the same association list, kept sorted by
      the insertion functions of [Dict].
    - a function taking [chromeos::ErrorPtr* error] threads the error chain:
      it receives the chain and returns the chain it leaves behind.
    - [std::unique_ptr<T>] is [option T] where the pointer may be null. *)

From Stdlib Require Import ZArith String Ascii List Bool Lia OrdersEx SpecFloat.
From stdpp Require Import base option gmap.
Import ListNotations.

Local Open Scope string_scope.
Local Open Scope list_scope.

(** ** Error chains ([chromeos::Error]) *)

(** Modelled from the spec: the error class ([chromeos/errors/error.h]) is not
    part of the sources at hand.  An error is
    [{domain, code, message, inner}]; the chain is kept as a list whose head is
    the outermost error and whose last element is the first error reported. *)
Record Error : Type := mkError {
  GetDomain : string;
  GetCode : string;
  GetMessage : string
}.

Definition ErrorPtr : Type := list Error.

(** [Error::AddTo(error, FROM_HERE, domain, code, message)]: the new error
    wraps whatever [*error] held. *)
Definition AddTo (error : ErrorPtr) (domain code message : string) : ErrorPtr :=
  mkError domain code message :: error.

Definition GetInnerError (error : ErrorPtr) : ErrorPtr := tl error.

Definition GetFirstError (error : ErrorPtr) : option Error := last error.

Definition codes (error : ErrorPtr) : list string := map GetCode error.

(** Modelled from the spec: [schema_constants.cc] and [states/error_codes.cc]
    are not part of the sources at hand; the symbolic codes are the ones the
    error taxonomy lists. *)
Module errors.
Module commands.
Definition kDomain := "commands".
Definition kUnknownType := "unknown_type".
Definition kNoTypeInfo := "no_type_info".
Definition kTypeMismatch := "type_mismatch".
Definition kPropTypeChanged := "param_type_changed".
Definition kInvalidPropValue := "invalid_parameter_value".
Definition kInvalidPropDef := "invalid_parameter_definition".
Definition kUnknownProperty := "unknown_property".
Definition kInvalidCommandName := "invalid_command_name".
Definition kInvalidObjectSchema := "invalid_object_schema".
Definition kInvalidCommandVisibility := "invalid_command_visibility".
Definition kInvalidMinimalRole := "invalid_minimal_role".
End commands.
Module state.
Definition kDomain := "state".
Definition kPropertyNameMissing := "property_name_missing".
Definition kPackageNameMissing := "package_name_missing".
Definition kPropertyNotDefined := "property_not_defined".
End state.
End errors.

(** A fallible operation with an [ErrorPtr*] out-parameter. *)
Definition M (A : Type) : Type := ErrorPtr -> option A * ErrorPtr.

Definition ret {A} (a : A) : M A := fun error => (Some a, error).

Definition fail {A} (domain code message : string) : M A :=
  fun error => (None, AddTo error domain code message).

Definition bind {A B} (m : M A) (k : A -> M B) : M B :=
  fun error =>
    match m error with
    | (Some a, error') => k a error'
    | (None, error') => (None, error')
    end.

Notation "'let!' x ':=' m 'in' k" := (bind m (fun x => k))
  (at level 10, x name, m at level 100, k at level 200,
   format "'[v' 'let!'  x  ':='  m  'in' '/' k ']'").

(** ** JSON values ([base::Value]) *)

(** IEEE 754 binary64, the payload of [base::Value::TYPE_DOUBLE]. *)
Definition double : Type := spec_float.

(** [static_cast<double>(int)]. *)
Definition double_of_int (i : Z) : double := binary_normalize 53 1024 i 0 false.

Unset Elimination Schemes.
Inductive Value : Type :=
| TYPE_NULL
| TYPE_BOOLEAN (b : bool)
| TYPE_INTEGER (i : Z)
| TYPE_DOUBLE (d : double)
| TYPE_STRING (s : string)
| TYPE_BINARY (bytes : list Byte.byte)
| TYPE_DICTIONARY (dict : list (string * Value))
| TYPE_LIST (list : list Value).
Set Elimination Schemes.

(** ** Ordered maps with string keys

    [std::map<std::string, T>] and [base::DictionaryValue]: lookup takes the
    first entry of a key, insertion keeps key order. *)

Module Dict.
Section WithValues.
Context {A : Type}.

(** [std::map::find] / [DictionaryValue::GetWithoutPathExpansion]. *)
Fixpoint find (key : string) (d : list (string * A)) : option A :=
  match d with
  | [] => None
  | (k, v) :: d' => if String.eqb k key then Some v else find key d'
  end.

Definition HasKey (key : string) (d : list (string * A)) : bool :=
  match find key d with Some _ => true | None => false end.

(** [map[key] = v] / [DictionaryValue::SetWithoutPathExpansion]: replaces the
    entry of [key] or inserts it at its place in key order. *)
Fixpoint set (key : string) (v : A) (d : list (string * A))
  : list (string * A) :=
  match d with
  | [] => [(key, v)]
  | (k, w) :: d' =>
      match String_as_OT.compare key k with
      | Lt => (key, v) :: (k, w) :: d'
      | Eq => (key, v) :: d'
      | Gt => (k, w) :: set key v d'
      end
  end.

(** [std::map::emplace]: no effect when the key is already there. *)
Definition emplace (key : string) (v : A) (d : list (string * A))
  : list (string * A) :=
  match find key d with
  | Some _ => d
  | None => set key v d
  end.

(** In-place update of the entry [find] returns. *)
Fixpoint alter (f : A -> A) (key : string) (d : list (string * A))
  : list (string * A) :=
  match d with
  | [] => []
  | (k, v) :: d' =>
      if String.eqb k key then (k, f v) :: d' else (k, v) :: alter f key d'
  end.

(** The invariant of a [std::map]: the keys in strictly increasing order. *)
Fixpoint sorted (d : list (string * A)) : bool :=
  match d with
  | [] => true
  | (k, _) :: d' =>
      match d' with
      | [] => true
      | (k', _) :: _ =>
          match String_as_OT.compare k k' with
          | Lt => sorted d'
          | _ => false
          end
      end
  end.

(** Lookup that applies [f] to the entry it finds. *)
Fixpoint find_with {B : Type} (f : A -> B) (key : string)
    (d : list (string * A)) : option B :=
  match d with
  | [] => None
  | (k, v) :: d' => if String.eqb k key then Some (f v) else find_with f key d'
  end.

End WithValues.
End Dict.

(** ** Schema constants *)

(** Modelled from the spec: [schema_constants.cc] is not part of the sources
    at hand; the attribute names are the keys of the JSON grammar. *)
Module commands.
Module attributes.
Definition kType := "type".
Definition kNumeric_Min := "minimum".
Definition kNumeric_Max := "maximum".
Definition kString_MinLength := "minLength".
Definition kString_MaxLength := "maxLength".
Definition kOneOf_Enum := "enum".
Definition kDefault := "default".
Definition kObject_Properties := "properties".
Definition kItems := "items".
Definition kCommand_Parameters := "parameters".
Definition kCommand_Progress := "progress".
Definition kCommand_Results := "results".
Definition kCommand_Visibility := "visibility".
Definition kCommand_Role := "minimalRole".
End attributes.
End commands.

(** ** Property types ([prop_types.h]) *)

Module ValueType.
Inductive t : Type := Int | Double | String | Boolean | Object | Array.

Definition eqb (a b : t) : bool :=
  match a, b with
  | Int, Int | Double, Double | String, String
  | Boolean, Boolean | Object, Object | Array, Array => true
  | _, _ => false
  end.
End ValueType.
Abbreviation ValueType := ValueType.t.

(** [InheritableAttribute<T>]: a value and whether it comes from the base
    schema rather than from the definition itself. *)
Record InheritableAttribute (T : Type) : Type := mkInheritable {
  attr : T;
  is_inherited : bool
}.
Arguments mkInheritable {T} _ _.
Arguments attr {T} _.
Arguments is_inherited {T} _.

(** The attributes every kind has. *)
Record PropAttrs : Type := mkPropAttrs {
  based_on_schema_ : bool;
  required_ : bool;
  default_ : option (InheritableAttribute Value);
  one_of_ : option (InheritableAttribute (list Value))
}.

Record ObjectSchemaOf (P : Type) : Type := mkObjectSchema {
  properties_ : list (string * P);
  extra_properties_allowed_ : bool
}.
Arguments mkObjectSchema {P} _ _.
Arguments properties_ {P} _.
Arguments extra_properties_allowed_ {P} _.

(** Modelled from the spec: [prop_types.h] is not part of the sources at hand.
    A PropType is a tagged variant with one case per [ValueType]; every case
    has the common attributes (required, default, enum of allowed values), the
    numeric kinds have minimum and maximum, String has length bounds, Object
    owns a nested ObjectSchema and Array owns its item type. *)
Unset Elimination Schemes.
Inductive PropType : Type :=
| IntPropType (attrs : PropAttrs)
    (minimum maximum : option (InheritableAttribute Z))
| DoublePropType (attrs : PropAttrs)
    (minimum maximum : option (InheritableAttribute double))
| StringPropType (attrs : PropAttrs)
    (min_length max_length : option (InheritableAttribute Z))
| BooleanPropType (attrs : PropAttrs)
| ObjectPropType (attrs : PropAttrs)
    (object_schema_ : ObjectSchemaOf PropType) (object_schema_inherited : bool)
| ArrayPropType (attrs : PropAttrs)
    (item_type_ : option PropType) (item_type_inherited : bool).
Set Elimination Schemes.

Abbreviation ObjectSchema := (ObjectSchemaOf PropType).

(** [chromeos::string_utils::SplitAtFirst(str, ".", &left, &right, false)]:
    whether the delimiter occurs, what precedes its first occurrence and what
    follows it. *)
Fixpoint SplitAtFirst (str : string) (delimiter : ascii)
  : bool * string * string :=
  match str with
  | EmptyString => (false, EmptyString, EmptyString)
  | String c rest =>
      if Ascii.eqb c delimiter then (true, EmptyString, rest)
      else let '(found, left_part, right_part) := SplitAtFirst rest delimiter in
           (found, String c left_part, right_part)
  end.

(** [s.c_str()] as [printf] reads it for a [%s] of
    [chromeos::Error::AddToPrintf]: the characters of [s] before its first
    NUL. *)
Fixpoint c_str (s : string) : string :=
  match s with
  | EmptyString => EmptyString
  | String c rest =>
      if Ascii.eqb c Ascii.zero then EmptyString else String c (c_str rest)
  end.

Definition string_empty (s : string) : bool :=
  match s with EmptyString => true | String _ _ => false end.

Definition PropType_no_attrs : PropAttrs := mkPropAttrs false false None None.

Definition PropType_GetType (p : PropType) : ValueType :=
  match p with
  | IntPropType _ _ _ => ValueType.Int
  | DoublePropType _ _ _ => ValueType.Double
  | StringPropType _ _ _ => ValueType.String
  | BooleanPropType _ => ValueType.Boolean
  | ObjectPropType _ _ _ => ValueType.Object
  | ArrayPropType _ _ _ => ValueType.Array
  end.

Definition PropType_GetAttrs (p : PropType) : PropAttrs :=
  match p with
  | IntPropType a _ _ | DoublePropType a _ _ | StringPropType a _ _
  | BooleanPropType a | ObjectPropType a _ _ | ArrayPropType a _ _ => a
  end.

Definition PropType_SetAttrs (a : PropAttrs) (p : PropType) : PropType :=
  match p with
  | IntPropType _ lo hi => IntPropType a lo hi
  | DoublePropType _ lo hi => DoublePropType a lo hi
  | StringPropType _ lo hi => StringPropType a lo hi
  | BooleanPropType _ => BooleanPropType a
  | ObjectPropType _ s i => ObjectPropType a s i
  | ArrayPropType _ t i => ArrayPropType a t i
  end.

Definition PropType_IsRequired (p : PropType) : bool :=
  required_ (PropType_GetAttrs p).

Definition PropType_MakeRequired (required : bool) (p : PropType) : PropType :=
  let a := PropType_GetAttrs p in
  PropType_SetAttrs
    (mkPropAttrs (based_on_schema_ a) required (default_ a) (one_of_ a)) p.

(** Modelled from the spec: the table of type names; the names are the ones
    the JSON grammar uses for ["type"] (Double is JSON-schema's number). *)
Definition PropType_GetTypeStringFromType (type : ValueType) : string :=
  match type with
  | ValueType.Int => "integer"
  | ValueType.Double => "number"
  | ValueType.String => "string"
  | ValueType.Boolean => "boolean"
  | ValueType.Object => "object"
  | ValueType.Array => "array"
  end.

Definition PropType_GetTypeFromTypeString (name : string) : option ValueType :=
  if String.eqb name "integer" then Some ValueType.Int
  else if String.eqb name "number" then Some ValueType.Double
  else if String.eqb name "string" then Some ValueType.String
  else if String.eqb name "boolean" then Some ValueType.Boolean
  else if String.eqb name "object" then Some ValueType.Object
  else if String.eqb name "array" then Some ValueType.Array
  else None.

Definition PropType_GetTypeAsString (p : PropType) : string :=
  PropType_GetTypeStringFromType (PropType_GetType p).

(** [PropType::Create(type)]: a property type of the kind with no constraint,
    an Object with an empty schema, an Array with no item type yet. *)
Definition PropType_Create (type : ValueType) : PropType :=
  match type with
  | ValueType.Int => IntPropType PropType_no_attrs None None
  | ValueType.Double => DoublePropType PropType_no_attrs None None
  | ValueType.String => StringPropType PropType_no_attrs None None
  | ValueType.Boolean => BooleanPropType PropType_no_attrs
  | ValueType.Object =>
      ObjectPropType PropType_no_attrs (mkObjectSchema [] false) false
  | ValueType.Array => ArrayPropType PropType_no_attrs None false
  end.

(** [prop->GetArray()->SetItemType(std::move(item_type))]. *)
Definition PropType_SetItemType (item_type : PropType) (p : PropType)
  : PropType :=
  match p with
  | ArrayPropType a _ _ => ArrayPropType a (Some item_type) false
  | _ => p
  end.


(** ** [object_schema.cc]: the helpers of the anonymous namespace *)

Definition Value_type_name (value : Value) : string :=
  match value with
  | TYPE_NULL => "Null"
  | TYPE_BOOLEAN _ => "Boolean"
  | TYPE_INTEGER _ => "Integer"
  | TYPE_DOUBLE _ => "Double"
  | TYPE_STRING _ => "String"
  | TYPE_BINARY _ => "Binary"
  | TYPE_DICTIONARY _ => "Object"
  | TYPE_LIST _ => "Array"
  end.

Definition IsDouble (value : option Value) : bool :=
  match value with Some (TYPE_DOUBLE _) => true | _ => false end.

(** [CreatePropType(type_name, error)].  The recursion is on the part of the
    name after the first dot, which is shorter than the name; [fuel] bounds
    the number of nested calls. *)
Fixpoint CreatePropType_rec (fuel : nat) (type_name : string) : M PropType :=
  fun error =>
    let '(_, primary_type, array_type) := SplitAtFirst type_name "." in
    match PropType_GetTypeFromTypeString primary_type with
    | Some type =>
        let prop := PropType_Create type in
        if ValueType.eqb type ValueType.Array && negb (string_empty array_type)
        then
          match fuel with
          | O => (None, error)
          | S fuel' =>
              match CreatePropType_rec fuel' array_type error with
              | (Some items_type, error') =>
                  (Some (PropType_SetItemType items_type prop), error')
              | (None, error') => (None, error')
              end
          end
        else (Some prop, error)
    | None =>
        (None, AddTo error errors.commands.kDomain errors.commands.kUnknownType
                 ("Unknown type " ++ c_str type_name))
    end.

Definition CreatePropType (type_name : string) : M PropType :=
  CreatePropType_rec (String.length type_name) type_name.

(** Generates "no_type_info" error. *)
Definition ErrorInvalidTypeInfo (error : ErrorPtr) : ErrorPtr :=
  AddTo error errors.commands.kDomain errors.commands.kNoTypeInfo
    "Unable to determine parameter type".

(** The [switch] of [DetectArrayType] on the type of the first element; the
    case of a list calls [DetectArrayType(first_element_list, nullptr, false)],
    which looks at the first element of that list in turn. *)
Fixpoint DetectArrayType_first (first_element : Value) (allow_arrays : bool)
  : string :=
  match first_element with
  | TYPE_BOOLEAN _ => PropType_GetTypeStringFromType ValueType.Boolean
  | TYPE_INTEGER _ => PropType_GetTypeStringFromType ValueType.Int
  | TYPE_DOUBLE _ => PropType_GetTypeStringFromType ValueType.Double
  | TYPE_STRING _ => PropType_GetTypeStringFromType ValueType.String
  | TYPE_DICTIONARY _ => PropType_GetTypeStringFromType ValueType.Object
  | TYPE_LIST first_element_list =>
      if allow_arrays then
        let child_type :=
          match first_element_list with
          | [] => ""
          | first :: _ => DetectArrayType_first first false
          end in
        if string_empty child_type then ""
        else PropType_GetTypeStringFromType ValueType.Array ++ "." ++ child_type
      else ""
  | _ => ""
  end.

(** [DetectArrayType(list, base_schema, allow_arrays)]. *)
Definition DetectArrayType (list : list Value) (base_schema : option PropType)
    (allow_arrays : bool) : string :=
  match base_schema with
  | Some base => PropType_GetTypeAsString base
  | None =>
      match list with
      | [] => ""
      | first_element :: _ => DetectArrayType_first first_element allow_arrays
      end
  end.

(** [DetectObjectType(dict, base_schema)]. *)
Definition DetectObjectType (dict : list (string * Value))
    (base_schema : option PropType) : string :=
  let has_min_max := Dict.HasKey commands.attributes.kNumeric_Min dict
                     || Dict.HasKey commands.attributes.kNumeric_Max dict in
  if has_min_max
     && match base_schema with
        | Some base => ValueType.eqb (PropType_GetType base) ValueType.Double
        | None => false
        end
  then PropType_GetTypeStringFromType ValueType.Double
  else if IsDouble (Dict.find commands.attributes.kNumeric_Min dict)
  then PropType_GetTypeStringFromType ValueType.Double
  else if IsDouble (Dict.find commands.attributes.kNumeric_Max dict)
  then PropType_GetTypeStringFromType ValueType.Double
  else if has_min_max
  then PropType_GetTypeStringFromType ValueType.Int
  else if Dict.HasKey commands.attributes.kString_MinLength dict
          || Dict.HasKey commands.attributes.kString_MaxLength dict
  then PropType_GetTypeStringFromType ValueType.String
  else if Dict.HasKey commands.attributes.kObject_Properties dict
  then PropType_GetTypeStringFromType ValueType.Object
  else if Dict.HasKey commands.attributes.kItems dict
  then PropType_GetTypeStringFromType ValueType.Array
  else
    match Dict.find commands.attributes.kOneOf_Enum dict with
    | Some (TYPE_LIST list) => DetectArrayType list base_schema true
    | _ =>
        match Dict.find commands.attributes.kDefault dict with
        | Some (TYPE_DOUBLE _) => PropType_GetTypeStringFromType ValueType.Double
        | Some (TYPE_INTEGER _) => PropType_GetTypeStringFromType ValueType.Int
        | Some (TYPE_BOOLEAN _) =>
            PropType_GetTypeStringFromType ValueType.Boolean
        | Some (TYPE_STRING _) => PropType_GetTypeStringFromType ValueType.String
        | Some (TYPE_LIST list) =>
            let child_type := DetectArrayType list base_schema false in
            if negb (string_empty child_type)
            then PropType_GetTypeStringFromType ValueType.Array
                 ++ "." ++ child_type
            else ""
        | _ => ""
        end
    end.

(** ** Parsing property definitions *)

(** [ObjectSchema::GetProp(name)]. *)
Definition ObjectSchema_GetProp (this : ObjectSchema) (name : string)
  : option PropType :=
  Dict.find name (properties_ this).

(** Modelled from the spec: [prop_values.cc] is not part of the sources at
    hand.  A JSON value is accepted as a value of a kind when it has the JSON
    kind of it; an integer is accepted as a Double and stored as one. *)
Definition PropValue_FromJson (type : ValueType) (value : Value)
  : option Value :=
  match type, value with
  | ValueType.Int, TYPE_INTEGER _ => Some value
  | ValueType.Double, TYPE_DOUBLE _ => Some value
  | ValueType.Double, TYPE_INTEGER i => Some (TYPE_DOUBLE (double_of_int i))
  | ValueType.String, TYPE_STRING _ => Some value
  | ValueType.Boolean, TYPE_BOOLEAN _ => Some value
  | ValueType.Object, TYPE_DICTIONARY _ => Some value
  | ValueType.Array, TYPE_LIST _ => Some value
  | _, _ => None
  end.

Fixpoint PropValue_FromJsonList (type : ValueType) (values : list Value)
  : option (list Value) :=
  match values with
  | [] => Some []
  | value :: values' =>
      match PropValue_FromJson type value,
            PropValue_FromJsonList type values' with
      | Some v, Some vs => Some (v :: vs)
      | _, _ => None
      end
  end.

(** What a derived definition takes over from its base when it does not state
    the attribute itself. *)
Definition inherit {T : Type} (base_attr : option (InheritableAttribute T))
  : option (InheritableAttribute T) :=
  match base_attr with
  | Some a => Some (mkInheritable (attr a) true)
  | None => None
  end.

Definition type_mismatch {A : Type} (key : string) : M A :=
  fail errors.commands.kDomain errors.commands.kTypeMismatch
    ("Invalid value of attribute '" ++ key ++ "'").

Definition ReadInteger (key : string) (value : list (string * Value))
    (base_attr : option (InheritableAttribute Z))
  : M (option (InheritableAttribute Z)) :=
  match Dict.find key value with
  | Some (TYPE_INTEGER i) => ret (Some (mkInheritable i false))
  | Some _ => type_mismatch key
  | None => ret (inherit base_attr)
  end.

Definition ReadDouble (key : string) (value : list (string * Value))
    (base_attr : option (InheritableAttribute double))
  : M (option (InheritableAttribute double)) :=
  match Dict.find key value with
  | Some (TYPE_DOUBLE d) => ret (Some (mkInheritable d false))
  | Some (TYPE_INTEGER i) => ret (Some (mkInheritable (double_of_int i) false))
  | Some _ => type_mismatch key
  | None => ret (inherit base_attr)
  end.

Definition ReadEnum (type : ValueType) (value : list (string * Value))
    (base_attr : option (InheritableAttribute (list Value)))
  : M (option (InheritableAttribute (list Value))) :=
  match Dict.find commands.attributes.kOneOf_Enum value with
  | Some (TYPE_LIST choices) =>
      match PropValue_FromJsonList type choices with
      | Some values => ret (Some (mkInheritable values false))
      | None => type_mismatch commands.attributes.kOneOf_Enum
      end
  | Some _ => type_mismatch commands.attributes.kOneOf_Enum
  | None => ret (inherit base_attr)
  end.

Definition ReadDefault (type : ValueType) (value : list (string * Value))
    (base_attr : option (InheritableAttribute Value))
  : M (option (InheritableAttribute Value)) :=
  match Dict.find commands.attributes.kDefault value with
  | Some defval =>
      match PropValue_FromJson type defval with
      | Some v => ret (Some (mkInheritable v false))
      | None => type_mismatch commands.attributes.kDefault
      end
  | None => ret (inherit base_attr)
  end.

Section Recursive.

(** The recursive call to [ObjectSchema::PropFromJson], for the definitions
    nested in ["properties"] and ["items"]. *)
Variable PropFromJson : Value -> option PropType -> M PropType.

(** The [while] loop of [ObjectSchema::FromJson] over the entries of [value],
    from the entry [iter] stands at; [properties] is the local map it fills. *)
Fixpoint ObjectSchema_FromJson_loop (object_schema : option ObjectSchema)
    (iter : list (string * Value)) (properties : list (string * PropType))
  : M (list (string * PropType)) :=
  fun error =>
    match iter with
    | [] => (Some properties, error)
    | (name, value) :: iter' =>
        let base_schema :=
          match object_schema with
          | Some schema => ObjectSchema_GetProp schema name
          | None => None
          end in
        match PropFromJson value base_schema error with
        | (Some prop_type, error') =>
            ObjectSchema_FromJson_loop object_schema iter'
              (Dict.emplace name prop_type properties) error'
        | (None, error') =>
            (None,
             AddTo error' errors.commands.kDomain errors.commands.kInvalidPropDef
               ("Error in definition of property '" ++ c_str name ++ "'"))
        end
    end.

(** [ObjectSchema::FromJson(value, object_schema, error)]: the flag it returns,
    the state it leaves [this] in and the error chain. *)
Definition ObjectSchema_FromJson_with (this : ObjectSchema)
    (value : list (string * Value)) (object_schema : option ObjectSchema)
    (error : ErrorPtr) : bool * ObjectSchema * ErrorPtr :=
  match ObjectSchema_FromJson_loop object_schema value [] error with
  | (Some properties, error') =>
      (true, mkObjectSchema properties (extra_properties_allowed_ this), error')
  | (None, error') => (false, this, error')
  end.

(** A new ObjectSchema filled by [FromJson]:
    [object_schema = ObjectSchema::Create()] followed by
    [object_schema->FromJson(value, base, error)], with no result when
    [FromJson] returns false. *)
Definition ObjectSchema_CreateFromJson_with (value : list (string * Value))
    (object_schema : option ObjectSchema) : M ObjectSchema :=
  fun error =>
    match
      ObjectSchema_FromJson_with (mkObjectSchema [] false) value object_schema
        error
    with
    | (true, schema, error') => (Some schema, error')
    | (false, _, error') => (None, error')
    end.

(** Modelled from the spec: [prop_types.cc] is not part of the sources at
    hand.  [PropType::FromJson(value, base_schema, error)] on the property
    type [prop] just created: a base schema must have the kind of [prop]
    (otherwise [param_type_changed]); the parser of the kind consumes its
    constraint keys, then ["enum"] and ["default"]; what the definition does
    not state is taken from the base schema and marked inherited.  The key
    ["required"] is not read here, and an Array is asked for an item type
    only when it has none yet; the specification says no more about either. *)
Definition PropType_FromJson_with (prop : PropType)
    (value : list (string * Value)) (base_schema : option PropType)
  : M PropType :=
  let type := PropType_GetType prop in
  let type_changed :=
    match base_schema with
    | Some base => negb (ValueType.eqb (PropType_GetType base) type)
    | None => false
    end in
  if type_changed then
    fail errors.commands.kDomain errors.commands.kPropTypeChanged
      ("Redefining a property of another type as "
       ++ PropType_GetTypeAsString prop)
  else
    let! kind :=
      match prop with
      | IntPropType _ _ _ =>
          let '(base_min, base_max) :=
            match base_schema with
            | Some (IntPropType _ lo hi) => (lo, hi)
            | _ => (None, None)
            end in
          let! lo := ReadInteger commands.attributes.kNumeric_Min value base_min in
          let! hi := ReadInteger commands.attributes.kNumeric_Max value base_max in
          ret (fun attrs => IntPropType attrs lo hi)
      | DoublePropType _ _ _ =>
          let '(base_min, base_max) :=
            match base_schema with
            | Some (DoublePropType _ lo hi) => (lo, hi)
            | _ => (None, None)
            end in
          let! lo := ReadDouble commands.attributes.kNumeric_Min value base_min in
          let! hi := ReadDouble commands.attributes.kNumeric_Max value base_max in
          ret (fun attrs => DoublePropType attrs lo hi)
      | StringPropType _ _ _ =>
          let '(base_min, base_max) :=
            match base_schema with
            | Some (StringPropType _ lo hi) => (lo, hi)
            | _ => (None, None)
            end in
          let! lo :=
            ReadInteger commands.attributes.kString_MinLength value base_min in
          let! hi :=
            ReadInteger commands.attributes.kString_MaxLength value base_max in
          ret (fun attrs => StringPropType attrs lo hi)
      | BooleanPropType _ => ret (fun attrs => BooleanPropType attrs)
      | ObjectPropType _ own own_inherited =>
          let base_object :=
            match base_schema with
            | Some (ObjectPropType _ schema _) => Some schema
            | _ => None
            end in
          match
            Dict.find_with
              (fun props =>
                 match props with
                 | TYPE_DICTIONARY props =>
                     Some (ObjectSchema_CreateFromJson_with props base_object)
                 | _ => None
                 end)
              commands.attributes.kObject_Properties value
          with
          | Some (Some parse) =>
              let! schema := parse in
              ret (fun attrs => ObjectPropType attrs schema false)
          | Some None => type_mismatch commands.attributes.kObject_Properties
          | None =>
              match base_object with
              | Some schema => ret (fun attrs => ObjectPropType attrs schema true)
              | None => ret (fun attrs => ObjectPropType attrs own own_inherited)
              end
          end
      | ArrayPropType _ own own_inherited =>
          let base_item :=
            match base_schema with
            | Some (ArrayPropType _ item _) => item
            | _ => None
            end in
          match
            Dict.find_with (fun items => PropFromJson items base_item)
              commands.attributes.kItems value
          with
          | Some parse =>
              let! item := parse in
              ret (fun attrs => ArrayPropType attrs (Some item) false)
          | None =>
              match own, base_item with
              | Some _, _ => ret (fun attrs => ArrayPropType attrs own own_inherited)
              | None, Some item =>
                  ret (fun attrs => ArrayPropType attrs (Some item) true)
              | None, None =>
                  fail errors.commands.kDomain errors.commands.kNoTypeInfo
                    "Array items type must be specified"
              end
          end
      end in
    let base_attrs := option_map PropType_GetAttrs base_schema in
    let! one_of :=
      ReadEnum type value
        (match base_attrs with Some a => one_of_ a | None => None end) in
    let! default :=
      ReadDefault type value
        (match base_attrs with Some a => default_ a | None => None end) in
    ret (kind (mkPropAttrs
                 (match base_schema with Some _ => true | None => false end)
                 (PropType_IsRequired prop) default one_of)).

(** [PropFromJsonString(value, base_schema, error)], [value] holding the
    string [type_name]. *)
Definition PropFromJsonString_with (type_name : string)
    (base_schema : option PropType) : M PropType :=
  let! prop := CreatePropType type_name in
  PropType_FromJson_with prop [] base_schema.

(** [PropFromJsonArray(value, base_schema, error)], [value] holding [list]. *)
Definition PropFromJsonArray_with (list : list Value)
    (base_schema : option PropType) : M PropType :=
  let type_name := DetectArrayType list base_schema true in
  if string_empty type_name then
    fun error => (None, ErrorInvalidTypeInfo error)
  else
    let array_object := [(commands.attributes.kOneOf_Enum, TYPE_LIST list)] in
    let! prop := CreatePropType type_name in
    PropType_FromJson_with prop array_object base_schema.

(** [PropFromJsonObject(value, base_schema, error)], [value] holding [dict]. *)
Definition PropFromJsonObject_with (dict : list (string * Value))
    (base_schema : option PropType) : M PropType :=
  let! type_name :=
    if Dict.HasKey commands.attributes.kType dict then
      match Dict.find commands.attributes.kType dict with
      | Some (TYPE_STRING type_name) => ret type_name
      | _ => fun error => (None, ErrorInvalidTypeInfo error)
      end
    else ret (DetectObjectType dict base_schema) in
  let! type_name :=
    if string_empty type_name then
      match base_schema with
      | None => fun error => (None, ErrorInvalidTypeInfo error)
      | Some base => ret (PropType_GetTypeAsString base)
      end
    else ret type_name in
  let! prop := CreatePropType type_name in
  PropType_FromJson_with prop dict base_schema.

End Recursive.

(** The dictionaries [PropFromJsonString] and [PropFromJsonArray] hand to
    [PropType::FromJson] have no ["properties"] and no ["items"]: no nested
    definition is parsed from them (see [PropFromJsonString_with_any] and
    [PropFromJsonArray_with_any]). *)
Definition no_nested_definition : Value -> option PropType -> M PropType :=
  fun _ _ error => (None, error).

(** [ObjectSchema::PropFromJson(value, base_schema, error)]. *)
Fixpoint ObjectSchema_PropFromJson (value : Value)
    (base_schema : option PropType) {struct value} : M PropType :=
  match value with
  | TYPE_STRING type_name =>
      PropFromJsonString_with no_nested_definition type_name base_schema
  | TYPE_LIST list =>
      PropFromJsonArray_with no_nested_definition list base_schema
  | TYPE_DICTIONARY dict =>
      PropFromJsonObject_with ObjectSchema_PropFromJson dict base_schema
  | _ =>
      fail errors.commands.kDomain errors.commands.kUnknownType
        ("Unexpected JSON value type: " ++ Value_type_name value)
  end.

Definition PropFromJsonString : string -> option PropType -> M PropType :=
  PropFromJsonString_with ObjectSchema_PropFromJson.

Definition PropFromJsonArray : list Value -> option PropType -> M PropType :=
  PropFromJsonArray_with ObjectSchema_PropFromJson.

Definition PropFromJsonObject
  : list (string * Value) -> option PropType -> M PropType :=
  PropFromJsonObject_with ObjectSchema_PropFromJson.

Definition PropType_FromJson
  : PropType -> list (string * Value) -> option PropType -> M PropType :=
  PropType_FromJson_with ObjectSchema_PropFromJson.

Definition ObjectSchema_FromJson
  : ObjectSchema -> list (string * Value) -> option ObjectSchema ->
    ErrorPtr -> bool * ObjectSchema * ErrorPtr :=
  ObjectSchema_FromJson_with ObjectSchema_PropFromJson.

Definition ObjectSchema_CreateFromJson
  : list (string * Value) -> option ObjectSchema -> M ObjectSchema :=
  ObjectSchema_CreateFromJson_with ObjectSchema_PropFromJson.

(** ** Serialization *)

(** Whether an attribute is stated by the definition itself. *)
Definition overridden {T : Type} (a : option (InheritableAttribute T)) : bool :=
  match a with
  | Some a => negb (is_inherited a)
  | None => false
  end.

(** Adds an attribute to the JSON object of a property type: every attribute
    in full mode, only the ones the definition states itself otherwise. *)
Definition emit {T : Type} (full_schema : bool) (key : string)
    (to_json : T -> Value) (a : option (InheritableAttribute T))
    (dict : list (string * Value)) : list (string * Value) :=
  match a with
  | Some a =>
      if full_schema || negb (is_inherited a)
      then Dict.set key (to_json (attr a)) dict
      else dict
  | None => dict
  end.

(** The body of [ObjectSchema::ToJson], [to_json] being
    [pair.second->ToJson(full_schema, in_command_def)]. *)
Definition ObjectSchema_ToJson_with (to_json : PropType -> Value)
    (this : ObjectSchema) : Value :=
  TYPE_DICTIONARY
    (fold_left (fun value pair => Dict.set (fst pair) (to_json (snd pair)) value)
       (properties_ this) []).

(** Modelled from the spec: [prop_types.cc] is not part of the sources at
    hand.  [PropType::HasOverriddenAttributes()]: the definition states an
    attribute itself. *)
Definition PropType_HasOverriddenAttributes (p : PropType) : bool :=
  let a := PropType_GetAttrs p in
  overridden (default_ a) || overridden (one_of_ a)
  || match p with
     | IntPropType _ lo hi => overridden lo || overridden hi
     | DoublePropType _ lo hi => overridden lo || overridden hi
     | StringPropType _ lo hi => overridden lo || overridden hi
     | BooleanPropType _ => false
     | ObjectPropType _ _ inherited => negb inherited
     | ArrayPropType _ item inherited =>
         match item with Some _ => negb inherited | None => false end
     end.

(** Modelled from the spec: [prop_types.cc] is not part of the sources at
    hand.  [PropType::ToJson(full_schema, in_command_def)]: the full form is a
    JSON object with the type name and every constraint; the minimal form has
    only what the definition states itself: the type name when there is no
    base schema, and the attributes that are not inherited; a definition that
    states nothing but its type is the type name alone. *)
Fixpoint PropType_ToJson (p : PropType) (full_schema in_command_def : bool)
  {struct p} : Value :=
  let a := PropType_GetAttrs p in
  if negb full_schema && negb (PropType_HasOverriddenAttributes p) then
    if based_on_schema_ a then TYPE_DICTIONARY []
    else TYPE_STRING (PropType_GetTypeAsString p)
  else
    let dict :=
      if full_schema || negb (based_on_schema_ a)
      then [(commands.attributes.kType,
             TYPE_STRING (PropType_GetTypeAsString p))]
      else [] in
    let dict :=
      match p with
      | IntPropType _ lo hi =>
          emit full_schema commands.attributes.kNumeric_Max TYPE_INTEGER hi
            (emit full_schema commands.attributes.kNumeric_Min TYPE_INTEGER lo
               dict)
      | DoublePropType _ lo hi =>
          emit full_schema commands.attributes.kNumeric_Max TYPE_DOUBLE hi
            (emit full_schema commands.attributes.kNumeric_Min TYPE_DOUBLE lo
               dict)
      | StringPropType _ lo hi =>
          emit full_schema commands.attributes.kString_MaxLength TYPE_INTEGER hi
            (emit full_schema commands.attributes.kString_MinLength
               TYPE_INTEGER lo dict)
      | BooleanPropType _ => dict
      | ObjectPropType _ schema inherited =>
          if full_schema || negb inherited
          then Dict.set commands.attributes.kObject_Properties
                 (ObjectSchema_ToJson_with
                    (fun prop => PropType_ToJson prop full_schema in_command_def)
                    schema)
                 dict
          else dict
      | ArrayPropType _ (Some item) inherited =>
          if full_schema || negb inherited
          then Dict.set commands.attributes.kItems
                 (PropType_ToJson item full_schema in_command_def) dict
          else dict
      | ArrayPropType _ None _ => dict
      end in
    TYPE_DICTIONARY
      (emit full_schema commands.attributes.kDefault (fun v => v) (default_ a)
         (emit full_schema commands.attributes.kOneOf_Enum TYPE_LIST (one_of_ a)
            dict)).

(** Modelled from the spec: [prop_types.cc] is not part of the sources at
    hand.  [PropType::Clone()] duplicates the property type with everything it
    owns. *)
Fixpoint PropType_Clone (p : PropType) : PropType :=
  match p with
  | IntPropType a lo hi => IntPropType a lo hi
  | DoublePropType a lo hi => DoublePropType a lo hi
  | StringPropType a lo hi => StringPropType a lo hi
  | BooleanPropType a => BooleanPropType a
  | ObjectPropType a schema inherited =>
      ObjectPropType a
        (mkObjectSchema
           (map (fun pair => (fst pair, PropType_Clone (snd pair)))
              (properties_ schema))
           (extra_properties_allowed_ schema))
        inherited
  | ArrayPropType a item inherited =>
      ArrayPropType a
        (match item with Some t => Some (PropType_Clone t) | None => None end)
        inherited
  end.

(** ** [ObjectSchema] *)

(** [ObjectSchema::Create()]. *)
Definition ObjectSchema_Create : ObjectSchema := mkObjectSchema [] false.

(** [ObjectSchema::Clone()]. *)
Definition ObjectSchema_Clone (this : ObjectSchema) : ObjectSchema :=
  mkObjectSchema
    (fold_left
       (fun cloned pair =>
          Dict.emplace (fst pair) (PropType_Clone (snd pair)) cloned)
       (properties_ this) [])
    (extra_properties_allowed_ this).

(** [ObjectSchema::AddProp(name, prop)]. *)
Definition ObjectSchema_AddProp (this : ObjectSchema) (name : string)
    (prop : PropType) : ObjectSchema :=
  mkObjectSchema (Dict.set name prop (properties_ this))
    (extra_properties_allowed_ this).

(** [ObjectSchema::MarkPropRequired(name, error)]. *)
Definition ObjectSchema_MarkPropRequired (this : ObjectSchema) (name : string)
    (error : ErrorPtr) : bool * ObjectSchema * ErrorPtr :=
  match Dict.find name (properties_ this) with
  | None =>
      (false, this,
       AddTo error errors.commands.kDomain errors.commands.kUnknownProperty
         ("Unknown property '" ++ c_str name ++ "'"))
  | Some _ =>
      (true,
       mkObjectSchema
         (Dict.alter (PropType_MakeRequired true) name (properties_ this))
         (extra_properties_allowed_ this),
       error)
  end.

(** [ObjectSchema::ToJson(full_schema, in_command_def)]. *)
Definition ObjectSchema_ToJson (this : ObjectSchema)
    (full_schema in_command_def : bool) : Value :=
  ObjectSchema_ToJson_with
    (fun prop => PropType_ToJson prop full_schema in_command_def) this.

(** ** Command definitions and the command dictionary *)

Module UserRole.
Inductive t : Type := kViewer | kUser | kManager | kOwner.
End UserRole.
Abbreviation UserRole := UserRole.t.

Record Visibility : Type := mkVisibility {
  local : bool;
  cloud : bool
}.

Record CommandDefinition : Type := mkCommandDefinition {
  GetParameters : ObjectSchema;
  GetProgress : ObjectSchema;
  GetResults : ObjectSchema;
  GetVisibility : Visibility;
  GetMinimalRole : UserRole
}.

(** The dictionary: [definitions_], from ["package.command"] to its
    definition. *)
Record CommandDictionary : Type := mkCommandDictionary {
  definitions_ : list (string * CommandDefinition)
}.

(** A call either returns (a flag, the state it leaves [this] in and the error
    chain) or ends the process ([CHECK] failure). *)
Inductive Outcome (S : Type) : Type :=
| Returned (result : bool) (this : S) (error : ErrorPtr)
| Aborted.
Arguments Returned {S} _ _ _.
Arguments Aborted {S}.

Definition FindCommand (this : CommandDictionary) (command_name : string)
  : option CommandDefinition :=
  Dict.find command_name (definitions_ this).

Definition GetSize (this : CommandDictionary) : nat :=
  length (definitions_ this).

(** The tokens of a comma-separated list. *)
Fixpoint Split (str : string) (delimiter : ascii) : list string :=
  match str with
  | EmptyString => [EmptyString]
  | String c rest =>
      if Ascii.eqb c delimiter then EmptyString :: Split rest delimiter
      else
        match Split rest delimiter with
        | token :: tokens => String c token :: tokens
        | [] => [String c EmptyString]
        end
  end.

(** Modelled from the spec: [command_definition.cc] is not part of the sources
    at hand.  Visibility is a comma-separated set from local, cloud, none and
    all; another token is an [invalid_parameter_value]. *)
Fixpoint Visibility_FromTokens (tokens : list string) (v : Visibility)
  : M Visibility :=
  match tokens with
  | [] => ret v
  | token :: tokens' =>
      if String.eqb token "local"
      then Visibility_FromTokens tokens' (mkVisibility true (cloud v))
      else if String.eqb token "cloud"
      then Visibility_FromTokens tokens' (mkVisibility (local v) true)
      else if String.eqb token "all"
      then Visibility_FromTokens tokens' (mkVisibility true true)
      else if String.eqb token "none" || string_empty token
      then Visibility_FromTokens tokens' v
      else fail errors.commands.kDomain errors.commands.kInvalidPropValue
             ("Invalid command visibility value '" ++ token ++ "'")
  end.

Definition Visibility_FromString (str : string) : M Visibility :=
  Visibility_FromTokens (Split str ",") (mkVisibility false false).

Definition Visibility_ToString (v : Visibility) : string :=
  match local v, cloud v with
  | true, true => "all"
  | false, false => "none"
  | true, false => "local"
  | false, true => "cloud"
  end.

Definition UserRole_FromString (str : string) : M UserRole :=
  if String.eqb str "viewer" then ret UserRole.kViewer
  else if String.eqb str "user" then ret UserRole.kUser
  else if String.eqb str "manager" then ret UserRole.kManager
  else if String.eqb str "owner" then ret UserRole.kOwner
  else fail errors.commands.kDomain errors.commands.kInvalidPropValue
         ("Invalid role '" ++ str ++ "'").

Definition UserRole_ToString (role : UserRole) : string :=
  match role with
  | UserRole.kViewer => "viewer"
  | UserRole.kUser => "user"
  | UserRole.kManager => "manager"
  | UserRole.kOwner => "owner"
  end.

(** Adds the error [code] on top of the chain when [m] fails. *)
Definition wrap_error {A : Type} (code message : string) (m : M A) : M A :=
  fun error =>
    match m error with
    | (Some a, error') => (Some a, error')
    | (None, error') =>
        (None, AddTo error' errors.commands.kDomain code message)
    end.

(** Modelled from the spec: [command_dictionary.cc] is not part of the sources
    at hand.  One of the sections parameters, progress and results of a
    command: parsed as an ObjectSchema against the section of the base
    definition; an omitted section is the one of the base definition, or empty;
    a failure is reported as [invalid_object_schema]. *)
Definition BuildObjectSchema (command_def_json : list (string * Value))
    (property_name : string) (base_def : option ObjectSchema)
    (command_name : string) : M ObjectSchema :=
  match Dict.find property_name command_def_json with
  | Some (TYPE_DICTIONARY schema_def) =>
      wrap_error errors.commands.kInvalidObjectSchema
        ("Invalid definition for command '" ++ command_name ++ "'")
        (ObjectSchema_CreateFromJson schema_def base_def)
  | _ =>
      ret (match base_def with
           | Some base => ObjectSchema_Clone base
           | None => ObjectSchema_Create
           end)
  end.

Definition starts_with_underscore (name : string) : bool :=
  match name with
  | String c _ => Ascii.eqb c "_"
  | EmptyString => false
  end.

(** Modelled from the spec: step 1 of the loading algorithm, the validation of
    the name of a command entry.  The name must not be empty; when a base
    dictionary is given and has no entry of the full name, the command is a
    custom one and its name must start with an underscore.  (With no base
    dictionary every non-empty name is taken, as the test [LoadCommands]
    does with robot.jump.) *)
Definition ValidateCommandName (package_name command_name : string)
    (base_commands : option CommandDictionary) : M unit :=
  if string_empty command_name then
    fail errors.commands.kDomain errors.commands.kInvalidCommandName
      ("Unnamed command encountered in package '" ++ package_name ++ "'")
  else
    match base_commands with
    | Some base =>
        match FindCommand base (package_name ++ "." ++ command_name) with
        | Some _ => ret tt
        | None =>
            if starts_with_underscore command_name then ret tt
            else
              fail errors.commands.kDomain errors.commands.kInvalidCommandName
                ("The name of custom command '" ++ command_name
                 ++ "' in package '" ++ package_name
                 ++ "' must start with '_'")
        end
    | None => ret tt
    end.

(** Modelled from the spec: steps 1 to 4 and 6 of the loading algorithm for
    one entry [command_name : command_value] of a package. *)
Definition LoadCommand (package_name command_name : string)
    (command_value : Value) (base_commands : option CommandDictionary)
  : M (string * CommandDefinition) :=
  let! _ := ValidateCommandName package_name command_name base_commands in
  match command_value with
  | TYPE_DICTIONARY command_def_json =>
      let full_command_name := (package_name ++ "." ++ command_name)%string in
      let base_def :=
        match base_commands with
        | Some base => FindCommand base full_command_name
        | None => None
        end in
      let! parameters :=
        BuildObjectSchema command_def_json commands.attributes.kCommand_Parameters
          (option_map GetParameters base_def) full_command_name in
      let! progress :=
        BuildObjectSchema command_def_json commands.attributes.kCommand_Progress
          (option_map GetProgress base_def) full_command_name in
      let! results :=
        BuildObjectSchema command_def_json commands.attributes.kCommand_Results
          (option_map GetResults base_def) full_command_name in
      let! visibility :=
        match Dict.find commands.attributes.kCommand_Visibility command_def_json
        with
        | Some (TYPE_STRING value) =>
            wrap_error errors.commands.kInvalidCommandVisibility
              ("Error parsing command '" ++ full_command_name ++ "'")
              (Visibility_FromString value)
        | _ =>
            ret (match base_def with
                 | Some cmd => GetVisibility cmd
                 | None => mkVisibility true true
                 end)
        end in
      let! minimal_role :=
        match Dict.find commands.attributes.kCommand_Role command_def_json with
        | Some (TYPE_STRING value) =>
            wrap_error errors.commands.kInvalidMinimalRole
              ("Error parsing command '" ++ full_command_name ++ "'")
              (UserRole_FromString value)
        | _ =>
            ret (match base_def with
                 | Some cmd => GetMinimalRole cmd
                 | None => UserRole.kUser
                 end)
        end in
      ret (full_command_name,
           mkCommandDefinition parameters progress results visibility
             minimal_role)
  | _ =>
      fail errors.commands.kDomain errors.commands.kTypeMismatch
        ("Expecting an object for command '" ++ command_name ++ "'")
  end.

(** The commands of one package, into the local map [new_defs]. *)
Fixpoint LoadPackage (package_name : string)
    (base_commands : option CommandDictionary)
    (command_iter : list (string * Value))
    (new_defs : list (string * CommandDefinition))
  : M (list (string * CommandDefinition)) :=
  match command_iter with
  | [] => ret new_defs
  | (command_name, command_value) :: command_iter' =>
      let! def :=
        LoadCommand package_name command_name command_value base_commands in
      LoadPackage package_name base_commands command_iter'
        (Dict.emplace (fst def) (snd def) new_defs)
  end.

(** The packages of the tree. *)
Fixpoint LoadPackages (base_commands : option CommandDictionary)
    (package_iter : list (string * Value))
    (new_defs : list (string * CommandDefinition))
  : M (list (string * CommandDefinition)) :=
  match package_iter with
  | [] => ret new_defs
  | (package_name, package_value) :: package_iter' =>
      match package_value with
      | TYPE_DICTIONARY commands =>
          let! new_defs :=
            LoadPackage package_name base_commands commands new_defs in
          LoadPackages base_commands package_iter' new_defs
      | _ =>
          fail errors.commands.kDomain errors.commands.kTypeMismatch
            ("Expecting an object for package '" ++ package_name ++ "'")
      end
  end.

(** Modelled from the spec: [CommandDictionary::LoadCommands(json,
    base_commands, error)].  The definitions are built aside; a failure
    returns false and leaves the dictionary as it was; a name the dictionary
    already has ends the process; otherwise the definitions are inserted. *)
Definition LoadCommands (this : CommandDictionary)
    (json : list (string * Value)) (base_commands : option CommandDictionary)
    (error : ErrorPtr) : Outcome CommandDictionary :=
  match LoadPackages base_commands json [] error with
  | (None, error') => Returned false this error'
  | (Some new_defs, error') =>
      if existsb (fun pair => Dict.HasKey (fst pair) (definitions_ this))
           new_defs
      then Aborted
      else
        Returned true
          (mkCommandDictionary
             (fold_left (fun defs pair => Dict.emplace (fst pair) (snd pair) defs)
                new_defs (definitions_ this)))
          error'
  end.

(** Modelled from the spec and from the expectations of the test
    [GetCommandsAsJson]: the commands [filter] lets through, grouped by
    package, each with its parameters and its minimal role. *)
Definition GetCommandsAsJson (this : CommandDictionary)
    (filter : CommandDefinition -> bool) (full_schema : bool) : Value :=
  TYPE_DICTIONARY
    (fold_left
       (fun dict pair =>
          if filter (snd pair) then
            let '(_, package_name, command_name) := SplitAtFirst (fst pair) "." in
            let package :=
              match Dict.find package_name dict with
              | Some (TYPE_DICTIONARY package) => package
              | _ => []
              end in
            let definition :=
              Dict.set commands.attributes.kCommand_Role
                (TYPE_STRING (UserRole_ToString (GetMinimalRole (snd pair))))
                (Dict.set commands.attributes.kCommand_Parameters
                   (ObjectSchema_ToJson (GetParameters (snd pair)) full_schema
                      true)
                   []) in
            Dict.set package_name
              (TYPE_DICTIONARY
                 (Dict.set command_name (TYPE_DICTIONARY definition) package))
              dict
          else dict)
       (definitions_ this) []).

(** ** The state store *)

Record StateChange : Type := mkStateChange {
  timestamp : Z;
  changed_properties : list (string * Value)
}.

(** Modelled from the spec: [state_manager.cc] and [state_change_queue.cc] are
    not part of the sources at hand.  The store maps a category to the schema
    of its state and a qualified name to its current value; the queue keeps
    the recorded changes, each with its ID, the newest last. *)
Record StateManager : Type := mkStateManager {
  packages_ : list (string * ObjectSchema);
  values_ : list (string * Value);
  state_changes_ : list (nat * StateChange);
  last_change_id_ : nat;
  notifications_ : nat
}.

Definition StateManager_Create : StateManager := mkStateManager [] [] [] 0 0.

(** Modelled from the spec: [StateManager::LoadStateDefinition(json, error)]
    registers, for every category of the tree, the ObjectSchema of its
    properties. *)
Fixpoint LoadStateDefinition_loop (iter : list (string * Value))
    (packages : list (string * ObjectSchema))
  : M (list (string * ObjectSchema)) :=
  match iter with
  | [] => ret packages
  | (package_name, package_value) :: iter' =>
      match package_value with
      | TYPE_DICTIONARY package_dict =>
          let! schema := ObjectSchema_CreateFromJson package_dict None in
          LoadStateDefinition_loop iter' (Dict.set package_name schema packages)
      | _ =>
          fail errors.state.kDomain errors.commands.kTypeMismatch
            ("State package '" ++ package_name ++ "' must be an object")
      end
  end.

Definition LoadStateDefinition (this : StateManager)
    (json : list (string * Value)) (error : ErrorPtr)
  : bool * StateManager * ErrorPtr :=
  match LoadStateDefinition_loop json (packages_ this) error with
  | (Some packages, error') =>
      (true,
       mkStateManager packages (values_ this) (state_changes_ this)
         (last_change_id_ this) (notifications_ this),
       error')
  | (None, error') => (false, this, error')
  end.

(** Modelled from the spec: [StateManager::SetPropertyValue(name, value,
    timestamp, error)].  The name must not be empty
    ([property_name_missing]), must have the form package.property
    ([package_name_missing]) and its package must be a known category
    ([property_not_defined]); then the value is stored, a state change with
    the timestamp is recorded and the change callbacks are called.

    The two test files at hand are of two versions of [state_manager.cc],
    which differ on a property that the schema of its category does not
    declare: [libweave/src/states/state_manager_unittest.cc] expects
    [property_not_defined] for base.level, as the specification states, and
    [src/states/state_manager_unittest.cc] expects the value to be taken.
    [declared_only] tells the version: true for the first. *)
Definition SetPropertyValue (declared_only : bool) (this : StateManager)
    (full_property_name : string) (value : Value) (time : Z) (error : ErrorPtr)
  : bool * StateManager * ErrorPtr :=
  let '(split, package_name, property_name) :=
    SplitAtFirst full_property_name "." in
  if string_empty full_property_name then
    (false, this,
     AddTo error errors.state.kDomain errors.state.kPropertyNameMissing
       "Property name is missing")
  else if negb split then
    (false, this,
     AddTo error errors.state.kDomain errors.state.kPackageNameMissing
       "Package name is missing in the property name")
  else
    match Dict.find package_name (packages_ this) with
    | None =>
        (false, this,
         AddTo error errors.state.kDomain errors.state.kPropertyNotDefined
           ("Unknown state property package '" ++ package_name ++ "'"))
    | Some package =>
        let declared :=
          match ObjectSchema_GetProp package property_name with
          | Some _ => true
          | None => false
          end in
        if declared_only && negb declared then
          (false, this,
           AddTo error errors.state.kDomain errors.state.kPropertyNotDefined
             ("State property '" ++ full_property_name ++ "' is not defined"))
        else
          (true,
           mkStateManager (packages_ this)
             (Dict.set full_property_name value (values_ this))
             (state_changes_ this
              ++ [(S (last_change_id_ this),
                   mkStateChange time [(full_property_name, value)])])
             (S (last_change_id_ this))
             (S (notifications_ this)),
           error)
    end.

(** [StateManager::GetProperty(name)]. *)
Definition GetProperty (this : StateManager) (name : string) : option Value :=
  Dict.find name (values_ this).

(** Modelled from the spec: [GetAndClearRecordedStateChanges()] drains the
    queue and returns the last ID with the recorded changes. *)
Definition GetAndClearRecordedStateChanges (this : StateManager)
  : (nat * list StateChange) * StateManager :=
  ((last_change_id_ this, map snd (state_changes_ this)),
   mkStateManager (packages_ this) (values_ this) [] (last_change_id_ this)
     (notifications_ this)).


(** ** The objects of a schema

    [properties_] is a [std::map<std::string, std::unique_ptr<PropType>>]: a
    schema holds pointers to the PropType objects it owns.  Where sharing
    matters the objects are kept in a heap, from addresses to objects, and a
    schema holds addresses; a PropType object holds by value what it owns
    itself (its constraints, its nested ObjectSchema, its item type). *)

(** The schema as a value, from inside [Store]. *)
Definition value_schema (properties : list (string * PropType))
    (extra_properties_allowed : bool) : ObjectSchema :=
  mkObjectSchema properties extra_properties_allowed.

Module Store.

Record ObjectSchema : Type := mkObjectSchema {
  properties_ : list (string * nat);
  extra_properties_allowed_ : bool
}.

(** [new PropType(...)]: the object is put at an address that is not in use. *)
Definition allocate (heap : gmap nat PropType) (object : PropType)
  : gmap nat PropType * nat :=
  let address := fresh (dom heap) in
  (<[address := object]> heap, address).

(** [pair.second->Clone()]: a new object that duplicates the one at
    [address]; nothing when the address is not that of an object. *)
Definition ClonePropType (heap : gmap nat PropType) (address : nat)
  : option (gmap nat PropType * nat) :=
  match heap !! address with
  | Some object => Some (allocate heap (PropType_Clone object))
  | None => None
  end.

(** The loop of [ObjectSchema::Clone()] over [properties_]; when [emplace]
    does not insert, the clone it was given is destroyed. *)
Fixpoint Clone_loop (heap : gmap nat PropType) (iter : list (string * nat))
    (cloned : list (string * nat))
  : option (gmap nat PropType * list (string * nat)) :=
  match iter with
  | [] => Some (heap, cloned)
  | (name, address) :: iter' =>
      match ClonePropType heap address with
      | Some (heap', address') =>
          match Dict.find name cloned with
          | Some _ => Clone_loop (delete address' heap') iter' cloned
          | None => Clone_loop heap' iter' (Dict.set name address' cloned)
          end
      | None => None
      end
  end.

(** [ObjectSchema::Clone()]. *)
Definition Clone (heap : gmap nat PropType) (this : ObjectSchema)
  : option (gmap nat PropType * ObjectSchema) :=
  match Clone_loop heap (properties_ this) [] with
  | Some (heap', cloned) =>
      Some (heap', mkObjectSchema cloned (extra_properties_allowed_ this))
  | None => None
  end.

(** [ObjectSchema::GetProp(name)], the object pointed to. *)
Definition GetProp (heap : gmap nat PropType) (this : ObjectSchema)
    (name : string) : option PropType :=
  match Dict.find name (properties_ this) with
  | Some address => heap !! address
  | None => None
  end.

(** [ObjectSchema::AddProp(name, prop)], [prop] being the address of the
    object handed over: an object the map held for [name] is destroyed. *)
Definition AddProp (heap : gmap nat PropType) (this : ObjectSchema)
    (name : string) (prop : nat) : gmap nat PropType * ObjectSchema :=
  (match Dict.find name (properties_ this) with
   | Some old => delete old heap
   | None => heap
   end,
   mkObjectSchema (Dict.set name prop (properties_ this))
     (extra_properties_allowed_ this)).

(** [ObjectSchema::MarkPropRequired(name, error)]. *)
Definition MarkPropRequired (heap : gmap nat PropType) (this : ObjectSchema)
    (name : string) (error : ErrorPtr) : bool * gmap nat PropType * ErrorPtr :=
  match Dict.find name (properties_ this) with
  | None =>
      (false, heap,
       AddTo error errors.commands.kDomain errors.commands.kUnknownProperty
         ("Unknown property '" ++ c_str name ++ "'"))
  | Some address =>
      (true, alter (PropType_MakeRequired true) address heap, error)
  end.

(** The loop of [ObjectSchema::ToJson]. *)
Fixpoint ToJson_loop (heap : gmap nat PropType) (iter : list (string * nat))
    (full_schema in_command_def : bool) (value : list (string * Value))
  : option (list (string * Value)) :=
  match iter with
  | [] => Some value
  | (name, address) :: iter' =>
      match heap !! address with
      | Some object =>
          ToJson_loop heap iter' full_schema in_command_def
            (Dict.set name (PropType_ToJson object full_schema in_command_def)
               value)
      | None => None
      end
  end.

(** [ObjectSchema::ToJson(full_schema, in_command_def)]. *)
Definition ToJson (heap : gmap nat PropType) (this : ObjectSchema)
    (full_schema in_command_def : bool) : option Value :=
  match ToJson_loop heap (properties_ this) full_schema in_command_def [] with
  | Some value => Some (TYPE_DICTIONARY value)
  | None => None
  end.

(** The schema as a value: every address replaced by the object it points
    to. *)
Fixpoint contents_loop (heap : gmap nat PropType) (iter : list (string * nat))
  : option (list (string * PropType)) :=
  match iter with
  | [] => Some []
  | (name, address) :: iter' =>
      match heap !! address, contents_loop heap iter' with
      | Some object, Some rest => Some ((name, object) :: rest)
      | _, _ => None
      end
  end.

Definition contents (heap : gmap nat PropType) (this : ObjectSchema)
  : option (ObjectSchemaOf PropType) :=
  match contents_loop heap (properties_ this) with
  | Some properties =>
      Some (value_schema properties (extra_properties_allowed_ this))
  | None => None
  end.

(** The addresses a schema holds. *)
Definition owned (this : ObjectSchema) : list nat :=
  map snd (properties_ this).

(** Every address the schema holds is the address of an object. *)
Definition allocated (heap : gmap nat PropType) (this : ObjectSchema) : bool :=
  forallb
    (fun address =>
       match heap !! address with Some _ => true | None => false end)
    (owned this).

End Store.
(** ** Induction on JSON values and on property types *)

Section ValueInduction.
Variable P : Value -> Prop.
Hypothesis Hnull : P TYPE_NULL.
Hypothesis Hboolean : forall b, P (TYPE_BOOLEAN b).
Hypothesis Hinteger : forall i, P (TYPE_INTEGER i).
Hypothesis Hdouble : forall d, P (TYPE_DOUBLE d).
Hypothesis Hstring : forall s, P (TYPE_STRING s).
Hypothesis Hbinary : forall bytes, P (TYPE_BINARY bytes).
Hypothesis Hdictionary :
  forall dict, Forall (fun entry => P (snd entry)) dict -> P (TYPE_DICTIONARY dict).
Hypothesis Hlist : forall list, Forall P list -> P (TYPE_LIST list).

Fixpoint Value_ind (value : Value) : P value :=
  match value with
  | TYPE_NULL => Hnull
  | TYPE_BOOLEAN b => Hboolean b
  | TYPE_INTEGER i => Hinteger i
  | TYPE_DOUBLE d => Hdouble d
  | TYPE_STRING s => Hstring s
  | TYPE_BINARY bytes => Hbinary bytes
  | TYPE_DICTIONARY dict =>
      Hdictionary dict
        ((fix entries (dict : list (string * Value))
            : Forall (fun entry => P (snd entry)) dict :=
            match dict with
            | [] => @List.Forall_nil _ _
            | entry :: dict' =>
                @List.Forall_cons _ _ entry dict' (Value_ind (snd entry))
                  (entries dict')
            end) dict)
  | TYPE_LIST values =>
      Hlist values
        ((fix elements (values : list Value) : Forall P values :=
            match values with
            | [] => @List.Forall_nil _ _
            | value :: values' =>
                @List.Forall_cons _ _ value values' (Value_ind value)
                  (elements values')
            end) values)
  end.
End ValueInduction.

Section PropTypeInduction.
Variable P : PropType -> Prop.
Hypothesis Hint : forall a lo hi, P (IntPropType a lo hi).
Hypothesis Hdouble : forall a lo hi, P (DoublePropType a lo hi).
Hypothesis Hstring : forall a lo hi, P (StringPropType a lo hi).
Hypothesis Hboolean : forall a, P (BooleanPropType a).
Hypothesis Hobject :
  forall a schema inherited,
    Forall (fun entry => P (snd entry)) (properties_ schema) ->
    P (ObjectPropType a schema inherited).
Hypothesis Harray_none : forall a inherited, P (ArrayPropType a None inherited).
Hypothesis Harray :
  forall a item inherited, P item -> P (ArrayPropType a (Some item) inherited).

Fixpoint PropType_ind (p : PropType) : P p :=
  match p with
  | IntPropType a lo hi => Hint a lo hi
  | DoublePropType a lo hi => Hdouble a lo hi
  | StringPropType a lo hi => Hstring a lo hi
  | BooleanPropType a => Hboolean a
  | ObjectPropType a schema inherited =>
      Hobject a schema inherited
        ((fix entries (props : list (string * PropType))
            : Forall (fun entry => P (snd entry)) props :=
            match props with
            | [] => @List.Forall_nil _ _
            | entry :: props' =>
                @List.Forall_cons _ _ entry props' (PropType_ind (snd entry))
                  (entries props')
            end) (properties_ schema))
  | ArrayPropType a None inherited => Harray_none a inherited
  | ArrayPropType a (Some item) inherited =>
      Harray a item inherited (PropType_ind item)
  end.
End PropTypeInduction.

(** ** The error chain is only ever extended *)

(** [m] does not look at the chain it receives: it yields a result, and adds
    errors on top of the chain only when it has no result. *)
Definition framed {A : Type} (m : M A) : Prop :=
  exists (result : option A) (added : ErrorPtr),
    (forall error, m error = (result, added ++ error))
    /\ (result <> None -> added = []).


(** What the recursive call must satisfy on a dictionary: on its entries, and
    on the entries of the dictionaries it holds. *)
Definition framed_on (rec : Value -> option PropType -> M PropType)
    (dict : list (string * Value)) : Prop :=
  Forall (fun entry =>
            (forall base, framed (rec (snd entry) base))
            /\ forall props, snd entry = TYPE_DICTIONARY props ->
                 Forall (fun entry' =>
                           forall base, framed (rec (snd entry') base))
                   props)
    dict.

(** ** Vocabulary of the statements *)

(** The three shapes a property definition may have. *)
Definition IsDefinitionShape (value : Value) : bool :=
  match value with
  | TYPE_STRING _ | TYPE_LIST _ | TYPE_DICTIONARY _ => true
  | _ => false
  end.

Definition has_min_max (dict : list (string * Value)) : bool :=
  Dict.HasKey commands.attributes.kNumeric_Min dict
  || Dict.HasKey commands.attributes.kNumeric_Max dict.

Definition has_double_bound (dict : list (string * Value)) : bool :=
  IsDouble (Dict.find commands.attributes.kNumeric_Min dict)
  || IsDouble (Dict.find commands.attributes.kNumeric_Max dict).

Definition base_is_double (base_schema : option PropType) : bool :=
  match base_schema with
  | Some base => ValueType.eqb (PropType_GetType base) ValueType.Double
  | None => false
  end.

(** The arrays the shorthand for an enum cannot be typed from: the empty one,
    one whose first element is null or binary, one whose first element is an
    array of arrays. *)
Definition undetectable (values : list Value) : bool :=
  match values with
  | [] => true
  | TYPE_NULL :: _ | TYPE_BINARY _ :: _ => true
  | TYPE_LIST (TYPE_LIST _ :: _) :: _ => true
  | _ => false
  end.

(** The kind read off the first element of an array. *)
Definition element_kind (first_element : Value) : option ValueType :=
  match first_element with
  | TYPE_BOOLEAN _ => Some ValueType.Boolean
  | TYPE_INTEGER _ => Some ValueType.Int
  | TYPE_DOUBLE _ => Some ValueType.Double
  | TYPE_STRING _ => Some ValueType.String
  | TYPE_DICTIONARY _ => Some ValueType.Object
  | _ => None
  end.

(** The type name a property definition resolves to, from which
    [CreatePropType] creates the property type: the string itself, the name
    detected from an array, the ["type"] of an object or the name detected
    from its other keys, the name of the base schema when nothing is
    detected. *)
Definition ResolvedTypeName (value : Value) (base_schema : option PropType)
  : option string :=
  match value with
  | TYPE_STRING type_name => Some type_name
  | TYPE_LIST values =>
      let type_name := DetectArrayType values base_schema true in
      if string_empty type_name then None else Some type_name
  | TYPE_DICTIONARY dict =>
      let type_name :=
        if Dict.HasKey commands.attributes.kType dict then
          match Dict.find commands.attributes.kType dict with
          | Some (TYPE_STRING type_name) => Some type_name
          | _ => None
          end
        else Some (DetectObjectType dict base_schema) in
      match type_name with
      | Some type_name =>
          if string_empty type_name
          then option_map PropType_GetTypeAsString base_schema
          else Some type_name
      | None => None
      end
  | _ => None
  end.

(** The kind a property definition declares or is detected to have. *)
Definition DeclaredKind (value : Value) (base_schema : option PropType)
  : option ValueType :=
  match ResolvedTypeName value base_schema with
  | Some type_name =>
      option_map PropType_GetType (fst (CreatePropType type_name []))
  | None => None
  end.

(** The dictionary [PropType::FromJson] reads for a definition. *)
Definition DefinitionObject (value : Value) : list (string * Value) :=
  match value with
  | TYPE_LIST values => [(commands.attributes.kOneOf_Enum, TYPE_LIST values)]
  | TYPE_DICTIONARY dict => dict
  | _ => []
  end.

(** The codes of an error chain, the outermost first. *)
Definition kind_changed_chain : list string :=
  [errors.commands.kInvalidObjectSchema; errors.commands.kInvalidPropDef;
   errors.commands.kPropTypeChanged].

(** [m] returns a result (on the empty chain, hence on every chain). *)
Definition succeeds {A : Type} (m : M A) : bool :=
  match fst (m []) with
  | Some _ => true
  | None => false
  end.

(** The sections of a command definition, in the order they are parsed. *)
Definition command_sections
  : list (string * (CommandDefinition -> ObjectSchema)) :=
  [(commands.attributes.kCommand_Parameters, GetParameters);
   (commands.attributes.kCommand_Progress, GetProgress);
   (commands.attributes.kCommand_Results, GetResults)].

(** Every property the schema shares with the base schema has the kind it has
    there. *)
Definition keeps_kinds (schema base : ObjectSchema) : Prop :=
  forall name p b,
    ObjectSchema_GetProp schema name = Some p ->
    ObjectSchema_GetProp base name = Some b ->
    PropType_GetType p = PropType_GetType b.

(** The base schema a definition of [schema] is parsed against. *)
Definition base_of (object_schema : option ObjectSchema) (name : string)
  : option PropType :=
  match object_schema with
  | Some schema => ObjectSchema_GetProp schema name
  | None => None
  end.

(** The naming rule of the loading algorithm: the name of a command is refused
    when it is empty, and when a base dictionary is given that has no entry of
    the full name and the name does not start with an underscore. *)
Definition refused_command_name (package_name command_name : string)
    (base_commands : option CommandDictionary) : bool :=
  string_empty command_name
  || match base_commands with
     | Some base =>
         match FindCommand base (package_name ++ "." ++ command_name) with
         | Some _ => false
         | None => negb (starts_with_underscore command_name)
         end
     | None => false
     end.

(** The definition object of a command loads against the definition
    [base_def] of the base dictionary, if any: its three sections are built,
    and its visibility and its minimal role, when it states them, are
    parsed. *)
Definition definition_loads (command_def_json : list (string * Value))
    (base_def : option CommandDefinition) (full_command_name : string) : bool :=
  forallb
    (fun section =>
       succeeds (BuildObjectSchema command_def_json (fst section)
                   (option_map (snd section) base_def) full_command_name))
    command_sections
  && match
       Dict.find commands.attributes.kCommand_Visibility command_def_json
     with
     | Some (TYPE_STRING value) => succeeds (Visibility_FromString value)
     | _ => true
     end
  && match Dict.find commands.attributes.kCommand_Role command_def_json with
     | Some (TYPE_STRING value) => succeeds (UserRole_FromString value)
     | _ => true
     end.

(** The definition of the base dictionary a command is loaded against. *)
Definition base_definition (base_commands : option CommandDictionary)
    (full_command_name : string) : option CommandDefinition :=
  match base_commands with
  | Some base => FindCommand base full_command_name
  | None => None
  end.

(** The tree that has the packages [before], then the package [package_name]
    with the commands [commands_before], the command [command_name] and the
    commands [commands_after], then the packages [after]. *)
Definition tree_around (before : list (string * Value)) (package_name : string)
    (commands_before : list (string * Value)) (command_name : string)
    (command_value : Value) (commands_after after : list (string * Value))
  : list (string * Value) :=
  before
  ++ (package_name,
      TYPE_DICTIONARY
        (commands_before ++ (command_name, command_value) :: commands_after))
     :: after.

(** What of the tree is loaded before the command [command_name] of
    [tree_around]. *)
Definition tree_before (before : list (string * Value)) (package_name : string)
    (commands_before : list (string * Value)) : list (string * Value) :=
  before ++ [(package_name, TYPE_DICTIONARY commands_before)].

(** The definition of a command keeps the kinds of the definition of the base
    dictionary, in its three sections. *)
Definition command_keeps_kinds (def base_def : CommandDefinition) : Prop :=
  keeps_kinds (GetParameters def) (GetParameters base_def)
  /\ keeps_kinds (GetProgress def) (GetProgress base_def)
  /\ keeps_kinds (GetResults def) (GetResults base_def).

(** ** The trees of the unit tests *)

(** The dictionary a tree loads into an empty dictionary, with no base
    dictionary. *)
Definition dictionary_of (json : list (string * Value)) : CommandDictionary :=
  match LoadCommands (mkCommandDictionary []) json None [] with
  | Returned true this _ => this
  | _ => mkCommandDictionary []
  end.

(** The command [base.reboot] of the tests, with the definitions of its
    parameters and of its results. *)
Definition reboot_json (parameters results : list (string * Value))
  : list (string * Value) :=
  [("base",
    TYPE_DICTIONARY
      [("reboot",
        TYPE_DICTIONARY
          [("parameters", TYPE_DICTIONARY parameters);
           ("results", TYPE_DICTIONARY results)])])].

(** The base dictionary of the test [LoadCommands_RedefineStdCommand]. *)
Definition std_dictionary : CommandDictionary :=
  dictionary_of
    (reboot_json [("delay", TYPE_STRING "integer")]
       [("version", TYPE_STRING "integer")]).

(** The sections [before] of the definition [def] of a command are built
    against the sections of [base_def]. *)
Definition sections_built (def : list (string * Value))
    (base_def : CommandDefinition) (full_command_name : string)
    (before : list (string * (CommandDefinition -> ObjectSchema))) : bool :=
  forallb
    (fun section =>
       succeeds (BuildObjectSchema def (fst section)
                   (Some (snd section base_def)) full_command_name))
    before.

(** The definitions gathered by the loops keep the kinds of the base
    dictionary. *)
Definition defs_keep_kinds (base : CommandDictionary)
    (defs : list (string * CommandDefinition)) : Prop :=
  forall full_command_name def base_def,
    Dict.find full_command_name defs = Some def ->
    FindCommand base full_command_name = Some base_def ->
    command_keeps_kinds def base_def.

(** The value at a path of keys in a JSON object. *)
Fixpoint Value_at (path : list string) (value : Value) : option Value :=
  match path with
  | [] => Some value
  | key :: path' =>
      match value with
      | TYPE_DICTIONARY dict =>
          match Dict.find key dict with
          | Some value' => Value_at path' value'
          | None => None
          end
      | _ => None
      end
  end.

(** The trees of the end-to-end example: the base dictionary, and the overlay
    that redefines the parameter delay of base.reboot. *)
Definition example_base_json : list (string * Value) :=
  [("base",
    TYPE_DICTIONARY
      [("reboot",
        TYPE_DICTIONARY
          [("parameters",
            TYPE_DICTIONARY
              [("delay", TYPE_DICTIONARY [("maximum", TYPE_INTEGER 100)])]);
           ("results", TYPE_DICTIONARY [])])])].

Definition example_overlay_json : list (string * Value) :=
  [("base",
    TYPE_DICTIONARY
      [("reboot",
        TYPE_DICTIONARY
          [("parameters",
            TYPE_DICTIONARY
              [("delay", TYPE_DICTIONARY [("minimum", TYPE_INTEGER 10)])])])])].

(** Whether a name has the separator of package and property. *)
Fixpoint contains_dot (name : string) : bool :=
  match name with
  | EmptyString => false
  | String c rest => Ascii.eqb c "." || contains_dot rest
  end.

(** The state manager of the unit tests, after the definition of the packages
    base and device is loaded. *)
Definition test_state_manager : StateManager :=
  snd (fst (LoadStateDefinition StateManager_Create
              [("base",
                TYPE_DICTIONARY
                  [("manufacturer", TYPE_STRING "string");
                   ("serialNumber", TYPE_STRING "string")]);
               ("device",
                TYPE_DICTIONARY [("state_property", TYPE_STRING "string")])]
              [])).

(** Every key of [d] is above [k]. *)
Definition above {A : Type} (k : string) (d : list (string * A)) : Prop :=
  Forall (fun entry => String_as_OT.lt k (fst entry)) d.

(** Every key of [acc] is below [k]. *)
Definition below {A : Type} (acc : list (string * A)) (k : string) : Prop :=
  Forall (fun entry => String_as_OT.lt (fst entry) k) acc.

(** The entries of the clone of a schema against the entries of the schema:
    the same names in the same order, and at each name the address of a new
    object, which is the clone of the object of the schema. *)
Definition cloned_entries (heap heap' : gmap nat PropType)
    (iter news : list (string * nat)) : Prop :=
  Forall2
    (fun entry entry' =>
       fst entry' = fst entry
       /\ heap !! snd entry' = None
       /\ exists object,
            heap !! snd entry = Some object
            /\ heap' !! snd entry' = Some (PropType_Clone object))
    iter news.

(** ** Property types that come out of the parser *)

(** Every Array of the property type, at any depth, has its item type. *)
Fixpoint complete (p : PropType) : bool :=
  match p with
  | ObjectPropType _ schema _ =>
      forallb (fun entry => complete (snd entry)) (properties_ schema)
  | ArrayPropType _ (Some item) _ => complete item
  | ArrayPropType _ None _ => false
  | _ => true
  end.

(** The attribute, if any, is stated by the definition itself. *)
Definition own {T : Type} (a : option (InheritableAttribute T)) : Prop :=
  match a with
  | Some a => is_inherited a = false
  | None => True
  end.

(** The common attributes of a definition parsed with no base schema: nothing
    is inherited, and the default and the allowed values are values of the
    kind. *)
Definition parsed_attrs (type : ValueType) (a : PropAttrs) : Prop :=
  based_on_schema_ a = false
  /\ required_ a = false
  /\ match default_ a with
     | Some d =>
         is_inherited d = false
         /\ PropValue_FromJson type (attr d) = Some (attr d)
     | None => True
     end
  /\ match one_of_ a with
     | Some e =>
         is_inherited e = false
         /\ PropValue_FromJsonList type (attr e) = Some (attr e)
     | None => True
     end.

(** The shape of a property type parsed with no base schema. *)
Fixpoint parsed (p : PropType) : Prop :=
  parsed_attrs (PropType_GetType p) (PropType_GetAttrs p)
  /\ match p with
     | IntPropType _ lo hi | StringPropType _ lo hi => own lo /\ own hi
     | DoublePropType _ lo hi => own lo /\ own hi
     | BooleanPropType _ => True
     | ObjectPropType _ schema inherited =>
         inherited = false
         /\ extra_properties_allowed_ schema = false
         /\ Dict.sorted (properties_ schema) = true
         /\ (fix all (entries : list (string * PropType)) : Prop :=
               match entries with
               | [] => True
               | entry :: entries' => parsed (snd entry) /\ all entries'
               end) (properties_ schema)
     | ArrayPropType _ item inherited =>
         inherited = false
         /\ match item with
            | Some t => parsed t
            | None => True
            end
     end.

(** The property types [CreatePropType] makes. *)
Fixpoint created (p : PropType) : Prop :=
  PropType_GetAttrs p = PropType_no_attrs
  /\ match p with
     | IntPropType _ lo hi | StringPropType _ lo hi => lo = None /\ hi = None
     | DoublePropType _ lo hi => lo = None /\ hi = None
     | BooleanPropType _ => True
     | ObjectPropType _ schema inherited =>
         schema = mkObjectSchema [] false /\ inherited = false
     | ArrayPropType _ item inherited =>
         inherited = false
         /\ match item with
            | Some t => created t
            | None => True
            end
     end.

(** The shape of a schema parsed with no base schema. *)
Definition parsed_schema (schema : ObjectSchema) : Prop :=
  extra_properties_allowed_ schema = false
  /\ Dict.sorted (properties_ schema) = true
  /\ Forall (fun entry => parsed (snd entry)) (properties_ schema).

(** What the recursive call yields, on the entries of a dictionary, is
    parsed. *)
Definition yields_parsed (rec : Value -> option PropType -> M PropType)
    (dict : list (string * Value)) : Prop :=
  Forall
    (fun entry =>
       forall error p error',
         rec (snd entry) None error = (Some p, error') -> parsed p)
    dict.

(** What the recursive call must yield on the dictionary [PropType::FromJson]
    reads: parsed property types on its entries, and on the entries of the
    dictionaries it holds. *)
Definition yields_parsed_on (rec : Value -> option PropType -> M PropType)
    (dict : list (string * Value)) : Prop :=
  Forall
    (fun entry =>
       (forall error p error',
           rec (snd entry) None error = (Some p, error') -> parsed p)
       /\ forall props,
            snd entry = TYPE_DICTIONARY props -> yields_parsed rec props)
    dict.

(** The part of the full serialization of a property type that is of its
    kind: the type name and the constraints of the kind. *)
Definition KindObject (p : PropType) (in_command_def : bool)
  : list (string * Value) :=
  let dict :=
    [(commands.attributes.kType, TYPE_STRING (PropType_GetTypeAsString p))] in
  match p with
  | IntPropType _ lo hi =>
      emit true commands.attributes.kNumeric_Max TYPE_INTEGER hi
        (emit true commands.attributes.kNumeric_Min TYPE_INTEGER lo dict)
  | DoublePropType _ lo hi =>
      emit true commands.attributes.kNumeric_Max TYPE_DOUBLE hi
        (emit true commands.attributes.kNumeric_Min TYPE_DOUBLE lo dict)
  | StringPropType _ lo hi =>
      emit true commands.attributes.kString_MaxLength TYPE_INTEGER hi
        (emit true commands.attributes.kString_MinLength TYPE_INTEGER lo dict)
  | BooleanPropType _ => dict
  | ObjectPropType _ schema _ =>
      Dict.set commands.attributes.kObject_Properties
        (ObjectSchema_ToJson schema true in_command_def) dict
  | ArrayPropType _ (Some item) _ =>
      Dict.set commands.attributes.kItems
        (PropType_ToJson item true in_command_def) dict
  | ArrayPropType _ None _ => dict
  end.

(** The full serialization of a property type, as a dictionary. *)
Definition FullObject (p : PropType) (in_command_def : bool)
  : list (string * Value) :=
  emit true commands.attributes.kDefault (fun v => v)
    (default_ (PropType_GetAttrs p))
    (emit true commands.attributes.kOneOf_Enum TYPE_LIST
       (one_of_ (PropType_GetAttrs p)) (KindObject p in_command_def)).

(** Parsing the full serialization of [p] with no base schema gives [p]
    back, and no error. *)
Definition reparses (p : PropType) : Prop :=
  forall in_command_def error,
    ObjectSchema_PropFromJson (PropType_ToJson p true in_command_def) None error
    = (Some p, error).

(** A definition with a constrained number, a string with an enum and a
    default, an array and a nested object. *)
Definition example_definition : Value :=
  TYPE_DICTIONARY
    [("properties",
      TYPE_DICTIONARY
        [("delay",
          TYPE_DICTIONARY
            [("maximum", TYPE_INTEGER 100); ("minimum", TYPE_INTEGER 10)]);
         ("mode",
          TYPE_DICTIONARY
            [("default", TYPE_STRING "slow");
             ("enum", TYPE_LIST [TYPE_STRING "slow"; TYPE_STRING "fast"])]);
         ("tags", TYPE_STRING "array.string");
         ("where",
          TYPE_DICTIONARY
            [("properties",
              TYPE_DICTIONARY [("x", TYPE_STRING "number")])])])].

(** ** Vocabulary of the further properties *)

(** The property type the array of a shorthand definition stands for, read
    off its first element: the kind of a scalar or of an object, an Array of
    that kind for an array that starts with one; nothing for the other
    arrays. *)
Definition DetectedType (values : list Value) : option PropType :=
  match values with
  | [] => None
  | first :: _ =>
      match element_kind first with
      | Some type => Some (PropType_Create type)
      | None =>
          match first with
          | TYPE_LIST (inner :: _) =>
              option_map
                (fun type =>
                   ArrayPropType PropType_no_attrs
                     (Some (PropType_Create type)) false)
                (element_kind inner)
          | _ => None
          end
      end
  end.

(** The definition [entry] of a property parses on its own against the
    property of its name in the base schema, if any. *)
Definition parses (object_schema : option ObjectSchema)
    (entry : string * Value) : bool :=
  match
    fst (ObjectSchema_PropFromJson (snd entry)
           (base_of object_schema (fst entry)) [])
  with
  | Some _ => true
  | None => false
  end.

(** The definition object states no type name and none is detected from its
    keys: it has no ["type"] and [DetectObjectType] returns the empty string,
    or its ["type"] is the empty string. *)
Definition no_type_name (dict : list (string * Value))
    (base_schema : option PropType) : bool :=
  match Dict.find commands.attributes.kType dict with
  | Some (TYPE_STRING type_name) => string_empty type_name
  | Some _ => false
  | None => string_empty (DetectObjectType dict base_schema)
  end.

(** [m] keeps the discipline of the error chain: what it returns and the
    errors it adds do not depend on the chain it receives; it adds no error
    when it returns a result, and at least one when it returns none. *)
Definition reported {A : Type} (m : M A) : Prop :=
  exists (result : option A) (added : ErrorPtr),
    (forall error, m error = (result, added ++ error))
    /\ (result <> None -> added = [])
    /\ (result = None -> added <> []).

(** What the recursive call must satisfy on a dictionary: on its entries, and
    on the entries of the dictionaries it holds. *)
Definition reported_on (rec : Value -> option PropType -> M PropType)
    (dict : list (string * Value)) : Prop :=
  Forall (fun entry =>
            (forall base, reported (rec (snd entry) base))
            /\ forall props, snd entry = TYPE_DICTIONARY props ->
                 Forall (fun entry' =>
                           forall base, reported (rec (snd entry') base))
                   props)
    dict.

(** What precedes the first dot of a type name, the whole name when it has no
    dot: [primary_type] in [CreatePropType]. *)
Definition primary_type (type_name : string) : string :=
  snd (fst (SplitAtFirst type_name ".")).

(** The keys [DetectObjectType] looks up. *)
Definition detection_keys : list string :=
  [commands.attributes.kNumeric_Min; commands.attributes.kNumeric_Max;
   commands.attributes.kString_MinLength; commands.attributes.kString_MaxLength;
   commands.attributes.kObject_Properties; commands.attributes.kItems;
   commands.attributes.kOneOf_Enum; commands.attributes.kDefault].

(** ** [examples/daemon/light/light.cc]: the command handlers of the light

    The handlers of [LightHandler] read the parameters of a command, update
    the fields of the handler and call the command ([Complete], [Abort]) and
    the device ([SetStateProperties]); a handler is a function from the
    fields and the command to the fields it leaves and the calls it makes, in
    order.  The log lines are left out. *)

(** [base::DictionaryValue::Set(path, in_value)], on the components of the
    path (the parts between its dots): every component but the last names a
    child dictionary, which is created, in place of whatever the key held,
    when there is none; the last one is set in the innermost dictionary. *)
Fixpoint DictionaryValue_SetAt (keys : list string) (in_value : Value)
    (dict : list (string * Value)) : list (string * Value) :=
  match keys with
  | [] => dict
  | [key] => Dict.set key in_value dict
  | key :: keys' =>
      let child_dictionary :=
        match Dict.find key dict with
        | Some (TYPE_DICTIONARY child) => child
        | _ => []
        end in
      Dict.set key
        (TYPE_DICTIONARY (DictionaryValue_SetAt keys' in_value child_dictionary))
        dict
  end.

Definition DictionaryValue_Set (path : string) (in_value : Value)
    (dict : list (string * Value)) : list (string * Value) :=
  DictionaryValue_SetAt (Split path ".") in_value dict.

(** [base::DictionaryValue::Get(path, &out_value)]. *)
Fixpoint DictionaryValue_GetAt (keys : list string)
    (dict : list (string * Value)) : option Value :=
  match keys with
  | [] => None
  | [key] => Dict.find key dict
  | key :: keys' =>
      match Dict.find key dict with
      | Some (TYPE_DICTIONARY child) => DictionaryValue_GetAt keys' child
      | _ => None
      end
  end.

Definition DictionaryValue_Get (path : string) (dict : list (string * Value))
  : option Value :=
  DictionaryValue_GetAt (Split path ".") dict.

(** [GetInteger], [GetString], [GetDictionary] and [GetDouble]: the value at
    the path, when it has the JSON type asked for; an integer is read as a
    double too. *)
Definition DictionaryValue_GetInteger (path : string)
    (dict : list (string * Value)) : option Z :=
  match DictionaryValue_Get path dict with
  | Some (TYPE_INTEGER i) => Some i
  | _ => None
  end.

Definition DictionaryValue_GetString (path : string)
    (dict : list (string * Value)) : option string :=
  match DictionaryValue_Get path dict with
  | Some (TYPE_STRING s) => Some s
  | _ => None
  end.

Definition DictionaryValue_GetDictionary (path : string)
    (dict : list (string * Value)) : option (list (string * Value)) :=
  match DictionaryValue_Get path dict with
  | Some (TYPE_DICTIONARY child) => Some child
  | _ => None
  end.

Definition DictionaryValue_GetDouble (path : string)
    (dict : list (string * Value)) : option double :=
  match DictionaryValue_Get path dict with
  | Some (TYPE_DOUBLE d) => Some d
  | Some (TYPE_INTEGER i) => Some (double_of_int i)
  | _ => None
  end.

(** What a handler sees of a [weave::Command]. *)
Record Command : Type := mkCommand {
  Command_GetName : string;
  Command_GetParameters : list (string * Value)
}.

(** The calls a handler makes: [cmd->Complete(results, nullptr)],
    [cmd->Abort(error, nullptr)] and
    [device_->SetStateProperties(state, nullptr)]. *)
Inductive HandlerCall : Type :=
| Command_Complete (results : list (string * Value))
| Command_Abort (error : ErrorPtr)
| Device_SetStateProperties (state : list (string * Value)).

(** The simulated state of the light, the fields of [LightHandler]. *)
Record LightHandler : Type := mkLightHandler {
  light_status_ : bool;
  brightness_state_ : Z;
  color_X_ : double;
  color_Y_ : double
}.

(** [LightHandler::UpdateLightState()]: the state dictionary handed to the
    device. *)
Definition LightHandler_UpdateLightState (this : LightHandler)
  : list HandlerCall :=
  let state := [] in
  let state :=
    DictionaryValue_Set "onOff.state"
      (TYPE_STRING (if light_status_ this then "on" else "standby")) state in
  let state :=
    DictionaryValue_Set "brightness.brightness"
      (TYPE_INTEGER (brightness_state_ this)) state in
  let colorXY := [] in
  let colorXY :=
    DictionaryValue_Set "colorX" (TYPE_DOUBLE (color_X_ this)) colorXY in
  let colorXY :=
    DictionaryValue_Set "colorY" (TYPE_DOUBLE (color_Y_ this)) colorXY in
  let state :=
    DictionaryValue_Set "colorXY.colorSetting" (TYPE_DICTIONARY colorXY) state in
  [Device_SetStateProperties state].

(** The error of a command whose parameters cannot be read. *)
Definition invalid_parameters : ErrorPtr :=
  AddTo [] "example" "invalid_parameter_value" "Invalid parameters".

(** [LightHandler::OnBrightnessSetConfig(command)]; [command] is what
    [command.lock()] gives, nothing when the command is gone. *)
Definition LightHandler_OnBrightnessSetConfig (this : LightHandler)
    (command : option Command) : LightHandler * list HandlerCall :=
  match command with
  | None => (this, [])
  | Some cmd =>
      match
        DictionaryValue_GetInteger "brightness" (Command_GetParameters cmd)
      with
      | Some brightness_value =>
          if negb (Z.eqb (brightness_state_ this) brightness_value) then
            let this' :=
              mkLightHandler (light_status_ this) brightness_value
                (color_X_ this) (color_Y_ this) in
            (this', LightHandler_UpdateLightState this' ++ [Command_Complete []])
          else (this, [Command_Complete []])
      | None => (this, [Command_Abort invalid_parameters])
      end
  end.

(** [LightHandler::OnOnOffSetConfig(command)]. *)
Definition LightHandler_OnOnOffSetConfig (this : LightHandler)
    (command : option Command) : LightHandler * list HandlerCall :=
  match command with
  | None => (this, [])
  | Some cmd =>
      match DictionaryValue_GetString "state" (Command_GetParameters cmd) with
      | Some requested_state =>
          let new_light_status := String.eqb requested_state "on" in
          if negb (Bool.eqb new_light_status (light_status_ this)) then
            let this' :=
              mkLightHandler new_light_status (brightness_state_ this)
                (color_X_ this) (color_Y_ this) in
            (this', LightHandler_UpdateLightState this' ++ [Command_Complete []])
          else (this, [Command_Complete []])
      | None => (this, [Command_Abort invalid_parameters])
      end
  end.

(** [LightHandler::OnColorXYSetConfig(command)]. *)
Definition LightHandler_OnColorXYSetConfig (this : LightHandler)
    (command : option Command) : LightHandler * list HandlerCall :=
  match command with
  | None => (this, [])
  | Some cmd =>
      match
        DictionaryValue_GetDictionary "_colorSetting" (Command_GetParameters cmd)
      with
      | Some colorXY =>
          let updateState := false in
          let '(this, updateState) :=
            match DictionaryValue_GetDouble "_colorX" colorXY with
            | Some X =>
                (mkLightHandler (light_status_ this) (brightness_state_ this)
                   X (color_Y_ this), true)
            | None => (this, updateState)
            end in
          let '(this, updateState) :=
            match DictionaryValue_GetDouble "_colorY" colorXY with
            | Some Y =>
                (mkLightHandler (light_status_ this) (brightness_state_ this)
                   (color_X_ this) Y, true)
            | None => (this, updateState)
            end in
          (this,
           (if updateState then LightHandler_UpdateLightState this else [])
           ++ [Command_Complete []])
      | None => (this, [Command_Abort invalid_parameters])
      end
  end.

(** The three handlers [Register] binds, by the name of the command. *)
Inductive Handler : Type := OnOnOffSetConfig | OnBrightnessSetConfig
                          | OnColorXYSetConfig.

Definition LightHandler_handle (handler : Handler) (this : LightHandler)
    (command : option Command) : LightHandler * list HandlerCall :=
  match handler with
  | OnOnOffSetConfig => LightHandler_OnOnOffSetConfig this command
  | OnBrightnessSetConfig => LightHandler_OnBrightnessSetConfig this command
  | OnColorXYSetConfig => LightHandler_OnColorXYSetConfig this command
  end.

(** The call ends the command. *)
Definition ends_command (call : HandlerCall) : bool :=
  match call with
  | Command_Complete _ | Command_Abort _ => true
  | Device_SetStateProperties _ => false
  end.

(** The state dictionaries a handler hands to the device. *)
Definition published (calls : list HandlerCall)
  : list (list (string * Value)) :=
  flat_map (fun call =>
              match call with
              | Device_SetStateProperties state => [state]
              | _ => []
              end) calls.

(** [n] times the prefix ["array."] of a type name. *)
Fixpoint array_prefix (n : nat) : string :=
  match n with
  | O => ""
  | S n' => "array." ++ array_prefix n'
  end.
(** * Properties *)

(** ** The error chain is only ever extended *)

Lemma framed_ret {A : Type} (a : A) : framed (ret a).
Proof. exists (Some a), []. split; [reflexivity | trivial]. Qed.

Lemma framed_fail {A : Type} (domain code message : string) :
  framed (@fail A domain code message).
Proof.
  exists None, [mkError domain code message].
  split; [reflexivity | congruence].
Qed.

Lemma framed_bind {A B : Type} (m : M A) (k : A -> M B) :
  framed m -> (forall a, framed (k a)) -> framed (bind m k).
Proof.
  intros (r & added & Hm & Hok) Hk.
  destruct r as [a|].
  - destruct (Hk a) as (r' & added' & Hk' & Hok').
    exists r', added'. split; [|exact Hok'].
    intros error. unfold bind. rewrite Hm, Hok by congruence. apply Hk'.
  - exists None, added. split; [|congruence].
    intros error. unfold bind. now rewrite Hm.
Qed.

Lemma framed_ext {A : Type} (m m' : M A) :
  (forall error, m error = m' error) -> framed m -> framed m'.
Proof.
  intros Heq (r & added & Hm & Hok). exists r, added.
  split; [|exact Hok]. intros error. rewrite <- Heq. apply Hm.
Qed.

Lemma framed_success {A : Type} (m : M A) (error error' : ErrorPtr) (a : A) :
  framed m -> m error = (Some a, error') -> error' = error.
Proof.
  intros (r & added & Hm & Hok) H. rewrite Hm in H.
  injection H as -> <-. now rewrite Hok.
Qed.

Lemma framed_any {A : Type} (m : M A) (error error' error0 : ErrorPtr)
    (a : A) :
  framed m -> m error = (Some a, error') -> m error0 = (Some a, error0).
Proof.
  intros (r & added & Hm & Hok) H. rewrite Hm in H |- *.
  injection H as -> _. now rewrite Hok.
Qed.

Lemma framed_error {A : Type} (code message : string) :
  framed (fun error => (@None A, AddTo error errors.commands.kDomain code message)).
Proof. apply (framed_fail errors.commands.kDomain code message). Qed.

Lemma framed_wrap_error {A : Type} (code message : string) (m : M A) :
  framed m -> framed (wrap_error code message m).
Proof.
  intros (r & added & Hm & Hok). destruct r as [a|].
  - exists (Some a), added. split; [|exact Hok].
    intros error. unfold wrap_error. now rewrite Hm.
  - exists None, (mkError errors.commands.kDomain code message :: added).
    split; [|congruence]. intros error. unfold wrap_error. now rewrite Hm.
Qed.

Lemma framed_CreatePropType_rec (fuel : nat) (type_name : string) :
  framed (CreatePropType_rec fuel type_name).
Proof.
  revert type_name. induction fuel as [|fuel IH]; intros type_name; simpl;
    destruct (SplitAtFirst type_name ".") as [[found primary] array_type];
    destruct (PropType_GetTypeFromTypeString primary) as [type|];
    try apply framed_error;
    destruct (ValueType.eqb type ValueType.Array && negb (string_empty array_type));
    try apply framed_ret.
  - exists None, []. split; [reflexivity | congruence].
  - destruct (IH array_type) as (r & added & Hm & Hok).
    destruct r as [items|].
    + exists (Some (PropType_SetItemType items (PropType_Create type))), added.
      split; [|intros _; apply Hok; congruence].
      intros error. now rewrite Hm.
    + exists None, added. split; [|congruence]. intros error. now rewrite Hm.
Qed.

Lemma framed_CreatePropType (type_name : string) :
  framed (CreatePropType type_name).
Proof. apply framed_CreatePropType_rec. Qed.

Lemma framed_ReadInteger key value base_attr :
  framed (ReadInteger key value base_attr).
Proof.
  unfold ReadInteger, type_mismatch.
  destruct (Dict.find key value) as [[]|];
    first [apply framed_ret | apply framed_fail].
Qed.

Lemma framed_ReadDouble key value base_attr :
  framed (ReadDouble key value base_attr).
Proof.
  unfold ReadDouble, type_mismatch.
  destruct (Dict.find key value) as [[]|];
    first [apply framed_ret | apply framed_fail].
Qed.

Lemma framed_ReadEnum type value base_attr :
  framed (ReadEnum type value base_attr).
Proof.
  unfold ReadEnum, type_mismatch.
  destruct (Dict.find commands.attributes.kOneOf_Enum value) as [[]|];
    try destruct (PropValue_FromJsonList type _);
    first [apply framed_ret | apply framed_fail].
Qed.

Lemma framed_ReadDefault type value base_attr :
  framed (ReadDefault type value base_attr).
Proof.
  unfold ReadDefault, type_mismatch.
  destruct (Dict.find commands.attributes.kDefault value) as [defval|];
    try destruct (PropValue_FromJson type defval);
    first [apply framed_ret | apply framed_fail].
Qed.

Create HintDb framed.
#[local] Hint Resolve framed_ret framed_fail framed_error framed_wrap_error
  framed_CreatePropType framed_ReadInteger framed_ReadDouble framed_ReadEnum
  framed_ReadDefault : framed.

Section FramedRecursive.
Variable PropFromJson : Value -> option PropType -> M PropType.

Lemma framed_FromJson_loop object_schema iter :
  Forall (fun entry => forall base, framed (PropFromJson (snd entry) base)) iter ->
  forall properties,
    framed (ObjectSchema_FromJson_loop PropFromJson object_schema iter properties).
Proof.
  induction 1 as [|[name value] iter Hvalue _ IH]; intros properties; simpl.
  - apply (framed_ret properties).
  - set (base_schema := match object_schema with
                        | Some schema => ObjectSchema_GetProp schema name
                        | None => None
                        end).
    destruct (Hvalue base_schema) as (r & added & Hm & Hok). simpl in Hm.
    destruct r as [prop|].
    + destruct (IH (Dict.emplace name prop properties))
        as (r' & added' & Hm' & Hok').
      exists r', added'. split; [|exact Hok'].
      intros error. rewrite Hm, Hok by congruence. apply Hm'.
    + eexists None, (_ :: added). split; [|congruence].
      intros error. rewrite Hm. reflexivity.
Qed.

Lemma framed_CreateFromJson value object_schema :
  Forall (fun entry => forall base, framed (PropFromJson (snd entry) base)) value ->
  framed (ObjectSchema_CreateFromJson_with PropFromJson value object_schema).
Proof.
  intros H.
  destruct (framed_FromJson_loop object_schema value H [])
    as (r & added & Hm & Hok).
  unfold ObjectSchema_CreateFromJson_with, ObjectSchema_FromJson_with.
  destruct r as [properties|].
  - eexists (Some _), added. split; [|intros _; apply Hok; congruence].
    intros error. rewrite Hm. reflexivity.
  - exists None, added. split; [|congruence].
    intros error. rewrite Hm. reflexivity.
Qed.

Lemma framed_PropType_FromJson prop value base_schema :
  framed_on PropFromJson value ->
  framed (PropType_FromJson_with PropFromJson prop value base_schema).
Proof.
  intros Hvalue. unfold PropType_FromJson_with.
  match goal with |- framed (if ?c then _ else _) => destruct c end;
    [apply framed_fail|].
  apply framed_bind.
  - destruct prop as [a lo hi|a lo hi|a lo hi|a|a own inh|a own inh].
    + destruct (match base_schema with
                | Some (IntPropType _ lo hi) => (lo, hi) | _ => (None, None)
                end) as [base_min base_max].
      repeat (apply framed_bind; [auto with framed|intros ?]). apply framed_ret.
    + destruct (match base_schema with
                | Some (DoublePropType _ lo hi) => (lo, hi) | _ => (None, None)
                end) as [base_min base_max].
      repeat (apply framed_bind; [auto with framed|intros ?]). apply framed_ret.
    + destruct (match base_schema with
                | Some (StringPropType _ lo hi) => (lo, hi) | _ => (None, None)
                end) as [base_min base_max].
      repeat (apply framed_bind; [auto with framed|intros ?]). apply framed_ret.
    + apply framed_ret.
    + set (base_object := match base_schema with
                          | Some (ObjectPropType _ schema _) => Some schema
                          | _ => None
                          end).
      clearbody base_object.
      induction Hvalue as [|[k v] value [_ Hprops] _ IH]; simpl.
      * destruct base_object; apply framed_ret.
      * destruct (String.eqb k commands.attributes.kObject_Properties);
          [|exact IH].
        destruct v; try apply framed_fail.
        apply framed_bind; [|intros ?; apply framed_ret].
        apply framed_CreateFromJson. now apply Hprops.
    + set (base_item := match base_schema with
                        | Some (ArrayPropType _ item _) => item
                        | _ => None
                        end).
      clearbody base_item.
      induction Hvalue as [|[k v] value [Hitem _] _ IH]; simpl.
      * destruct own, base_item; first [apply framed_ret | apply framed_fail].
      * destruct (String.eqb k commands.attributes.kItems); [|exact IH].
        apply framed_bind; [apply Hitem|intros ?; apply framed_ret].
  - intros kind.
    repeat (apply framed_bind; [auto with framed|intros ?]). apply framed_ret.
Qed.

Lemma framed_PropFromJsonString type_name base_schema :
  framed (PropFromJsonString_with PropFromJson type_name base_schema).
Proof.
  unfold PropFromJsonString_with.
  apply framed_bind; [auto with framed|intros prop].
  apply framed_PropType_FromJson. constructor.
Qed.

Lemma framed_PropFromJsonArray values base_schema :
  framed (PropFromJsonArray_with PropFromJson values base_schema).
Proof.
  unfold PropFromJsonArray_with.
  destruct (string_empty _); [apply framed_error|].
  apply framed_bind; [auto with framed|intros prop].
  unfold PropType_FromJson_with.
  match goal with |- framed (if ?c then _ else _) => destruct c end;
    [apply framed_fail|].
  apply framed_bind.
  - destruct prop as [a lo hi|a lo hi|a lo hi|a|a own inh|a own inh]; simpl.
    + destruct (match base_schema with
                | Some (IntPropType _ lo hi) => (lo, hi) | _ => (None, None)
                end) as [base_min base_max].
      repeat (apply framed_bind; [auto with framed|intros ?]). apply framed_ret.
    + destruct (match base_schema with
                | Some (DoublePropType _ lo hi) => (lo, hi) | _ => (None, None)
                end) as [base_min base_max].
      repeat (apply framed_bind; [auto with framed|intros ?]). apply framed_ret.
    + destruct (match base_schema with
                | Some (StringPropType _ lo hi) => (lo, hi) | _ => (None, None)
                end) as [base_min base_max].
      repeat (apply framed_bind; [auto with framed|intros ?]). apply framed_ret.
    + apply framed_ret.
    + destruct base_schema as [[]|]; apply framed_ret.
    + destruct own; [apply framed_ret|].
      destruct base_schema as [[| | | | |? [] ?]|];
        first [apply framed_ret | apply framed_fail].
  - intros kind.
    repeat (apply framed_bind; [auto with framed|intros ?]). apply framed_ret.
Qed.

Lemma framed_PropFromJsonObject dict base_schema :
  framed_on PropFromJson dict ->
  framed (PropFromJsonObject_with PropFromJson dict base_schema).
Proof.
  intros Hdict. unfold PropFromJsonObject_with.
  apply framed_bind.
  { destruct (Dict.HasKey commands.attributes.kType dict); [|apply framed_ret].
    destruct (Dict.find commands.attributes.kType dict) as [[]|];
      first [apply framed_ret | apply framed_error]. }
  intros type_name. apply framed_bind.
  { destruct (string_empty type_name); [|apply framed_ret].
    destruct base_schema; first [apply framed_ret | apply framed_error]. }
  intros type_name'. apply framed_bind; [auto with framed|intros prop].
  now apply framed_PropType_FromJson.
Qed.

End FramedRecursive.

(** [ObjectSchema::PropFromJson] leaves the error chain as it is when it
    returns a property type, and adds the same errors whatever the chain. *)
Lemma framed_PropFromJson_dictionary (value : Value) :
  (forall base_schema, framed (ObjectSchema_PropFromJson value base_schema))
  /\ forall props, value = TYPE_DICTIONARY props ->
       Forall (fun entry =>
                 forall base, framed (ObjectSchema_PropFromJson (snd entry) base))
         props.
Proof.
  induction value as [| | | | | |dict IH|values IH] using Value_ind;
    (split; [intros base_schema|intros props Hprops; try discriminate Hprops]);
    try apply framed_fail.
  - apply framed_PropFromJsonString.
  - simpl. apply framed_PropFromJsonObject. exact IH.
  - injection Hprops as <-.
    eapply Forall_impl; [exact IH|]. intros entry [H _]. exact H.
  - apply framed_PropFromJsonArray.
Qed.

Lemma framed_PropFromJson (value : Value) (base_schema : option PropType) :
  framed (ObjectSchema_PropFromJson value base_schema).
Proof. apply framed_PropFromJson_dictionary. Qed.

Lemma framed_ObjectSchema_CreateFromJson value object_schema :
  framed (ObjectSchema_CreateFromJson value object_schema).
Proof.
  apply framed_CreateFromJson. apply Forall_forall. intros entry _ base.
  apply framed_PropFromJson.
Qed.

(** ** Ordered maps *)

Lemma lt_irrefl (a : string) : ~ String_as_OT.lt a a.
Proof. apply (StrictOrder_Irreflexive (R:=String_as_OT.lt)). Qed.

Lemma lt_trans (a b c : string) :
  String_as_OT.lt a b -> String_as_OT.lt b c -> String_as_OT.lt a c.
Proof. apply (StrictOrder_Transitive (R:=String_as_OT.lt)). Qed.

Lemma compare_eq (a b : string) : String_as_OT.compare a b = Eq <-> a = b.
Proof.
  destruct (String_as_OT.compare_spec a b) as [H|H|H]; split; try congruence;
    intros ->; destruct (lt_irrefl _ H).
Qed.

Lemma compare_lt_neq (a b : string) : String_as_OT.compare a b = Lt -> a <> b.
Proof. intros H ->. exact (lt_irrefl _ H). Qed.

Lemma compare_gt_lt (a b : string) :
  String_as_OT.compare a b = Gt -> String_as_OT.lt b a.
Proof.
  destruct (String_as_OT.compare_spec a b) as [H|H|H]; congruence.
Qed.

Lemma compare_gt_neq (a b : string) : String_as_OT.compare a b = Gt -> a <> b.
Proof.
  intros H Heq. apply compare_eq in Heq. congruence.
Qed.

Lemma eqb_neq_false (a b : string) : a <> b -> String.eqb a b = false.
Proof. apply String.eqb_neq. Qed.

Section DictFacts.
Context {A : Type}.
Implicit Types (d : list (string * A)) (k n : string) (v : A).

Lemma find_set d k v n :
  Dict.find n (Dict.set k v d) = if String.eqb k n then Some v else Dict.find n d.
Proof.
  induction d as [|[h w] d IH]; simpl.
  - reflexivity.
  - destruct (String_as_OT.compare k h) eqn:Hcmp; simpl.
    + apply compare_eq in Hcmp. subst h.
      destruct (String.eqb k n); reflexivity.
    + reflexivity.
    + rewrite IH. destruct (String.eqb h n) eqn:Hhn; [|reflexivity].
      apply String.eqb_eq in Hhn. subst h.
      now rewrite (eqb_neq_false k n (compare_gt_neq _ _ Hcmp)).
Qed.

Lemma find_set_eq d k v : Dict.find k (Dict.set k v d) = Some v.
Proof. now rewrite find_set, String.eqb_refl. Qed.

Lemma find_set_ne d k v n :
  k <> n -> Dict.find n (Dict.set k v d) = Dict.find n d.
Proof. intros H. now rewrite find_set, (eqb_neq_false _ _ H). Qed.

Lemma find_emplace d k v n :
  Dict.find n (Dict.emplace k v d)
  = match Dict.find n d with
    | Some w => Some w
    | None => if String.eqb k n then Some v else None
    end.
Proof.
  unfold Dict.emplace. destruct (Dict.find k d) as [w|] eqn:Hk.
  - destruct (Dict.find n d) eqn:Hn; [reflexivity|].
    destruct (String.eqb k n) eqn:Hkn; [|reflexivity].
    apply String.eqb_eq in Hkn. congruence.
  - rewrite find_set. destruct (String.eqb k n) eqn:Hkn.
    + apply String.eqb_eq in Hkn. subst n. now rewrite Hk.
    + now destruct (Dict.find n d).
Qed.

Lemma find_In d k v : Dict.find k d = Some v -> In (k, v) d.
Proof.
  induction d as [|[h w] d IH]; simpl; [discriminate|].
  destruct (String.eqb h k) eqn:Hhk.
  - apply String.eqb_eq in Hhk. intros [= ->]. left. now subst.
  - intros H. right. now apply IH.
Qed.

Lemma In_find d k v : In (k, v) d -> Dict.find k d <> None.
Proof.
  induction d as [|[h w] d IH]; simpl; [tauto|].
  intros [[= -> ->]|H].
  - now rewrite String.eqb_refl.
  - destruct (String.eqb h k); [discriminate|]. now apply IH.
Qed.

Lemma find_alter d (f : A -> A) k n :
  Dict.find n (Dict.alter f k d)
  = if String.eqb k n then option_map f (Dict.find n d) else Dict.find n d.
Proof.
  induction d as [|[h w] d IH]; simpl.
  - now destruct (String.eqb k n).
  - destruct (String.eqb h k) eqn:Hhk; simpl.
    + apply String.eqb_eq in Hhk. subst h.
      destruct (String.eqb k n); reflexivity.
    + rewrite IH. destruct (String.eqb h n) eqn:Hhn; [|reflexivity].
      apply String.eqb_eq in Hhn. subst h. now rewrite String.eqb_sym, Hhk.
Qed.

Lemma find_with_find {B : Type} (f : A -> B) k d :
  Dict.find_with f k d = option_map f (Dict.find k d).
Proof.
  induction d as [|[h w] d IH]; simpl; [reflexivity|].
  now destruct (String.eqb h k).
Qed.

End DictFacts.

(** ** Maps in key order *)

Lemma compare_gt_of_lt (a b : string) :
  String_as_OT.lt a b -> String_as_OT.compare b a = Gt.
Proof.
  intros H. destruct (String_as_OT.compare_spec b a) as [Heq|Hlt|Hgt].
  - red in Heq. subst. destruct (lt_irrefl _ H).
  - destruct (lt_irrefl _ (lt_trans _ _ _ H Hlt)).
  - reflexivity.
Qed.

Lemma lt_neq (a b : string) : String_as_OT.lt a b -> a <> b.
Proof. intros H ->. exact (lt_irrefl _ H). Qed.

Section SortedFacts.
Context {A : Type}.
Implicit Types (d acc : list (string * A)) (k : string) (v : A).

Lemma sorted_cons k v d :
  Dict.sorted ((k, v) :: d) = true -> above k d /\ Dict.sorted d = true.
Proof.
  revert k v. induction d as [|[k' v'] d IH]; intros k v H.
  - split; [constructor|reflexivity].
  - simpl in H. destruct (String_as_OT.compare k k') eqn:Hcmp;
      try discriminate H.
    fold (Dict.sorted ((k', v') :: d)) in H.
    destruct (IH k' v' H) as [Habove Hsorted]. split; [|exact H].
    constructor; [exact Hcmp|].
    eapply Forall_impl; [exact Habove|]. intros entry Hentry.
    exact (lt_trans _ _ _ Hcmp Hentry).
Qed.

Lemma find_below acc k : below acc k -> Dict.find k acc = None.
Proof.
  induction 1 as [|[h w] acc Hlt _ IH]; simpl in *; [reflexivity|].
  now rewrite (eqb_neq_false _ _ (lt_neq _ _ Hlt)).
Qed.

Lemma find_above k d : above k d -> Dict.find k d = None.
Proof.
  induction 1 as [|[h w] d Hlt _ IH]; simpl in *; [reflexivity|].
  rewrite (eqb_neq_false h k); [exact IH|].
  intros ->. exact (lt_irrefl _ Hlt).
Qed.

Lemma set_below acc k v : below acc k -> Dict.set k v acc = acc ++ [(k, v)].
Proof.
  induction 1 as [|[h w] acc Hlt _ IH]; simpl; [reflexivity|].
  simpl in Hlt. now rewrite (compare_gt_of_lt _ _ Hlt), IH.
Qed.

Lemma emplace_below acc k v :
  below acc k -> Dict.emplace k v acc = acc ++ [(k, v)].
Proof.
  intros H. unfold Dict.emplace. rewrite (find_below _ _ H).
  now apply set_below.
Qed.

Lemma below_snoc acc k v k' :
  below acc k -> String_as_OT.lt k k' -> below (acc ++ [(k, v)]) k'.
Proof.
  intros Hacc Hlt. apply Forall_app. split.
  - eapply Forall_impl; [exact Hacc|]. intros entry Hentry.
    exact (lt_trans _ _ _ Hentry Hlt).
  - constructor; [exact Hlt|constructor].
Qed.

Lemma sorted_find_In k v d :
  Dict.sorted d = true -> In (k, v) d -> Dict.find k d = Some v.
Proof.
  induction d as [|[h w] d IH]; intros Hsorted Hin; [destruct Hin|].
  destruct (sorted_cons _ _ _ Hsorted) as [Habove Hsorted'].
  simpl. destruct Hin as [[= -> ->]|Hin].
  - now rewrite String.eqb_refl.
  - rewrite (eqb_neq_false h k); [now apply IH|].
    intros ->. apply (In_find d k v) in Hin.
    now rewrite (find_above _ _ Habove) in Hin.
Qed.

End SortedFacts.

Lemma sorted_map {A B : Type} (f : A -> B) (d : list (string * A)) :
  Dict.sorted (map (fun entry => (fst entry, f (snd entry))) d) = Dict.sorted d.
Proof.
  induction d as [|[k v] d IH]; [reflexivity|].
  destruct d as [|[k' v'] d]; [reflexivity|].
  simpl in *. now rewrite IH.
Qed.

(** Filling a map from the entries of a map in key order gives the entries
    back, in the same order. *)
Lemma fold_set_sorted {A B : Type} (f : A -> B) (d : list (string * A)) :
  forall acc,
    Dict.sorted d = true ->
    (forall entry, In entry d -> below acc (fst entry)) ->
    fold_left (fun acc entry => Dict.set (fst entry) (f (snd entry)) acc) d acc
    = acc ++ map (fun entry => (fst entry, f (snd entry))) d.
Proof.
  induction d as [|[k v] d IH]; intros acc Hsorted Hacc; simpl.
  - now rewrite app_nil_r.
  - destruct (sorted_cons _ _ _ Hsorted) as [Habove Hsorted'].
    rewrite (set_below acc k (f v)) by (apply (Hacc (k, v)); now left).
    rewrite IH; [now rewrite <- app_assoc|exact Hsorted'|].
    intros entry Hentry. apply below_snoc.
    + apply (Hacc (k, v)). now left.
    + unfold above in Habove. rewrite Forall_forall in Habove.
      now apply Habove, list_elem_of_In.
Qed.

Lemma fold_emplace_sorted {A B : Type} (f : A -> B) (d : list (string * A)) :
  forall acc,
    Dict.sorted d = true ->
    (forall entry, In entry d -> below acc (fst entry)) ->
    fold_left (fun acc entry => Dict.emplace (fst entry) (f (snd entry)) acc)
      d acc
    = acc ++ map (fun entry => (fst entry, f (snd entry))) d.
Proof.
  induction d as [|[k v] d IH]; intros acc Hsorted Hacc; simpl.
  - now rewrite app_nil_r.
  - destruct (sorted_cons _ _ _ Hsorted) as [Habove Hsorted'].
    rewrite (emplace_below acc k (f v)) by (apply (Hacc (k, v)); now left).
    rewrite IH; [now rewrite <- app_assoc|exact Hsorted'|].
    intros entry Hentry. apply below_snoc.
    + apply (Hacc (k, v)). now left.
    + unfold above in Habove. rewrite Forall_forall in Habove.
      now apply Habove, list_elem_of_In.
Qed.

(** The invariant is kept by the insertions. *)
Lemma sorted_cons_intro {A : Type} (k : string) (v : A)
    (d : list (string * A)) :
  above k d -> Dict.sorted d = true -> Dict.sorted ((k, v) :: d) = true.
Proof.
  intros Habove Hsorted. destruct d as [|[h w] d]; [reflexivity|].
  inversion Habove as [|? ? Hlt _]; subst. simpl in Hlt.
  change (match String_as_OT.compare k h with
          | Lt => Dict.sorted ((h, w) :: d)
          | _ => false
          end = true).
  now rewrite Hlt.
Qed.

Lemma above_set {A : Type} (k0 k : string) (v : A) (d : list (string * A)) :
  above k0 d -> String_as_OT.lt k0 k -> above k0 (Dict.set k v d).
Proof.
  intros Habove Hlt. induction Habove as [|[h w] d Hh Hd IH]; simpl.
  - constructor; [exact Hlt|constructor].
  - destruct (String_as_OT.compare k h).
    + constructor; [exact Hlt|assumption].
    + constructor; [exact Hlt|]. constructor; assumption.
    + constructor; assumption.
Qed.

Lemma sorted_set {A : Type} (k : string) (v : A) (d : list (string * A)) :
  Dict.sorted d = true -> Dict.sorted (Dict.set k v d) = true.
Proof.
  induction d as [|[h w] d IH]; intros Hsorted; [reflexivity|].
  destruct (sorted_cons _ _ _ Hsorted) as [Habove Hsorted'].
  simpl. destruct (String_as_OT.compare k h) eqn:Hcmp.
  - apply compare_eq in Hcmp. subst h. now apply sorted_cons_intro.
  - apply sorted_cons_intro; [|exact Hsorted].
    constructor; [exact Hcmp|].
    eapply Forall_impl; [exact Habove|]. intros entry Hentry.
    exact (lt_trans _ _ _ Hcmp Hentry).
  - apply sorted_cons_intro; [|now apply IH].
    apply above_set; [exact Habove|]. now apply compare_gt_lt.
Qed.

Lemma sorted_emplace {A : Type} (k : string) (v : A) (d : list (string * A)) :
  Dict.sorted d = true -> Dict.sorted (Dict.emplace k v d) = true.
Proof.
  intros H. unfold Dict.emplace. destruct (Dict.find k d); [exact H|].
  now apply sorted_set.
Qed.

(** ** Type names *)

Lemma GetTypeFromTypeString_name (type : ValueType) :
  PropType_GetTypeFromTypeString (PropType_GetTypeStringFromType type)
  = Some type.
Proof. destruct type; reflexivity. Qed.

Lemma CreatePropType_name (type : ValueType) (error : ErrorPtr) :
  CreatePropType (PropType_GetTypeStringFromType type) error
  = (Some (PropType_Create type), error).
Proof. destruct type; reflexivity. Qed.

Lemma GetType_Create (type : ValueType) :
  PropType_GetType (PropType_Create type) = type.
Proof. destruct type; reflexivity. Qed.

Lemma ValueType_eqb_eq (a b : ValueType) : ValueType.eqb a b = true <-> a = b.
Proof. destruct a, b; simpl; split; congruence. Qed.

Lemma ValueType_eqb_refl (a : ValueType) : ValueType.eqb a a = true.
Proof. destruct a; reflexivity. Qed.

(** ** Values that are no property definition *)

(** C10.  For every JSON value that is neither a string, nor an array, nor an
    object (null, boolean, integer, double or binary),
    [ObjectSchema::PropFromJson] returns no PropType and adds an
    [unknown_type] error whose message names the type of the value, whatever
    base schema and whatever error chain it is given. *)
Theorem PropFromJson_unexpected_value_type (value : Value)
    (base_schema : option PropType) (error : ErrorPtr) :
  IsDefinitionShape value = false ->
  ObjectSchema_PropFromJson value base_schema error
  = (None,
     mkError errors.commands.kDomain errors.commands.kUnknownType
       ("Unexpected JSON value type: " ++ Value_type_name value) :: error)
  /\ In (Value_type_name value)
       ["Null"; "Boolean"; "Integer"; "Double"; "Binary"].
Proof.
  destruct value; simpl; intros H; try discriminate H;
    (split; [reflexivity | simpl; tauto]).
Qed.

Lemma PropFromJson_unexpected_value_type_witness :
  ObjectSchema_PropFromJson (TYPE_INTEGER 0)
    (Some (PropType_Create ValueType.Int)) []
  = (None,
     [mkError "commands" "unknown_type" "Unexpected JSON value type: Integer"])
  /\ In "Integer" ["Null"; "Boolean"; "Integer"; "Double"; "Binary"].
Proof.
  apply (PropFromJson_unexpected_value_type (TYPE_INTEGER 0)
           (Some (PropType_Create ValueType.Int)) []).
  reflexivity.
Defined.

(** ** Type detection *)

Lemma HasKey_find {A : Type} (key : string) (d : list (string * A)) :
  Dict.HasKey key d = true <-> Dict.find key d <> None.
Proof.
  unfold Dict.HasKey. destruct (Dict.find key d); split; congruence.
Qed.

Lemma IsDouble_HasKey (key : string) (dict : list (string * Value)) :
  IsDouble (Dict.find key dict) = true -> Dict.HasKey key dict = true.
Proof.
  unfold Dict.HasKey. destruct (Dict.find key dict); [reflexivity|discriminate].
Qed.

(** What [PropFromJsonObject] does once the type is detected: with no ["type"]
    key and a detected name, the property type of that name is created and
    reads the definition. *)
Lemma PropFromJsonObject_detected (dict : list (string * Value))
    (base_schema : option PropType) (type : ValueType) (error : ErrorPtr) :
  Dict.HasKey commands.attributes.kType dict = false ->
  DetectObjectType dict base_schema = PropType_GetTypeStringFromType type ->
  PropFromJsonObject dict base_schema error
  = PropType_FromJson (PropType_Create type) dict base_schema error.
Proof.
  intros Hkey Hdetect. unfold PropFromJsonObject, PropFromJsonObject_with.
  rewrite Hkey, Hdetect. unfold bind at 1 2. unfold ret at 1.
  replace (string_empty (PropType_GetTypeStringFromType type)) with false
    by (destruct type; reflexivity).
  unfold ret at 1. unfold bind.
  destruct type; reflexivity.
Qed.

(** C2.  Type detection on a definition with no ["type"] key: if "minimum" or
    "maximum" is there and the base schema is a Double, the kind is Double
    even when both bounds are integers; if one of the bounds is a
    floating-point value, the kind is Double; otherwise, if one of the bounds
    is there, the kind is Int.  The three examples of the specification detect
    Int, Double and Double. *)
Theorem DetectObjectType_numeric_precedence (dict : list (string * Value))
    (base_schema : option PropType) :
  (has_min_max dict = true -> base_is_double base_schema = true ->
   DetectObjectType dict base_schema
   = PropType_GetTypeStringFromType ValueType.Double)
  /\ (has_double_bound dict = true ->
      DetectObjectType dict base_schema
      = PropType_GetTypeStringFromType ValueType.Double)
  /\ (has_min_max dict = true -> base_is_double base_schema = false ->
      has_double_bound dict = false ->
      DetectObjectType dict base_schema
      = PropType_GetTypeStringFromType ValueType.Int)
  /\ DetectObjectType
       [("maximum", TYPE_INTEGER 100); ("minimum", TYPE_INTEGER 0)] None
     = PropType_GetTypeStringFromType ValueType.Int
  /\ DetectObjectType
       [("maximum", TYPE_DOUBLE (double_of_int 1));
        ("minimum", TYPE_DOUBLE (double_of_int 0))] None
     = PropType_GetTypeStringFromType ValueType.Double
  /\ DetectObjectType
       [("maximum", TYPE_INTEGER 0); ("minimum", TYPE_INTEGER 0)]
       (Some (PropType_Create ValueType.Double))
     = PropType_GetTypeStringFromType ValueType.Double
  /\ option_map PropType_GetType
       (fst (ObjectSchema_PropFromJson
               (TYPE_DICTIONARY
                  [("maximum", TYPE_INTEGER 100); ("minimum", TYPE_INTEGER 0)])
               None []))
     = Some ValueType.Int
  /\ option_map PropType_GetType
       (fst (ObjectSchema_PropFromJson
               (TYPE_DICTIONARY
                  [("maximum", TYPE_DOUBLE (double_of_int 1));
                   ("minimum", TYPE_DOUBLE (double_of_int 0))])
               None []))
     = Some ValueType.Double
  /\ option_map PropType_GetType
       (fst (ObjectSchema_PropFromJson
               (TYPE_DICTIONARY
                  [("maximum", TYPE_INTEGER 0); ("minimum", TYPE_INTEGER 0)])
               (Some (PropType_Create ValueType.Double)) []))
     = Some ValueType.Double.
Proof.
  unfold has_min_max, has_double_bound, base_is_double, DetectObjectType.
  repeat split; try reflexivity.
  - intros -> ->. reflexivity.
  - intros Hdouble.
    assert (Hmm : Dict.HasKey commands.attributes.kNumeric_Min dict
                  || Dict.HasKey commands.attributes.kNumeric_Max dict = true).
    { apply orb_true_iff in Hdouble. apply orb_true_iff.
      destruct Hdouble as [H|H]; [left|right]; now apply IsDouble_HasKey. }
    rewrite Hmm. simpl.
    destruct (match base_schema with
              | Some base => ValueType.eqb (PropType_GetType base) ValueType.Double
              | None => false
              end); [reflexivity|].
    apply orb_true_iff in Hdouble.
    destruct (IsDouble (Dict.find commands.attributes.kNumeric_Min dict));
      [reflexivity|].
    destruct Hdouble as [H| ->]; [discriminate|reflexivity].
  - intros -> -> Hdouble. apply orb_false_iff in Hdouble.
    destruct Hdouble as [-> ->]. reflexivity.
Qed.

Lemma DetectObjectType_numeric_precedence_witness :
  DetectObjectType [("minimum", TYPE_INTEGER 0)]
    (Some (PropType_Create ValueType.Double)) = "number"
  /\ DetectObjectType [("minimum", TYPE_DOUBLE (double_of_int 0))] None
     = "number"
  /\ DetectObjectType [("minimum", TYPE_INTEGER 0)] None = "integer".
Proof.
  split; [|split].
  - apply (DetectObjectType_numeric_precedence [("minimum", TYPE_INTEGER 0)]
             (Some (PropType_Create ValueType.Double))); reflexivity.
  - apply (DetectObjectType_numeric_precedence
             [("minimum", TYPE_DOUBLE (double_of_int 0))] None); reflexivity.
  - apply (DetectObjectType_numeric_precedence [("minimum", TYPE_INTEGER 0)]
             None); reflexivity.
Defined.

(** ** Arrays as a shorthand for an enum *)

(** The call [DetectArrayType(first_element_list, nullptr, false)] on the
    first element of the array. *)
Lemma DetectArrayType_first_list (values : list Value) :
  DetectArrayType_first (TYPE_LIST values) true
  = let child_type := DetectArrayType values None false in
    if string_empty child_type then ""
    else (PropType_GetTypeStringFromType ValueType.Array ++ "."
          ++ child_type)%string.
Proof. destruct values; reflexivity. Qed.

Lemma DetectArrayType_undetectable (values : list Value) :
  undetectable values = true -> DetectArrayType values None true = "".
Proof.
  destruct values as [|first rest]; [reflexivity|].
  destruct first as [| | | | | |dict|nested]; try discriminate; try reflexivity.
  destruct nested as [|inner]; [discriminate|].
  destruct inner; try discriminate. reflexivity.
Qed.

(** The claim as the specification has it fails when a base schema is given:
    the empty array is then a definition of the kind of the base schema. *)
Lemma PropFromJsonArray_base_schema_empty_array :
  ObjectSchema_PropFromJson (TYPE_LIST [])
    (Some (PropType_Create ValueType.Int)) []
  = (Some
       (IntPropType
          (mkPropAttrs true false None (Some (mkInheritable [] false)))
          None None),
     []).
Proof. reflexivity. Qed.

(** C9 (amended).  A property defined as a JSON array, with no base schema:
    the kind is detected from the first element of the array (a scalar or an
    object gives its kind, an array of those gives an Array of that kind), and
    parsing fails with [no_type_info] when the array is empty, when its first
    element is null or binary, and when its first element is an array of
    arrays.  With a base schema nothing is detected: the type name is the one
    of the base schema, for every array. *)
Theorem PropFromJsonArray_detection (values : list Value) (error : ErrorPtr) :
  (undetectable values = true ->
   ObjectSchema_PropFromJson (TYPE_LIST values) None error
   = (None,
      mkError errors.commands.kDomain errors.commands.kNoTypeInfo
        "Unable to determine parameter type" :: error))
  /\ (forall first rest type,
        values = first :: rest -> element_kind first = Some type ->
        DetectArrayType values None true
        = PropType_GetTypeStringFromType type)
  /\ (forall first rest rest' type,
        values = TYPE_LIST (first :: rest') :: rest ->
        element_kind first = Some type ->
        DetectArrayType values None true
        = (PropType_GetTypeStringFromType ValueType.Array ++ "."
           ++ PropType_GetTypeStringFromType type)%string)
  /\ (forall base allow_arrays,
        DetectArrayType values (Some base) allow_arrays
        = PropType_GetTypeAsString base).
Proof.
  repeat split.
  - intros H. simpl. unfold PropFromJsonArray_with.
    rewrite (DetectArrayType_undetectable values H). reflexivity.
  - intros first rest type -> H. destruct first; try discriminate H;
      injection H as <-; reflexivity.
  - intros first rest rest' type -> H. destruct first; try discriminate H;
      injection H as <-; reflexivity.
Qed.

Lemma PropFromJsonArray_detection_witness :
  ObjectSchema_PropFromJson (TYPE_LIST [TYPE_LIST [TYPE_LIST []]]) None []
  = (None, [mkError "commands" "no_type_info"
              "Unable to determine parameter type"])
  /\ DetectArrayType [TYPE_BOOLEAN true; TYPE_INTEGER 1] None true = "boolean"
  /\ DetectArrayType [TYPE_LIST [TYPE_INTEGER 1]] None true = "array.integer".
Proof.
  split; [|split].
  - apply (PropFromJsonArray_detection [TYPE_LIST [TYPE_LIST []]] []).
    reflexivity.
  - apply (proj1 (proj2 (PropFromJsonArray_detection
                           [TYPE_BOOLEAN true; TYPE_INTEGER 1] []))
             (TYPE_BOOLEAN true) [TYPE_INTEGER 1] ValueType.Boolean);
      reflexivity.
  - apply (proj1 (proj2 (proj2 (PropFromJsonArray_detection
                                  [TYPE_LIST [TYPE_INTEGER 1]] [])))
             (TYPE_INTEGER 1) [] [] ValueType.Int);
      reflexivity.
Defined.

(** ** A base schema fixes the kind *)

Lemma PropType_FromJson_with_kind rec prop value base_schema error p error' :
  PropType_FromJson_with rec prop value base_schema error = (Some p, error') ->
  PropType_GetType p = PropType_GetType prop
  /\ forall base, base_schema = Some base ->
       PropType_GetType base = PropType_GetType prop.
Proof.
  unfold PropType_FromJson_with.
  destruct (match base_schema with
            | Some base =>
                negb (ValueType.eqb (PropType_GetType base) (PropType_GetType prop))
            | None => false
            end) eqn:Hchanged; [discriminate|].
  intros H. split.
  - unfold bind in H.
    repeat match type of H with
           | (let '(_, _) := ?x in _) _ = _ => destruct x
           | match ?x with _ => _ end = _ => destruct x eqn:?; try discriminate H
           | match ?x with _ => _ end _ = _ =>
               destruct x eqn:?; try discriminate H
           end.
    all: injection H as <- _.
    all: repeat match goal with
           | Heq : ret _ _ = (Some _, _) |- _ => injection Heq as <- _
           | Heq : match ?x with _ => _ end _ = (Some _, _) |- _ =>
               destruct x eqn:?; try discriminate Heq
           | Heq : match ?x with _ => _ end = (Some _, _) |- _ =>
               destruct x eqn:?; try discriminate Heq
           | Heq : (let '(_, _) := ?x in _) _ = _ |- _ => destruct x
           | Heq : bind _ _ _ = (Some _, _) |- _ => unfold bind in Heq
           | Heq : type_mismatch _ _ = (Some _, _) |- _ => discriminate Heq
           | Heq : fail _ _ _ _ = (Some _, _) |- _ => discriminate Heq
           end.
    all: reflexivity.
  - intros base ->. apply negb_false_iff in Hchanged.
    now apply ValueType_eqb_eq.
Qed.

(** [ObjectSchema::PropFromJson] in two steps: the type name is resolved and
    the property type created from it reads the definition. *)
Lemma PropFromJson_unfold (value : Value) (base_schema : option PropType)
    (error : ErrorPtr) :
  IsDefinitionShape value = true ->
  exists rec,
    ObjectSchema_PropFromJson value base_schema error
    = match ResolvedTypeName value base_schema with
      | Some type_name =>
          bind (CreatePropType type_name)
            (fun prop =>
               PropType_FromJson_with rec prop (DefinitionObject value)
                 base_schema)
            error
      | None => (None, ErrorInvalidTypeInfo error)
      end.
Proof.
  destruct value as [| | | |type_name| |dict|values]; try discriminate; intros _.
  - exists no_nested_definition. reflexivity.
  - exists ObjectSchema_PropFromJson. simpl.
    unfold PropFromJsonObject_with.
    destruct (Dict.HasKey commands.attributes.kType dict).
    + destruct (Dict.find commands.attributes.kType dict) as [[]|];
        try reflexivity.
      unfold bind at 1 2, ret at 1.
      destruct (string_empty s); [|reflexivity].
      destruct base_schema; reflexivity.
    + unfold bind at 1 2, ret at 1.
      destruct (string_empty (DetectObjectType dict base_schema));
        [|reflexivity].
      destruct base_schema; reflexivity.
  - exists no_nested_definition. simpl. unfold PropFromJsonArray_with.
    destruct (string_empty (DetectArrayType values base_schema true));
      reflexivity.
Qed.

Lemma PropFromJson_shape value base_schema error p error' :
  ObjectSchema_PropFromJson value base_schema error = (Some p, error') ->
  IsDefinitionShape value = true.
Proof. destruct value; try reflexivity; discriminate. Qed.

(** A definition parsed against a base schema has the kind of the base
    schema. *)
Lemma PropFromJson_keeps_kind value base error p error' :
  ObjectSchema_PropFromJson value (Some base) error = (Some p, error') ->
  PropType_GetType p = PropType_GetType base.
Proof.
  intros H. pose proof (PropFromJson_shape _ _ _ _ _ H) as Hshape.
  destruct (PropFromJson_unfold value (Some base) error Hshape) as [rec Heq].
  rewrite Heq in H. clear Heq.
  destruct (ResolvedTypeName value (Some base)) as [type_name|];
    [|discriminate].
  unfold bind in H.
  destruct (CreatePropType type_name error) as [[prop|] error1];
    [|discriminate].
  apply PropType_FromJson_with_kind in H. destruct H as [Hp Hbase].
  rewrite Hp. symmetry. now apply Hbase.
Qed.

(** A definition whose kind is not the kind of the base schema is refused
    with [param_type_changed]. *)
Lemma PropFromJson_kind_changed value base kind error :
  DeclaredKind value (Some base) = Some kind ->
  kind <> PropType_GetType base ->
  exists message,
    ObjectSchema_PropFromJson value (Some base) error
    = (None,
       mkError errors.commands.kDomain errors.commands.kPropTypeChanged message
       :: error).
Proof.
  unfold DeclaredKind. intros Hkind Hne.
  assert (Hshape : IsDefinitionShape value = true)
    by (destruct value; try reflexivity; discriminate).
  destruct (PropFromJson_unfold value (Some base) error Hshape) as [rec Heq].
  rewrite Heq. clear Heq.
  destruct (ResolvedTypeName value (Some base)) as [type_name|];
    [|discriminate].
  destruct (CreatePropType type_name []) as [[prop|] error1] eqn:Hcreate;
    [|discriminate].
  injection Hkind as <-.
  pose proof (framed_any _ _ _ error _ (framed_CreatePropType type_name) Hcreate)
    as Hcreate'.
  unfold bind. rewrite Hcreate'. unfold PropType_FromJson_with.
  replace (ValueType.eqb (PropType_GetType base) (PropType_GetType prop))
    with false.
  - eexists. reflexivity.
  - symmetry. apply not_true_iff_false. intros Htrue.
    apply ValueType_eqb_eq in Htrue. congruence.
Qed.

(** ** [ObjectSchema::FromJson] *)

Section LoopFacts.
Variable rec : Value -> option PropType -> M PropType.

Lemma FromJson_loop_app object_schema before after properties error :
  ObjectSchema_FromJson_loop rec object_schema (before ++ after) properties error
  = match ObjectSchema_FromJson_loop rec object_schema before properties error
    with
    | (Some properties', error') =>
        ObjectSchema_FromJson_loop rec object_schema after properties' error'
    | (None, error') => (None, error')
    end.
Proof.
  revert properties error.
  induction before as [|[name value] before IH]; intros properties error; simpl.
  - reflexivity.
  - destruct (rec value _ error) as [[prop|] error1]; [apply IH|reflexivity].
Qed.

(** A failure of the loop is the failure of one of the definitions, reported
    as [invalid_parameter_definition]. *)
Lemma FromJson_loop_failure object_schema iter properties error error' :
  ObjectSchema_FromJson_loop rec object_schema iter properties error
  = (None, error') ->
  exists message inner,
    error'
    = mkError errors.commands.kDomain errors.commands.kInvalidPropDef message
      :: inner.
Proof.
  revert properties error.
  induction iter as [|[name value] iter IH]; intros properties error; simpl.
  - discriminate.
  - destruct (rec value _ error) as [[prop|] error1].
    + apply IH.
    + intros [= <-]. eauto.
Qed.

End LoopFacts.

Lemma FromJson_loop_fails object_schema iter name value :
  In (name, value) iter ->
  fst (ObjectSchema_PropFromJson value (base_of object_schema name) []) = None ->
  forall properties error,
    fst (ObjectSchema_FromJson_loop ObjectSchema_PropFromJson object_schema iter
           properties error) = None.
Proof.
  intros Hin Hfail.
  induction iter as [|[name' value'] iter IH]; intros properties error;
    [destruct Hin|]. simpl.
  fold (base_of object_schema name').
  destruct (ObjectSchema_PropFromJson value' (base_of object_schema name') error)
    as [[prop|] error1] eqn:Hhead; [|reflexivity].
  destruct Hin as [[= -> ->]|Hin]; [|now apply IH].
  apply (framed_any _ _ _ [] _ (framed_PropFromJson _ _)) in Hhead.
  rewrite Hhead in Hfail. discriminate.
Qed.

Lemma FromJson_loop_keeps_kinds base iter :
  forall properties error properties' error',
    (forall name p b,
       Dict.find name properties = Some p ->
       ObjectSchema_GetProp base name = Some b ->
       PropType_GetType p = PropType_GetType b) ->
    ObjectSchema_FromJson_loop ObjectSchema_PropFromJson (Some base) iter
      properties error = (Some properties', error') ->
    forall name p b,
      Dict.find name properties' = Some p ->
      ObjectSchema_GetProp base name = Some b ->
      PropType_GetType p = PropType_GetType b.
Proof.
  induction iter as [|[name' value'] iter IH];
    intros properties error properties' error' Hinv; simpl.
  - intros [= <- _]. exact Hinv.
  - destruct (ObjectSchema_PropFromJson value' _ error)
      as [[prop|] error1] eqn:Hhead; [|discriminate].
    apply IH. intros name p b Hfind Hbase.
    rewrite find_emplace in Hfind.
    destruct (Dict.find name properties) as [w|] eqn:Hw.
    + injection Hfind as <-. now apply (Hinv name).
    + destruct (String.eqb name' name) eqn:Hname; [|discriminate].
      apply String.eqb_eq in Hname. subst name'. injection Hfind as <-.
      rewrite Hbase in Hhead. now apply PropFromJson_keeps_kind in Hhead.
Qed.

Lemma CreateFromJson_keeps_kinds value base error schema error' :
  ObjectSchema_CreateFromJson value (Some base) error = (Some schema, error') ->
  keeps_kinds schema base.
Proof.
  unfold ObjectSchema_CreateFromJson, ObjectSchema_CreateFromJson_with,
    ObjectSchema_FromJson_with.
  destruct (ObjectSchema_FromJson_loop _ _ value [] error)
    as [[properties|] error1] eqn:Hloop; [|discriminate].
  intros [= <- _]. unfold keeps_kinds, ObjectSchema_GetProp at 1. simpl.
  eapply FromJson_loop_keeps_kinds; [|exact Hloop].
  intros name p b Hfind. discriminate Hfind.
Qed.

(** C6 (first half, on [object_schema.cc]).  When [ObjectSchema::FromJson]
    returns false, the schema is as it was: the properties parsed so far were
    in a local map; and the error on top of the chain is
    [invalid_parameter_definition]. *)
Lemma ObjectSchema_FromJson_failure this value object_schema error this' error' :
  ObjectSchema_FromJson this value object_schema error = (false, this', error') ->
  this' = this
  /\ exists message inner,
       error'
       = mkError errors.commands.kDomain errors.commands.kInvalidPropDef message
         :: inner.
Proof.
  unfold ObjectSchema_FromJson, ObjectSchema_FromJson_with.
  destruct (ObjectSchema_FromJson_loop _ _ value [] error)
    as [[properties|] error1] eqn:Hloop; [discriminate|].
  intros [= <- <-]. split; [reflexivity|].
  eapply FromJson_loop_failure. exact Hloop.
Qed.

(** ** Loading a tree of commands *)

Lemma framed_Visibility_FromTokens tokens v :
  framed (Visibility_FromTokens tokens v).
Proof.
  revert v. induction tokens as [|token tokens IH]; intros v; simpl.
  - apply framed_ret.
  - repeat match goal with
           | |- framed (if ?c then _ else _) => destruct c
           end; first [apply IH | apply framed_fail].
Qed.

Lemma framed_UserRole_FromString str : framed (UserRole_FromString str).
Proof.
  unfold UserRole_FromString.
  repeat match goal with
         | |- framed (if ?c then _ else _) => destruct c
         end; first [apply framed_ret | apply framed_fail].
Qed.

Lemma framed_ValidateCommandName package_name command_name base_commands :
  framed (ValidateCommandName package_name command_name base_commands).
Proof.
  unfold ValidateCommandName.
  destruct (string_empty command_name); [apply framed_fail|].
  destruct base_commands as [base|]; [|apply framed_ret].
  destruct (FindCommand base _); [apply framed_ret|].
  destruct (starts_with_underscore command_name);
    [apply framed_ret|apply framed_fail].
Qed.

Lemma framed_BuildObjectSchema command_def_json property_name base_def name :
  framed (BuildObjectSchema command_def_json property_name base_def name).
Proof.
  unfold BuildObjectSchema.
  destruct (Dict.find property_name command_def_json) as [[]|];
    try apply framed_ret.
  apply framed_wrap_error, framed_ObjectSchema_CreateFromJson.
Qed.

Lemma framed_LoadCommand package_name command_name command_value base_commands :
  framed (LoadCommand package_name command_name command_value base_commands).
Proof.
  unfold LoadCommand.
  apply framed_bind; [apply framed_ValidateCommandName|intros _].
  destruct command_value; try apply framed_fail.
  repeat (apply framed_bind; [apply framed_BuildObjectSchema|intros ?]).
  apply framed_bind.
  { destruct (Dict.find commands.attributes.kCommand_Visibility dict) as [[]|];
      try apply framed_ret.
    apply framed_wrap_error, framed_Visibility_FromTokens. }
  intros visibility. apply framed_bind; [|intros ?; apply framed_ret].
  destruct (Dict.find commands.attributes.kCommand_Role dict) as [[]|];
    try apply framed_ret.
  apply framed_wrap_error, framed_UserRole_FromString.
Qed.

Lemma framed_LoadPackage package_name base_commands command_iter new_defs :
  framed (LoadPackage package_name base_commands command_iter new_defs).
Proof.
  revert new_defs.
  induction command_iter as [|[name value] iter IH]; intros new_defs; simpl.
  - apply framed_ret.
  - apply framed_bind; [apply framed_LoadCommand|intros def; apply IH].
Qed.

Lemma framed_LoadPackages base_commands package_iter new_defs :
  framed (LoadPackages base_commands package_iter new_defs).
Proof.
  revert new_defs.
  induction package_iter as [|[name value] iter IH]; intros new_defs; simpl.
  - apply framed_ret.
  - destruct value; try apply framed_fail.
    apply framed_bind; [apply framed_LoadPackage|intros defs; apply IH].
Qed.

Lemma succeeds_spec {A : Type} (m : M A) :
  framed m -> succeeds m = true ->
  exists a, forall error, m error = (Some a, error).
Proof.
  intros (r & added & Hm & Hok). unfold succeeds. rewrite Hm. simpl.
  destruct r as [a|]; [|discriminate]. intros _. exists a.
  intros error. rewrite Hm, Hok by congruence. reflexivity.
Qed.

Lemma fails_spec {A : Type} (m : M A) (error : ErrorPtr) :
  framed m -> fst (m []) = None -> fst (m error) = None.
Proof.
  intros (r & added & Hm & Hok). rewrite !Hm. trivial.
Qed.

Lemma LoadPackage_app package_name base_commands before after new_defs error :
  LoadPackage package_name base_commands (before ++ after) new_defs error
  = match LoadPackage package_name base_commands before new_defs error with
    | (Some new_defs', error') =>
        LoadPackage package_name base_commands after new_defs' error'
    | (None, error') => (None, error')
    end.
Proof.
  revert new_defs error.
  induction before as [|[name value] before IH]; intros new_defs error; simpl.
  - reflexivity.
  - unfold bind.
    destruct (LoadCommand package_name name value base_commands error)
      as [[def|] error1]; [apply IH|reflexivity].
Qed.

Lemma LoadPackages_app base_commands before after new_defs error :
  LoadPackages base_commands (before ++ after) new_defs error
  = match LoadPackages base_commands before new_defs error with
    | (Some new_defs', error') =>
        LoadPackages base_commands after new_defs' error'
    | (None, error') => (None, error')
    end.
Proof.
  revert new_defs error.
  induction before as [|[name value] before IH]; intros new_defs error; simpl.
  - reflexivity.
  - destruct value; try reflexivity. unfold bind.
    destruct (LoadPackage name base_commands dict new_defs error)
      as [[defs|] error1]; [apply IH|reflexivity].
Qed.

(** A command that cannot be loaded makes the loading of its package, and of
    the tree, fail, wherever it stands. *)
Lemma LoadPackage_fails package_name base_commands command_iter name value :
  In (name, value) command_iter ->
  fst (LoadCommand package_name name value base_commands []) = None ->
  forall new_defs error,
    fst (LoadPackage package_name base_commands command_iter new_defs error)
    = None.
Proof.
  intros Hin Hfail.
  induction command_iter as [|[name' value'] iter IH]; intros new_defs error;
    [destruct Hin|]. simpl. unfold bind.
  destruct (LoadCommand package_name name' value' base_commands error)
    as [[def|] error1] eqn:Hhead; [|reflexivity].
  destruct Hin as [[= -> ->]|Hin]; [|now apply IH].
  apply (fails_spec _ error (framed_LoadCommand _ _ _ _)) in Hfail.
  rewrite Hhead in Hfail. discriminate.
Qed.

Lemma LoadPackages_fails base_commands package_iter package_name commands
    name value :
  In (package_name, TYPE_DICTIONARY commands) package_iter ->
  In (name, value) commands ->
  fst (LoadCommand package_name name value base_commands []) = None ->
  forall new_defs error,
    fst (LoadPackages base_commands package_iter new_defs error) = None.
Proof.
  intros Hin Hcmd Hfail.
  induction package_iter as [|[name' value'] iter IH]; intros new_defs error;
    [destruct Hin|]. simpl.
  destruct Hin as [[= -> ->]|Hin].
  - unfold bind.
    pose proof (LoadPackage_fails package_name base_commands commands name value
                  Hcmd Hfail new_defs error) as H.
    destruct (LoadPackage package_name base_commands commands new_defs error)
      as [[defs|] error1]; [discriminate H|reflexivity].
  - destruct value'; try reflexivity. unfold bind.
    destruct (LoadPackage name' base_commands dict new_defs error)
      as [[defs|] error1]; [now apply IH|reflexivity].
Qed.

(** [LoadCommands] returns false, and leaves the dictionary as it was, exactly
    when the loading of the tree fails; the error chain is the one the
    loading leaves. *)
Lemma LoadCommands_failure this json base_commands error :
  fst (LoadPackages base_commands json [] error) = None ->
  LoadCommands this json base_commands error
  = Returned false this (snd (LoadPackages base_commands json [] error)).
Proof.
  unfold LoadCommands.
  destruct (LoadPackages base_commands json [] error) as [[defs|] error1];
    [discriminate|reflexivity].
Qed.

Lemma LoadCommands_returned_false this json base_commands error this' error' :
  LoadCommands this json base_commands error = Returned false this' error' ->
  this' = this
  /\ LoadPackages base_commands json [] error = (None, error').
Proof.
  unfold LoadCommands.
  destruct (LoadPackages base_commands json [] error) as [[defs|] error1].
  - destruct (existsb _ defs); discriminate.
  - intros [= <- <-]. split; reflexivity.
Qed.

(** C6.  A load that fails leaves its target as it was.  When
    [ObjectSchema::FromJson] returns false, the schema has the properties and
    the flag it had before the call and [invalid_parameter_definition] is on
    top of the error chain; when [CommandDictionary::LoadCommands] returns
    false, the dictionary has the definitions it had before the call. *)
Theorem failed_load_leaves_target_unchanged :
  (forall this value object_schema error this' error',
      ObjectSchema_FromJson this value object_schema error
      = (false, this', error') ->
      this' = this
      /\ exists message inner,
           error'
           = mkError errors.commands.kDomain errors.commands.kInvalidPropDef
               message :: inner)
  /\ (forall this json base_commands error this' error',
        LoadCommands this json base_commands error
        = Returned false this' error' ->
        this' = this).
Proof.
  split.
  - apply ObjectSchema_FromJson_failure.
  - intros this json base_commands error this' error' H.
    now apply LoadCommands_returned_false in H.
Qed.

Lemma failed_load_leaves_target_unchanged_witness :
  let this :=
    mkObjectSchema [("a", PropType_Create ValueType.Int)] true in
  let value := [("b", TYPE_STRING "integer"); ("c", TYPE_INTEGER 0)] in
  let dictionary :=
    mkCommandDictionary
      [("robot._jump",
        mkCommandDefinition ObjectSchema_Create ObjectSchema_Create
          ObjectSchema_Create (mkVisibility true true) UserRole.kUser)] in
  let json :=
    [("robot",
      TYPE_DICTIONARY
        [("_fly", TYPE_DICTIONARY []); ("_walk", TYPE_INTEGER 0)])] in
  snd (fst (ObjectSchema_FromJson this value None [])) = this
  /\ match LoadCommands dictionary json None [] with
     | Returned result this' _ => result = false /\ this' = dictionary
     | Aborted => False
     end.
Proof.
  intros this value dictionary json. split.
  - apply (proj1 failed_load_leaves_target_unchanged this value None []
             (snd (fst (ObjectSchema_FromJson this value None [])))
             (snd (ObjectSchema_FromJson this value None []))).
    reflexivity.
  - split; [reflexivity|].
    apply (proj2 failed_load_leaves_target_unchanged dictionary json None []
             dictionary
             [mkError "commands" "type_mismatch"
                "Expecting an object for command '_walk'"]).
    reflexivity.
Defined.

(** The error chain of a load that fails is the one left by the first command
    that cannot be loaded. *)
Lemma LoadPackages_first_failure base_commands before package_name
    commands_before command_name command_value commands_after after error error' :
  succeeds
    (LoadPackages base_commands
       (tree_before before package_name commands_before) []) = true ->
  LoadCommand package_name command_name command_value base_commands error
  = (None, error') ->
  LoadPackages base_commands
    (tree_around before package_name commands_before command_name command_value
       commands_after after) [] error
  = (None, error').
Proof.
  unfold tree_before, tree_around. intros Hbefore Hcommand.
  apply (succeeds_spec _ (framed_LoadPackages _ _ _)) in Hbefore.
  destruct Hbefore as [defs Hbefore]. specialize (Hbefore error).
  rewrite LoadPackages_app in Hbefore |- *.
  destruct (LoadPackages base_commands before [] error)
    as [[defs1|] error1] eqn:H1; [|discriminate].
  pose proof (framed_success _ _ _ _ (framed_LoadPackages _ _ _) H1) as ->.
  simpl in Hbefore |- *. unfold bind in Hbefore |- *.
  rewrite LoadPackage_app.
  destruct (LoadPackage package_name base_commands commands_before defs1 error)
    as [[defs2|] error2] eqn:H2; [|discriminate].
  pose proof (framed_success _ _ _ _ (framed_LoadPackage _ _ _ _) H2) as ->.
  simpl. unfold bind. now rewrite Hcommand.
Qed.

Lemma LoadCommands_first_failure this base_commands before package_name
    commands_before command_name command_value commands_after after error error' :
  succeeds
    (LoadPackages base_commands
       (tree_before before package_name commands_before) []) = true ->
  LoadCommand package_name command_name command_value base_commands error
  = (None, error') ->
  LoadCommands this
    (tree_around before package_name commands_before command_name command_value
       commands_after after) base_commands error
  = Returned false this error'.
Proof.
  intros Hbefore Hcommand.
  pose proof (LoadPackages_first_failure _ _ _ _ _ _ commands_after after _ _
                Hbefore Hcommand) as H.
  rewrite LoadCommands_failure; now rewrite H.
Qed.

Lemma LoadCommands_fails this base_commands json package_name commands name
    value error :
  In (package_name, TYPE_DICTIONARY commands) json ->
  In (name, value) commands ->
  fst (LoadCommand package_name name value base_commands []) = None ->
  exists error', LoadCommands this json base_commands error
                 = Returned false this error'.
Proof.
  intros Hin Hcmd Hfail. eexists. apply LoadCommands_failure.
  eapply LoadPackages_fails; eassumption.
Qed.

(** ** The naming rule *)

Lemma ValidateCommandName_refused package_name command_name base_commands error :
  refused_command_name package_name command_name base_commands = true ->
  exists message,
    ValidateCommandName package_name command_name base_commands error
    = (None,
       mkError errors.commands.kDomain errors.commands.kInvalidCommandName
         message :: error).
Proof.
  unfold refused_command_name, ValidateCommandName.
  destruct (string_empty command_name); [intros _; eexists; reflexivity|].
  simpl. destruct base_commands as [base|]; [|discriminate].
  destruct (FindCommand base _); [discriminate|].
  destruct (starts_with_underscore command_name); [discriminate|].
  intros _. eexists. reflexivity.
Qed.

Lemma ValidateCommandName_accepted package_name command_name base_commands error :
  refused_command_name package_name command_name base_commands = false ->
  ValidateCommandName package_name command_name base_commands error
  = (Some tt, error).
Proof.
  unfold refused_command_name, ValidateCommandName.
  destruct (string_empty command_name); [discriminate|].
  simpl. destruct base_commands as [base|]; [|reflexivity].
  destruct (FindCommand base _); [reflexivity|].
  destruct (starts_with_underscore command_name); [reflexivity|discriminate].
Qed.

Lemma LoadCommand_refused package_name command_name command_value base_commands
    error :
  refused_command_name package_name command_name base_commands = true ->
  exists message,
    LoadCommand package_name command_name command_value base_commands error
    = (None,
       mkError errors.commands.kDomain errors.commands.kInvalidCommandName
         message :: error).
Proof.
  intros H.
  destruct (ValidateCommandName_refused _ _ _ error H) as [message Hm].
  exists message. unfold LoadCommand, bind. now rewrite Hm.
Qed.

(** A command whose name is accepted and whose definition loads is loaded,
    and [LoadCommands] puts it in the dictionary. *)
Lemma LoadCommand_accepted package_name command_name command_def_json
    base_commands error :
  refused_command_name package_name command_name base_commands = false ->
  definition_loads command_def_json
    (base_definition base_commands (package_name ++ "." ++ command_name))
    (package_name ++ "." ++ command_name) = true ->
  exists definition,
    LoadCommand package_name command_name (TYPE_DICTIONARY command_def_json)
      base_commands error
    = (Some ((package_name ++ "." ++ command_name)%string, definition), error).
Proof.
  intros Hname Hloads. unfold definition_loads in Hloads.
  apply andb_prop in Hloads. destruct Hloads as [Hloads Hrole].
  apply andb_prop in Hloads. destruct Hloads as [Hsections Hvisibility].
  simpl in Hsections.
  apply andb_prop in Hsections. destruct Hsections as [Hparameters Hsections].
  apply andb_prop in Hsections. destruct Hsections as [Hprogress Hsections].
  apply andb_prop in Hsections. destruct Hsections as [Hresults _].
  destruct (succeeds_spec _ (framed_BuildObjectSchema _ _ _ _) Hparameters)
    as [parameters Hp].
  destruct (succeeds_spec _ (framed_BuildObjectSchema _ _ _ _) Hprogress)
    as [progress Hg].
  destruct (succeeds_spec _ (framed_BuildObjectSchema _ _ _ _) Hresults)
    as [results Hr].
  unfold LoadCommand, bind.
  rewrite (ValidateCommandName_accepted _ _ _ error Hname).
  fold (base_definition base_commands (package_name ++ "." ++ command_name)).
  rewrite Hp, Hg, Hr.
  assert (Hv : exists visibility,
             forall code message default,
               match
                 Dict.find commands.attributes.kCommand_Visibility
                   command_def_json
               with
               | Some (TYPE_STRING value) =>
                   wrap_error code message (Visibility_FromString value)
               | _ => ret default
               end error
               = (Some (visibility default), error)).
  { destruct (Dict.find commands.attributes.kCommand_Visibility
                command_def_json) as [[| | | |value| | |]|];
      try (exists (fun default => default); reflexivity).
    destruct (succeeds_spec _ (framed_Visibility_FromTokens _ _) Hvisibility)
      as [v Hv].
    exists (fun _ => v). intros code message default.
    unfold wrap_error, Visibility_FromString. now rewrite Hv. }
  assert (Hm : exists minimal_role,
             forall code message default,
               match
                 Dict.find commands.attributes.kCommand_Role command_def_json
               with
               | Some (TYPE_STRING value) =>
                   wrap_error code message (UserRole_FromString value)
               | _ => ret default
               end error
               = (Some (minimal_role default), error)).
  { destruct (Dict.find commands.attributes.kCommand_Role command_def_json)
      as [[| | | |value| | |]|];
      try (exists (fun default => default); reflexivity).
    destruct (succeeds_spec _ (framed_UserRole_FromString value) Hrole)
      as [r Hr'].
    exists (fun _ => r). intros code message default.
    unfold wrap_error. now rewrite Hr'. }
  destruct Hv as [visibility Hv]. destruct Hm as [minimal_role Hm].
  rewrite Hv, Hm. eexists. reflexivity.
Qed.

Lemma LoadCommands_accepted this package_name command_name command_def_json
    base_commands error definition :
  LoadCommand package_name command_name (TYPE_DICTIONARY command_def_json)
    base_commands error
  = (Some ((package_name ++ "." ++ command_name)%string, definition), error) ->
  FindCommand this (package_name ++ "." ++ command_name) = None ->
  LoadCommands this
    [(package_name,
      TYPE_DICTIONARY [(command_name, TYPE_DICTIONARY command_def_json)])]
    base_commands error
  = Returned true
      (mkCommandDictionary
         (Dict.emplace (package_name ++ "." ++ command_name) definition
            (definitions_ this)))
      error.
Proof.
  intros Hload Hnew. unfold LoadCommands. simpl. unfold bind.
  rewrite Hload. simpl. unfold Dict.HasKey.
  unfold FindCommand in Hnew. now rewrite Hnew.
Qed.




(** ** Redefinition of a standard command *)

Lemma framed_FromJson_loop_top object_schema iter properties :
  framed (ObjectSchema_FromJson_loop ObjectSchema_PropFromJson object_schema
            iter properties).
Proof.
  apply framed_FromJson_loop. apply Forall_forall. intros entry _ base.
  apply framed_PropFromJson.
Qed.

Lemma CreateFromJson_kind_changed base_schema before name value after b kind
    error :
  succeeds
    (ObjectSchema_FromJson_loop ObjectSchema_PropFromJson (Some base_schema)
       before []) = true ->
  ObjectSchema_GetProp base_schema name = Some b ->
  DeclaredKind value (Some b) = Some kind ->
  kind <> PropType_GetType b ->
  exists m2 m3,
    ObjectSchema_CreateFromJson (before ++ (name, value) :: after)
      (Some base_schema) error
    = (None,
       [mkError errors.commands.kDomain errors.commands.kInvalidPropDef m2;
        mkError errors.commands.kDomain errors.commands.kPropTypeChanged m3]
       ++ error).
Proof.
  intros Hbefore Hbase Hkind Hne.
  apply (succeeds_spec _ (framed_FromJson_loop_top _ _ _)) in Hbefore.
  destruct Hbefore as [properties Hbefore].
  destruct (PropFromJson_kind_changed value b kind error Hkind Hne)
    as [m3 Hvalue].
  unfold ObjectSchema_CreateFromJson, ObjectSchema_CreateFromJson_with,
    ObjectSchema_FromJson_with.
  rewrite FromJson_loop_app, Hbefore. simpl. rewrite Hbase, Hvalue.
  eexists _, m3. reflexivity.
Qed.

Lemma CreateFromJson_fails base_schema props name value b kind error :
  In (name, value) props ->
  ObjectSchema_GetProp base_schema name = Some b ->
  DeclaredKind value (Some b) = Some kind ->
  kind <> PropType_GetType b ->
  fst (ObjectSchema_CreateFromJson props (Some base_schema) error) = None.
Proof.
  intros Hin Hbase Hkind Hne.
  unfold ObjectSchema_CreateFromJson, ObjectSchema_CreateFromJson_with,
    ObjectSchema_FromJson_with.
  pose proof (FromJson_loop_fails (Some base_schema) props name value Hin) as H.
  simpl in H. rewrite Hbase in H.
  destruct (PropFromJson_kind_changed value b kind [] Hkind Hne) as [m Hm].
  rewrite Hm in H. specialize (H eq_refl [] error).
  destruct (ObjectSchema_FromJson_loop _ _ props [] error) as [[p|] e];
    [discriminate H|reflexivity].
Qed.

Section LoadCommandFacts.
Variables (package_name command_name : string).
Variable def : list (string * Value).
Variables (base : CommandDictionary) (base_def : CommandDefinition).
Let full_command_name : string := (package_name ++ "." ++ command_name)%string.
Hypothesis Hbase : FindCommand base full_command_name = Some base_def.

Lemma LoadCommand_section_failure before key get after error error' :
  string_empty command_name = false ->
  command_sections = before ++ (key, get) :: after ->
  sections_built def base_def full_command_name before = true ->
  BuildObjectSchema def key (Some (get base_def)) full_command_name error
  = (None, error') ->
  LoadCommand package_name command_name (TYPE_DICTIONARY def) (Some base) error
  = (None, error').
Proof.
  intros Hname Hsections Hbuilt Hfail. unfold LoadCommand.
  unfold bind at 1.
  rewrite ValidateCommandName_accepted
    by (unfold refused_command_name; fold full_command_name;
        now rewrite Hname, Hbase).
  fold full_command_name. rewrite Hbase. simpl option_map.
  assert (Hstep : forall key' get',
             succeeds (BuildObjectSchema def key' (Some (get' base_def))
                         full_command_name) = true ->
             exists schema,
               BuildObjectSchema def key' (Some (get' base_def))
                 full_command_name error = (Some schema, error)).
  { intros key' get' H.
    apply (succeeds_spec _ (framed_BuildObjectSchema _ _ _ _)) in H.
    destruct H as [schema H]. eauto. }
  unfold command_sections in Hsections.
  destruct before as [|s1 [|s2 [|s3 before]]]; simpl in Hsections, Hbuilt.
  - injection Hsections as <- <- _. unfold bind. now rewrite Hfail.
  - injection Hsections as <- <- <- _. simpl in Hbuilt.
    apply andb_true_iff in Hbuilt. destruct Hbuilt as [H1 _].
    destruct (Hstep _ _ H1) as [schema1 E1].
    unfold bind. now rewrite E1, Hfail.
  - injection Hsections as <- <- <- <- _. simpl in Hbuilt.
    apply andb_true_iff in Hbuilt. destruct Hbuilt as [H1 Hbuilt].
    apply andb_true_iff in Hbuilt. destruct Hbuilt as [H2 _].
    destruct (Hstep _ _ H1) as [schema1 E1].
    destruct (Hstep _ _ H2) as [schema2 E2].
    unfold bind. now rewrite E1, E2, Hfail.
  - exfalso. injection Hsections as _ _ _ Hsections.
    destruct before; discriminate Hsections.
Qed.

Lemma LoadCommand_section_fails key get :
  In (key, get) command_sections ->
  fst (BuildObjectSchema def key (Some (get base_def)) full_command_name [])
  = None ->
  fst (LoadCommand package_name command_name (TYPE_DICTIONARY def) (Some base)
         []) = None.
Proof.
  intros Hin Hfail. unfold LoadCommand. unfold bind at 1.
  destruct (ValidateCommandName _ _ _ []) as [[[]|] error0] eqn:Hv;
    [|reflexivity].
  pose proof (framed_success _ _ _ _ (framed_ValidateCommandName _ _ _) Hv)
    as ->.
  fold full_command_name. rewrite Hbase. simpl option_map.
  assert (Hstep : forall key' get' schema error1,
             BuildObjectSchema def key' (Some (get' base_def))
               full_command_name [] = (Some schema, error1) ->
             (key', get') = (key, get) -> False).
  { intros key' get' schema error1 H [= -> ->]. rewrite H in Hfail.
    discriminate. }
  assert (Hok : forall key' get' schema error1,
             BuildObjectSchema def key' (Some (get' base_def))
               full_command_name [] = (Some schema, error1) -> error1 = []).
  { intros key' get' schema error1 H.
    now apply (framed_success _ _ _ _ (framed_BuildObjectSchema _ _ _ _)) in H. }
  unfold bind.
  destruct (BuildObjectSchema def commands.attributes.kCommand_Parameters _ _ [])
    as [[s1|] e1] eqn:E1; [|reflexivity].
  pose proof (Hok _ _ _ _ E1) as ->.
  destruct (BuildObjectSchema def commands.attributes.kCommand_Progress _ _ [])
    as [[s2|] e2] eqn:E2; [|reflexivity].
  pose proof (Hok _ _ _ _ E2) as ->.
  destruct (BuildObjectSchema def commands.attributes.kCommand_Results _ _ [])
    as [[s3|] e3] eqn:E3; [|reflexivity].
  exfalso. simpl in Hin.
  destruct Hin as [H|[H|[H|[]]]].
  - exact (Hstep _ _ _ _ E1 H).
  - exact (Hstep _ _ _ _ E2 H).
  - exact (Hstep _ _ _ _ E3 H).
Qed.

End LoadCommandFacts.

(** ** Cloning, by value *)

Lemma PropType_Clone_id (p : PropType) : PropType_Clone p = p.
Proof.
  induction p as [| | | |a schema inherited IH| |a item inherited IH]
    using PropType_ind; simpl; try reflexivity.
  - destruct schema as [properties extra]. simpl in *. do 2 f_equal.
    induction IH as [|[name prop] properties Hprop _ IHprops]; simpl.
    + reflexivity.
    + simpl in Hprop. now rewrite Hprop, IHprops.
  - now rewrite IH.
Qed.

Lemma find_fold_emplace {A B : Type} (f : B -> A) (l : list (string * B))
    (acc : list (string * A)) (n : string) :
  Dict.find n
    (fold_left (fun d pair => Dict.emplace (fst pair) (f (snd pair)) d) l acc)
  = match Dict.find n acc with
    | Some w => Some w
    | None => option_map f (Dict.find n l)
    end.
Proof.
  revert acc. induction l as [|[k v] l IH]; intros acc; simpl.
  - now destruct (Dict.find n acc).
  - rewrite IH, find_emplace. destruct (Dict.find n acc); [reflexivity|].
    now destruct (String.eqb k n).
Qed.

Lemma ObjectSchema_Clone_GetProp (this : ObjectSchema) (name : string) :
  ObjectSchema_GetProp (ObjectSchema_Clone this) name
  = ObjectSchema_GetProp this name.
Proof.
  unfold ObjectSchema_GetProp, ObjectSchema_Clone. simpl.
  rewrite find_fold_emplace. simpl.
  destruct (Dict.find name (properties_ this)); simpl; [|reflexivity].
  now rewrite PropType_Clone_id.
Qed.

(** ** A loaded definition keeps the kinds of the base definition *)

Lemma BuildObjectSchema_keeps_kinds def key base_schema name error schema error' :
  BuildObjectSchema def key (Some base_schema) name error = (Some schema, error') ->
  keeps_kinds schema base_schema.
Proof.
  unfold BuildObjectSchema.
  destruct (Dict.find key def) as [[|?|?|?|?|?|props|?]|];
    try (intros [= <- _]; intros n' p' b'; rewrite ObjectSchema_Clone_GetProp;
         congruence).
  unfold wrap_error.
  destruct (ObjectSchema_CreateFromJson props (Some base_schema) error)
    as [[schema'|] error1] eqn:Hparse; [|discriminate].
  intros [= <- _]. eapply CreateFromJson_keeps_kinds. exact Hparse.
Qed.

Lemma LoadCommand_keeps_kinds package_name command_name command_value base
    error full_command_name def error' :
  LoadCommand package_name command_name command_value (Some base) error
  = (Some (full_command_name, def), error') ->
  forall base_def,
    FindCommand base full_command_name = Some base_def ->
    command_keeps_kinds def base_def.
Proof.
  unfold LoadCommand. unfold bind at 1.
  destruct (ValidateCommandName _ _ _ error) as [[[]|] error0]; [|discriminate].
  destruct command_value as [|?|?|?|?|?|dict|?]; try discriminate.
  unfold bind.
  destruct (BuildObjectSchema dict commands.attributes.kCommand_Parameters _ _ _)
    as [[s1|] e1] eqn:E1; [|discriminate].
  destruct (BuildObjectSchema dict commands.attributes.kCommand_Progress _ _ _)
    as [[s2|] e2] eqn:E2; [|discriminate].
  destruct (BuildObjectSchema dict commands.attributes.kCommand_Results _ _ _)
    as [[s3|] e3] eqn:E3; [|discriminate].
  match goal with
  | |- match ?m with _ => _ end = _ -> _ =>
      destruct m as [[visibility|] e4]; [|discriminate]
  end.
  match goal with
  | |- match ?m with _ => _ end = _ -> _ =>
      destruct m as [[role|] e5]; [|discriminate]
  end.
  intros [= <- <- _] base_def Hbase. rewrite Hbase in E1, E2, E3.
  simpl in E1, E2, E3. repeat split; simpl;
    eapply BuildObjectSchema_keeps_kinds; eassumption.
Qed.

Lemma LoadPackage_keeps_kinds package_name base command_iter :
  forall new_defs error new_defs' error',
    defs_keep_kinds base new_defs ->
    LoadPackage package_name (Some base) command_iter new_defs error
    = (Some new_defs', error') ->
    defs_keep_kinds base new_defs'.
Proof.
  induction command_iter as [|[name value] iter IH];
    intros new_defs error new_defs' error' Hinv; simpl.
  - now intros [= <- _].
  - unfold bind.
    destruct (LoadCommand package_name name value (Some base) error)
      as [[[full def]|] error1] eqn:Hcommand; [|discriminate].
    apply IH. intros n d b Hfind Hbase. simpl in Hfind.
    rewrite find_emplace in Hfind.
    destruct (Dict.find n new_defs) as [w|] eqn:Hw.
    + injection Hfind as <-. now apply (Hinv n).
    + destruct (String.eqb full n) eqn:Hn; [|discriminate].
      apply String.eqb_eq in Hn. subst n. injection Hfind as <-.
      eapply LoadCommand_keeps_kinds; eassumption.
Qed.

Lemma LoadPackages_keeps_kinds base package_iter :
  forall new_defs error new_defs' error',
    defs_keep_kinds base new_defs ->
    LoadPackages (Some base) package_iter new_defs error
    = (Some new_defs', error') ->
    defs_keep_kinds base new_defs'.
Proof.
  induction package_iter as [|[name value] iter IH];
    intros new_defs error new_defs' error' Hinv; simpl.
  - now intros [= <- _].
  - destruct value; try discriminate. unfold bind.
    destruct (LoadPackage name (Some base) dict new_defs error)
      as [[defs|] error1] eqn:Hpackage; [|discriminate].
    apply IH. eapply LoadPackage_keeps_kinds; eassumption.
Qed.

Lemma LoadCommands_keeps_kinds this json base error this' error'
    full_command_name def base_def :
  LoadCommands this json (Some base) error = Returned true this' error' ->
  FindCommand this' full_command_name = Some def ->
  FindCommand this full_command_name = None ->
  FindCommand base full_command_name = Some base_def ->
  command_keeps_kinds def base_def.
Proof.
  unfold LoadCommands.
  destruct (LoadPackages (Some base) json [] error)
    as [[new_defs|] error1] eqn:Hload; [|discriminate].
  destruct (existsb _ new_defs); [discriminate|].
  intros [= <- _]. unfold FindCommand. simpl.
  rewrite (find_fold_emplace (fun def => def)). intros Hfind Hthis.
  rewrite Hthis in Hfind.
  destruct (Dict.find full_command_name new_defs) as [d|] eqn:Hd;
    [|discriminate]. injection Hfind as <-.
  intros Hbase.
  eapply (LoadPackages_keeps_kinds base json [] error new_defs error1);
    try eassumption.
  intros n d' b Hn. discriminate Hn.
Qed.

(** The claim as the specification has it fails when another definition fails
    first: the parameters are parsed in key order and the first failure ends
    the load, so the innermost error is the one of that definition. *)
Lemma LoadCommands_kind_redefined_after_failure :
  match
    LoadCommands (mkCommandDictionary [])
      (reboot_json [("count", TYPE_INTEGER 0); ("delay", TYPE_STRING "string")]
         [("version", TYPE_STRING "integer")])
      (Some std_dictionary) []
  with
  | Returned result _ error =>
      result = false
      /\ codes error
         = [errors.commands.kInvalidObjectSchema;
            errors.commands.kInvalidPropDef; errors.commands.kUnknownType]
      /\ option_map GetCode (GetFirstError error)
         <> Some errors.commands.kPropTypeChanged
  | Aborted => False
  end.
Proof. vm_compute. repeat split; congruence. Qed.

(** C1 (amended).  A command definition loaded against a base dictionary that
    redefines a property of one of its sections (parameters, progress,
    results) with a kind that is not the kind of that property in the base
    definition.  The definition of the property fails with
    [param_type_changed]; [LoadCommands] returns false and leaves the
    dictionary as it was, wherever the definition stands in the tree; when
    everything parsed before the definition is accepted, the error chain is
    [invalid_object_schema], then [invalid_parameter_definition], then
    [param_type_changed].  Hence a definition that is loaded has, for every
    property it shares with the base definition, the kind it has there. *)
Theorem LoadCommands_kind_redefined (base : CommandDictionary)
    (package_name command_name : string) (def : list (string * Value))
    (base_def : CommandDefinition) (key : string)
    (get : CommandDefinition -> ObjectSchema) (name : string) (value : Value)
    (b : PropType) (kind : ValueType) :
  FindCommand base (package_name ++ "." ++ command_name) = Some base_def ->
  In (key, get) command_sections ->
  ObjectSchema_GetProp (get base_def) name = Some b ->
  DeclaredKind value (Some b) = Some kind ->
  kind <> PropType_GetType b ->
  (forall error,
      exists message,
        ObjectSchema_PropFromJson value (Some b) error
        = (None,
           mkError errors.commands.kDomain errors.commands.kPropTypeChanged
             message :: error))
  /\ (forall this json commands props error,
        In (package_name, TYPE_DICTIONARY commands) json ->
        In (command_name, TYPE_DICTIONARY def) commands ->
        Dict.find key def = Some (TYPE_DICTIONARY props) ->
        In (name, value) props ->
        exists error',
          LoadCommands this json (Some base) error
          = Returned false this error')
  /\ (forall this before commands_before commands_after after sections_before
             sections_after props_before props_after error,
        string_empty command_name = false ->
        command_sections = sections_before ++ (key, get) :: sections_after ->
        sections_built def base_def (package_name ++ "." ++ command_name)
          sections_before = true ->
        Dict.find key def
        = Some (TYPE_DICTIONARY (props_before ++ (name, value) :: props_after)) ->
        succeeds
          (ObjectSchema_FromJson_loop ObjectSchema_PropFromJson
             (Some (get base_def)) props_before []) = true ->
        succeeds
          (LoadPackages (Some base)
             (tree_before before package_name commands_before) []) = true ->
        exists error',
          LoadCommands this
            (tree_around before package_name commands_before command_name
               (TYPE_DICTIONARY def) commands_after after)
            (Some base) error
          = Returned false this error'
          /\ codes error' = kind_changed_chain ++ codes error
          /\ option_map GetCode (GetFirstError error')
             = match error with
               | [] => Some errors.commands.kPropTypeChanged
               | _ => option_map GetCode (GetFirstError error)
               end)
  /\ (forall this json error this' error' full_command_name def' base_def',
        LoadCommands this json (Some base) error = Returned true this' error' ->
        FindCommand this' full_command_name = Some def' ->
        FindCommand this full_command_name = None ->
        FindCommand base full_command_name = Some base_def' ->
        command_keeps_kinds def' base_def').
Proof.
  intros Hbase Hsection Hprop Hkind Hne. repeat apply conj.
  - intros error. now apply (PropFromJson_kind_changed value b kind).
  - intros this json commands props error Hpackage Hcommand Hfind Hin.
    eapply LoadCommands_fails; try eassumption.
    eapply LoadCommand_section_fails; try eassumption.
    unfold BuildObjectSchema. rewrite Hfind. unfold wrap_error.
    pose proof (CreateFromJson_fails (get base_def) props name value b kind []
                  Hin Hprop Hkind Hne) as H.
    destruct (ObjectSchema_CreateFromJson props (Some (get base_def)) [])
      as [[schema|] error1]; [discriminate H|reflexivity].
  - intros this before commands_before commands_after after sections_before
      sections_after props_before props_after error Hname Hsections Hbuilt
      Hfind Hprops Hbefore.
    destruct (CreateFromJson_kind_changed (get base_def) props_before name value
                props_after b kind error Hprops Hprop Hkind Hne)
      as (m2 & m3 & Hparse).
    eexists. split; [|split].
    + apply LoadCommands_first_failure; [exact Hbefore|].
      eapply LoadCommand_section_failure; try eassumption.
      unfold BuildObjectSchema. rewrite Hfind. unfold wrap_error.
      rewrite Hparse. reflexivity.
    + reflexivity.
    + unfold GetFirstError. simpl. destruct error as [|e error]; reflexivity.
  - intros this json error this' error' full_command_name def' base_def'.
    apply LoadCommands_keeps_kinds.
Qed.

Lemma LoadCommands_kind_redefined_witness :
  (exists message,
      ObjectSchema_PropFromJson (TYPE_STRING "string")
        (Some (PropType_Create ValueType.Int)) []
      = (None, [mkError "commands" "param_type_changed" message]))
  /\ (exists error',
        LoadCommands (mkCommandDictionary [])
          (reboot_json [("delay", TYPE_STRING "integer")]
             [("version", TYPE_STRING "string")])
          (Some std_dictionary) []
        = Returned false (mkCommandDictionary []) error'
        /\ codes error'
           = ["invalid_object_schema"; "invalid_parameter_definition";
              "param_type_changed"]
        /\ option_map GetCode (GetFirstError error')
           = Some "param_type_changed").
Proof.
  pose proof
    (LoadCommands_kind_redefined std_dictionary "base" "reboot"
       [("parameters", TYPE_DICTIONARY [("delay", TYPE_STRING "integer")]);
        ("results", TYPE_DICTIONARY [("version", TYPE_STRING "string")])]
       (mkCommandDefinition
          (mkObjectSchema [("delay", PropType_Create ValueType.Int)] false)
          ObjectSchema_Create
          (mkObjectSchema [("version", PropType_Create ValueType.Int)] false)
          (mkVisibility true true) UserRole.kUser)
       "results" GetResults "version" (TYPE_STRING "string")
       (PropType_Create ValueType.Int) ValueType.String
       eq_refl (or_intror (or_intror (or_introl eq_refl))) eq_refl eq_refl
       ltac:(discriminate))
    as (Hprop & _ & Hfirst & _).
  split.
  - exact (Hprop []).
  - exact (Hfirst (mkCommandDictionary []) [] [] [] []
             [("parameters", GetParameters); ("progress", GetProgress)] []
             [] [] [] eq_refl eq_refl eq_refl eq_refl eq_refl eq_refl).
Defined.

(** ** Narrowing the bounds of a standard parameter *)

(** C3.  The base dictionary declares the parameter delay of base.reboot with
    maximum 100; the overlay that redefines delay with minimum 10 is loaded
    against it; the full serialization of the parameter is
    [{"type":"integer","minimum":10,"maximum":100}] (and the minimal one is
    [{"minimum":10}]).  In general a definition that only states a minimum
    (or a maximum) for an Int property of the base schema is accepted, and has
    its own bound and the other bound of the base schema. *)
Theorem LoadCommands_narrowed_bounds :
  (exists this,
      LoadCommands (mkCommandDictionary []) example_overlay_json
        (Some (dictionary_of example_base_json)) []
      = Returned true this []
      /\ Value_at ["base"; "reboot"; "parameters"; "delay"]
           (GetCommandsAsJson this (fun _ => true) true)
         = Some (TYPE_DICTIONARY
                   [("maximum", TYPE_INTEGER 100); ("minimum", TYPE_INTEGER 10);
                    ("type", TYPE_STRING "integer")])
      /\ Value_at ["base"; "reboot"; "parameters"; "delay"]
           (GetCommandsAsJson this (fun _ => true) false)
         = Some (TYPE_DICTIONARY [("minimum", TYPE_INTEGER 10)]))
  /\ (forall attrs lo hi bound error,
        ObjectSchema_PropFromJson
          (TYPE_DICTIONARY [("minimum", TYPE_INTEGER bound)])
          (Some (IntPropType attrs lo hi)) error
        = (Some (IntPropType
                   (mkPropAttrs true false (inherit (default_ attrs))
                      (inherit (one_of_ attrs)))
                   (Some (mkInheritable bound false)) (inherit hi)),
           error))
  /\ (forall attrs lo hi bound error,
        ObjectSchema_PropFromJson
          (TYPE_DICTIONARY [("maximum", TYPE_INTEGER bound)])
          (Some (IntPropType attrs lo hi)) error
        = (Some (IntPropType
                   (mkPropAttrs true false (inherit (default_ attrs))
                      (inherit (one_of_ attrs)))
                   (inherit lo) (Some (mkInheritable bound false))),
           error))
  /\ (forall attrs lo hi,
        Dict.find "minimum"
          (DefinitionObject
             (PropType_ToJson
                (IntPropType attrs (Some (mkInheritable lo false))
                   (Some (mkInheritable hi true))) true true))
        = Some (TYPE_INTEGER lo)
        /\ Dict.find "maximum"
             (DefinitionObject
                (PropType_ToJson
                   (IntPropType attrs (Some (mkInheritable lo false))
                      (Some (mkInheritable hi true))) true true))
           = Some (TYPE_INTEGER hi)).
Proof.
  split; [|split; [|split]].
  - eexists. split; [vm_compute; reflexivity|]. split; vm_compute; reflexivity.
  - intros attrs lo hi bound error. destruct attrs, hi as [[]|]; reflexivity.
  - intros attrs lo hi bound error. destruct attrs, lo as [[]|]; reflexivity.
  - intros [based required [[]|] [[]|]] lo hi; split; reflexivity.
Qed.

(** ** The state store *)

Lemma SplitAtFirst_found (name : string) :
  fst (fst (SplitAtFirst name ".")) = contains_dot name.
Proof.
  induction name as [|c rest IH]; simpl; [reflexivity|].
  destruct (Ascii.eqb c "."); [reflexivity|].
  destruct (SplitAtFirst rest ".") as [[found left_part] right_part].
  exact IH.
Qed.

Lemma SplitAtFirst_qualified (package_name property_name : string) :
  contains_dot package_name = false ->
  SplitAtFirst (package_name ++ "." ++ property_name) "."
  = (true, package_name, property_name).
Proof.
  induction package_name as [|c rest IH]; simpl; [reflexivity|].
  destruct (Ascii.eqb c "."); [discriminate|]. simpl.
  intros H. now rewrite (IH H).
Qed.

Lemma string_empty_app (a b : string) :
  string_empty (a ++ "." ++ b) = false.
Proof. destruct a; reflexivity. Qed.




(** ** Cloning a schema, with its objects *)

Lemma allocate_fresh (heap : gmap nat PropType) (object : PropType) :
  heap !! snd (Store.allocate heap object) = None.
Proof. unfold Store.allocate. simpl. apply not_elem_of_dom, is_fresh. Qed.

Lemma allocate_extends (heap : gmap nat PropType) (object : PropType) :
  heap ⊆ fst (Store.allocate heap object).
Proof.
  unfold Store.allocate. simpl. apply insert_subseteq.
  apply not_elem_of_dom, is_fresh.
Qed.

Lemma allocate_lookup (heap : gmap nat PropType) (object : PropType) :
  fst (Store.allocate heap object) !! snd (Store.allocate heap object)
  = Some object.
Proof. unfold Store.allocate. simpl. apply lookup_insert_eq. Qed.

Lemma allocated_lookup heap this address :
  Store.allocated heap this = true -> In address (Store.owned this) ->
  exists object, heap !! address = Some object.
Proof.
  unfold Store.allocated. rewrite forallb_forall. intros H Hin.
  specialize (H address Hin). destruct (heap !! address); [eauto|discriminate].
Qed.

(** The loop of [Clone] on a map in key order whose addresses are addresses
    of objects: it ends, every object is cloned into a new object, and the
    objects there were are still there. *)
Lemma Clone_loop_spec heap0 iter :
  Dict.sorted iter = true ->
  forall heap cloned,
    heap0 ⊆ heap ->
    (forall entry, In entry iter ->
       below cloned (fst entry)
       /\ exists object, heap0 !! snd entry = Some object) ->
    exists heap' news,
      Store.Clone_loop heap iter cloned = Some (heap', cloned ++ news)
      /\ heap ⊆ heap'
      /\ cloned_entries heap0 heap' iter news.
Proof.
  induction iter as [|[name address] iter IH];
    intros Hsorted heap cloned Hsub Hiter.
  - exists heap, []. rewrite app_nil_r. repeat split; [reflexivity|constructor].
  - destruct (sorted_cons _ _ _ Hsorted) as [Habove Hsorted'].
    destruct (Hiter (name, address) (or_introl eq_refl))
      as [Hbelow [object Hobject]]. simpl in Hbelow, Hobject.
    pose proof (lookup_weaken _ _ _ _ Hobject Hsub) as Hobject'.
    simpl. unfold Store.ClonePropType. rewrite Hobject'.
    pose proof (allocate_fresh heap (PropType_Clone object)) as Hfresh.
    pose proof (allocate_extends heap (PropType_Clone object)) as Hextends.
    pose proof (allocate_lookup heap (PropType_Clone object)) as Hlookup.
    destruct (Store.allocate heap (PropType_Clone object))
      as [heap1 address1]. simpl in Hfresh, Hextends, Hlookup.
    rewrite (find_below _ _ Hbelow), (set_below _ _ _ Hbelow).
    destruct (IH Hsorted' heap1 (cloned ++ [(name, address1)]))
      as (heap' & news & Hloop & Hsub' & Hnews).
    + etransitivity; [exact Hsub|exact Hextends].
    + intros entry Hentry. split.
      * apply below_snoc; [exact Hbelow|].
        unfold above in Habove. rewrite Forall_forall in Habove.
        now apply Habove, list_elem_of_In.
      * apply Hiter. now right.
    + exists heap', ((name, address1) :: news).
      rewrite Hloop, <- app_assoc. simpl. repeat split.
      * etransitivity; [exact Hextends|exact Hsub'].
      * constructor; [|exact Hnews]. simpl. repeat split.
        -- destruct (heap0 !! address1) as [o|] eqn:Ho; [|reflexivity].
           pose proof (lookup_weaken _ _ _ _ Ho Hsub). congruence.
        -- exists object. split; [exact Hobject|].
           eapply lookup_weaken; [exact Hlookup|exact Hsub'].
Qed.

Lemma ToJson_loop_cloned heap heap' iter news full_schema in_command_def :
  cloned_entries heap heap' iter news ->
  forall value,
    Store.ToJson_loop heap' news full_schema in_command_def value
    = Store.ToJson_loop heap iter full_schema in_command_def value.
Proof.
  induction 1 as [|[name address] [name' address'] iter news
                    (Hname & _ & object & Hobject & Hclone) _ IH];
    intros value; simpl in *; [reflexivity|].
  subst name'. now rewrite Hobject, Hclone, PropType_Clone_id, IH.
Qed.

Lemma contents_loop_cloned heap heap' iter news :
  cloned_entries heap heap' iter news ->
  Store.contents_loop heap' news = Store.contents_loop heap iter.
Proof.
  induction 1 as [|[name address] [name' address'] iter news
                    (Hname & _ & object & Hobject & Hclone) _ IH];
    simpl in *; [reflexivity|].
  subst name'. now rewrite Hobject, Hclone, PropType_Clone_id, IH.
Qed.

(** The serialization of a schema reads the objects of the schema only. *)
Lemma ToJson_loop_frame heap1 heap2 iter full_schema in_command_def :
  (forall address, In address (map snd iter) -> heap2 !! address = heap1 !! address) ->
  forall value,
    Store.ToJson_loop heap2 iter full_schema in_command_def value
    = Store.ToJson_loop heap1 iter full_schema in_command_def value.
Proof.
  induction iter as [|[name address] iter IH]; intros Hsame value; simpl;
    [reflexivity|].
  rewrite (Hsame address) by now left.
  destruct (heap1 !! address); [|reflexivity].
  apply IH. intros a Ha. apply Hsame. now right.
Qed.

Lemma ToJson_frame heap1 heap2 this full_schema in_command_def :
  (forall address, In address (Store.owned this) ->
     heap2 !! address = heap1 !! address) ->
  Store.ToJson heap2 this full_schema in_command_def
  = Store.ToJson heap1 this full_schema in_command_def.
Proof.
  intros H. unfold Store.ToJson. now rewrite (ToJson_loop_frame heap1 heap2).
Qed.

Lemma GetProp_frame heap1 heap2 this name :
  (forall address, In address (Store.owned this) ->
     heap2 !! address = heap1 !! address) ->
  Store.GetProp heap2 this name = Store.GetProp heap1 this name.
Proof.
  intros H. unfold Store.GetProp.
  destruct (Dict.find name (Store.properties_ this)) as [address|] eqn:Hfind;
    [|reflexivity].
  apply H. unfold Store.owned. apply find_In in Hfind.
  change address with (snd (name, address)). now apply in_map.
Qed.

Lemma ToJson_loop_allocated heap iter full_schema in_command_def :
  (forall address, In address (map snd iter) ->
     exists object, heap !! address = Some object) ->
  forall value,
    Store.ToJson_loop heap iter full_schema in_command_def value <> None.
Proof.
  induction iter as [|[name address] iter IH]; intros Hall value; simpl;
    [discriminate|].
  destruct (Hall address (or_introl eq_refl)) as [object ->].
  apply IH. intros a Ha. apply Hall. now right.
Qed.

Lemma cloned_entries_owned heap heap' iter news address :
  cloned_entries heap heap' iter news -> In address (map snd news) ->
  heap !! address = None.
Proof.
  induction 1 as [|entry entry' iter news (_ & Hfresh & _) _ IH]; simpl;
    [tauto|].
  intros [<-|Hin]; [exact Hfresh|now apply IH].
Qed.

(** C8.  [ObjectSchema::Clone] on a schema whose objects are in the heap: the
    clone serializes as the schema does, in full and in minimal mode; it has
    the flag [extra_properties_allowed_] of the schema; every object it holds
    is a new one, so it shares no PropType with the schema (what a PropType
    owns, its nested ObjectSchema included, is held by value in the object and
    duplicated with it); and adding or replacing a property of the clone, or
    marking one required, changes neither the properties nor the
    serialization of the schema. *)
Theorem Clone_shares_nothing (heap : gmap nat PropType)
    (this : Store.ObjectSchema) :
  Dict.sorted (Store.properties_ this) = true ->
  Store.allocated heap this = true ->
  exists heap' cloned,
    Store.Clone heap this = Some (heap', cloned)
    /\ (forall full_schema in_command_def,
          Store.ToJson heap' cloned full_schema in_command_def
          = Store.ToJson heap this full_schema in_command_def
          /\ Store.ToJson heap this full_schema in_command_def <> None)
    /\ Store.extra_properties_allowed_ cloned
       = Store.extra_properties_allowed_ this
    /\ Store.contents heap' cloned = Store.contents heap this
    /\ (forall address,
          In address (Store.owned cloned) ->
          heap !! address = None /\ ~ In address (Store.owned this))
    /\ (forall address,
          In address (Store.owned this) -> heap' !! address = heap !! address)
    /\ (forall name prop full_schema in_command_def,
          let after := Store.AddProp heap' cloned name prop in
          Store.ToJson (fst after) this full_schema in_command_def
          = Store.ToJson heap this full_schema in_command_def
          /\ forall name',
               Store.GetProp (fst after) this name'
               = Store.GetProp heap this name')
    /\ (forall name error full_schema in_command_def,
          let after := Store.MarkPropRequired heap' cloned name error in
          Store.ToJson (snd (fst after)) this full_schema in_command_def
          = Store.ToJson heap this full_schema in_command_def
          /\ forall name',
               Store.GetProp (snd (fst after)) this name'
               = Store.GetProp heap this name').
Proof.
  intros Hsorted Hallocated.
  destruct (Clone_loop_spec heap (Store.properties_ this) Hsorted heap [])
    as (heap' & news & Hloop & Hsub & Hnews).
  { reflexivity. }
  { intros entry Hentry. split; [constructor|].
    apply (allocated_lookup heap this); [exact Hallocated|].
    unfold Store.owned. now apply in_map. }
  simpl in Hloop.
  assert (Hkept : forall address,
             In address (Store.owned this) -> heap' !! address = heap !! address).
  { intros address Hin.
    destruct (allocated_lookup heap this address Hallocated Hin) as [object Ho].
    rewrite Ho. eapply lookup_weaken; eassumption. }
  assert (Hnew : forall address,
             In address (map snd news) ->
             heap !! address = None /\ ~ In address (Store.owned this)).
  { intros address Hin.
    pose proof (cloned_entries_owned _ _ _ _ _ Hnews Hin) as Hfresh.
    split; [exact Hfresh|]. intros Hshared.
    destruct (allocated_lookup heap this address Hallocated Hshared)
      as [object Ho]. congruence. }
  assert (Hother : forall address address',
             In address (Store.owned this) -> In address' (map snd news) ->
             address' <> address).
  { intros address address' Hin Hin' ->. now apply (Hnew address). }
  exists heap', (Store.mkObjectSchema news (Store.extra_properties_allowed_ this)).
  unfold Store.Clone. rewrite Hloop. repeat apply conj.
  - reflexivity.
  - intros full_schema in_command_def. unfold Store.ToJson. simpl. split.
    + now rewrite (ToJson_loop_cloned heap heap' _ news _ _ Hnews).
    + pose proof (ToJson_loop_allocated heap (Store.properties_ this)
                    full_schema in_command_def
                    (fun a Ha => allocated_lookup heap this a Hallocated Ha) [])
        as H.
      destruct (Store.ToJson_loop heap (Store.properties_ this) full_schema
                  in_command_def []); [discriminate|now destruct H].
  - reflexivity.
  - unfold Store.contents. simpl.
    now rewrite (contents_loop_cloned heap heap' _ news Hnews).
  - exact Hnew.
  - exact Hkept.
  - intros name prop full_schema in_command_def.
    set (after := Store.AddProp heap' _ name prop).
    assert (Hsame : forall address,
               In address (Store.owned this) ->
               fst after !! address = heap !! address).
    { intros address Hin. subst after. unfold Store.AddProp. simpl.
      destruct (Dict.find name news) as [old|] eqn:Hold; [|now apply Hkept].
      rewrite lookup_delete_ne; [now apply Hkept|].
      apply (Hother address old Hin). apply find_In in Hold.
      change old with (snd (name, old)). now apply in_map. }
    split; [now apply ToJson_frame|].
    intros name'. now apply GetProp_frame.
  - intros name error full_schema in_command_def.
    set (after := Store.MarkPropRequired heap' _ name error).
    assert (Hsame : forall address,
               In address (Store.owned this) ->
               snd (fst after) !! address = heap !! address).
    { intros address Hin. subst after. unfold Store.MarkPropRequired. simpl.
      destruct (Dict.find name news) as [old|] eqn:Hold; simpl;
        [|now apply Hkept].
      rewrite lookup_alter_ne; [now apply Hkept|].
      apply (Hother address old Hin). apply find_In in Hold.
      change old with (snd (name, old)). now apply in_map. }
    split; [now apply ToJson_frame|].
    intros name'. now apply GetProp_frame.
Qed.

Lemma Clone_shares_nothing_witness :
  let heap : gmap nat PropType :=
    <[0 := PropType_Create ValueType.Int]>
      (<[1 := PropType_Create ValueType.String]> ∅) in
  let this := Store.mkObjectSchema [("a", 0); ("b", 1)] true in
  exists heap' cloned,
    Store.Clone heap this = Some (heap', cloned)
    /\ Store.ToJson heap' cloned true false = Store.ToJson heap this true false
    /\ Store.extra_properties_allowed_ cloned = true
    /\ forall address,
         In address (Store.owned cloned) -> ~ In address (Store.owned this).
Proof.
  intros heap this.
  destruct (Clone_shares_nothing heap this eq_refl eq_refl)
    as (heap' & cloned & Hclone & Hjson & Hextra & _ & Hnew & _).
  exists heap', cloned. repeat split.
  - exact Hclone.
  - apply Hjson.
  - exact Hextra.
  - intros address Hin. now apply Hnew.
Defined.

(** The clone of a schema as a value is the schema (the map being in key
    order). *)
Lemma ObjectSchema_Clone_sorted (this : ObjectSchema) :
  Dict.sorted (properties_ this) = true -> ObjectSchema_Clone this = this.
Proof.
  intros Hsorted. unfold ObjectSchema_Clone.
  rewrite (fold_emplace_sorted PropType_Clone (properties_ this) [] Hsorted)
    by (intros; constructor).
  simpl. destruct this as [properties extra]. simpl. f_equal.
  induction properties as [|[name prop] properties IH]; [reflexivity|].
  simpl. rewrite PropType_Clone_id. f_equal. apply IH.
  now destruct (sorted_cons _ _ _ Hsorted).
Qed.

(** ** Parsing a serialized property type *)

Lemma parsed_entries (entries : list (string * PropType)) :
  (fix all (entries : list (string * PropType)) : Prop :=
     match entries with
     | [] => True
     | entry :: entries' => parsed (snd entry) /\ all entries'
     end) entries
  <-> Forall (fun entry => parsed (snd entry)) entries.
Proof.
  induction entries as [|entry entries IH]; simpl.
  - split; [constructor|trivial].
  - rewrite IH. split.
    + intros [H1 H2]. now constructor.
    + intros H. inversion H; subst. now split.
Qed.

Lemma created_Create (type : ValueType) : created (PropType_Create type).
Proof. destruct type; simpl; repeat split. Qed.

Lemma created_CreatePropType_rec fuel type_name error prop error' :
  CreatePropType_rec fuel type_name error = (Some prop, error') ->
  created prop.
Proof.
  revert type_name error prop error'.
  induction fuel as [|fuel IH]; intros type_name error prop error'; simpl;
    destruct (SplitAtFirst type_name ".") as [[found primary] array_type];
    destruct (PropType_GetTypeFromTypeString primary) as [type|];
    try discriminate;
    destruct (ValueType.eqb type ValueType.Array
              && negb (string_empty array_type)) eqn:Harray;
    try discriminate;
    try (intros [= <- _]; apply created_Create).
  destruct (CreatePropType_rec fuel array_type error)
    as [[items|] error1] eqn:Hitems; [|discriminate].
  intros [= <- _]. apply andb_true_iff in Harray. destruct Harray as [Harray _].
  apply ValueType_eqb_eq in Harray. subst type. simpl.
  repeat split. eapply IH. exact Hitems.
Qed.

Lemma created_parsed (p : PropType) : created p -> parsed p.
Proof.
  induction p as [a lo hi|a lo hi|a lo hi|a|a schema inherited IH|a inherited
                 |a item inherited IH] using PropType_ind;
    simpl; intros [Hattrs Hkind]; subst a;
    (split; [repeat split|]);
    repeat match goal with H : _ /\ _ |- _ => destruct H end;
    subst; simpl; repeat split; auto.
Qed.

Lemma PropValue_FromJson_idem type value value' :
  PropValue_FromJson type value = Some value' ->
  PropValue_FromJson type value' = Some value'.
Proof.
  destruct type, value; simpl; intros H; try discriminate H;
    injection H as <-; reflexivity.
Qed.

Lemma PropValue_FromJsonList_idem type values values' :
  PropValue_FromJsonList type values = Some values' ->
  PropValue_FromJsonList type values' = Some values'.
Proof.
  revert values'. induction values as [|value values IH]; intros values'; simpl.
  - now intros [= <-].
  - destruct (PropValue_FromJson type value) as [v|] eqn:Hv; [|discriminate].
    destruct (PropValue_FromJsonList type values) as [vs|]; [|discriminate].
    intros [= <-]. simpl.
    now rewrite (PropValue_FromJson_idem _ _ _ Hv), (IH vs eq_refl).
Qed.

Lemma ReadInteger_own key value error r error' :
  ReadInteger key value None error = (Some r, error') -> own r.
Proof.
  unfold ReadInteger. destruct (Dict.find key value) as [[]|];
    try discriminate; intros [= <- _]; simpl; trivial.
Qed.

Lemma ReadDouble_own key value error r error' :
  ReadDouble key value None error = (Some r, error') -> own r.
Proof.
  unfold ReadDouble. destruct (Dict.find key value) as [[]|];
    try discriminate; intros [= <- _]; simpl; trivial.
Qed.

Lemma ReadEnum_parsed type value error r error' :
  ReadEnum type value None error = (Some r, error') ->
  match r with
  | Some e =>
      is_inherited e = false
      /\ PropValue_FromJsonList type (attr e) = Some (attr e)
  | None => True
  end.
Proof.
  unfold ReadEnum.
  destruct (Dict.find commands.attributes.kOneOf_Enum value) as [[]|];
    try discriminate; try (intros [= <- _]; exact I).
  destruct (PropValue_FromJsonList type list) as [values|] eqn:Hvalues;
    [|discriminate].
  intros [= <- _]. simpl. split; [reflexivity|].
  eapply PropValue_FromJsonList_idem. exact Hvalues.
Qed.

Lemma ReadDefault_parsed type value error r error' :
  ReadDefault type value None error = (Some r, error') ->
  match r with
  | Some d =>
      is_inherited d = false /\ PropValue_FromJson type (attr d) = Some (attr d)
  | None => True
  end.
Proof.
  unfold ReadDefault.
  destruct (Dict.find commands.attributes.kDefault value) as [defval|];
    [|intros [= <- _]; exact I].
  destruct (PropValue_FromJson type defval) as [v|] eqn:Hv; [|discriminate].
  intros [= <- _]. simpl. split; [reflexivity|].
  eapply PropValue_FromJson_idem. exact Hv.
Qed.

Lemma Forall_set {A : Type} (P : A -> Prop) (k : string) (v : A)
    (d : list (string * A)) :
  P v -> Forall (fun entry => P (snd entry)) d ->
  Forall (fun entry => P (snd entry)) (Dict.set k v d).
Proof.
  intros Hv. induction 1 as [|[h w] d Hw Hd IH]; simpl.
  - constructor; [exact Hv|constructor].
  - destruct (String_as_OT.compare k h).
    + constructor; [exact Hv|exact Hd].
    + constructor; [exact Hv|]. constructor; [exact Hw|exact Hd].
    + constructor; [exact Hw|exact IH].
Qed.

Lemma Forall_emplace {A : Type} (P : A -> Prop) (k : string) (v : A)
    (d : list (string * A)) :
  P v -> Forall (fun entry => P (snd entry)) d ->
  Forall (fun entry => P (snd entry)) (Dict.emplace k v d).
Proof.
  intros Hv Hd. unfold Dict.emplace. destruct (Dict.find k d); [exact Hd|].
  now apply Forall_set.
Qed.

Section ParsedRecursive.
Variable rec : Value -> option PropType -> M PropType.

Lemma FromJson_loop_parsed iter :
  yields_parsed rec iter ->
  forall properties error properties' error',
    Dict.sorted properties = true ->
    Forall (fun entry => parsed (snd entry)) properties ->
    ObjectSchema_FromJson_loop rec None iter properties error
    = (Some properties', error') ->
    Dict.sorted properties' = true
    /\ Forall (fun entry => parsed (snd entry)) properties'.
Proof.
  induction 1 as [|[name value] iter Hvalue _ IH];
    intros properties error properties' error' Hsorted Hparsed; simpl.
  - intros [= <- _]. now split.
  - destruct (rec value None error) as [[prop|] error1] eqn:Hprop;
      [|discriminate].
    apply IH.
    + now apply sorted_emplace.
    + apply Forall_emplace; [|exact Hparsed]. eapply Hvalue. exact Hprop.
Qed.

Lemma CreateFromJson_parsed value error schema error' :
  yields_parsed rec value ->
  ObjectSchema_CreateFromJson_with rec value None error = (Some schema, error') ->
  parsed_schema schema.
Proof.
  intros Hvalue. unfold ObjectSchema_CreateFromJson_with,
    ObjectSchema_FromJson_with.
  destruct (ObjectSchema_FromJson_loop rec None value [] error)
    as [[properties|] error1] eqn:Hloop; [|discriminate].
  intros [= <- _].
  destruct (FromJson_loop_parsed value Hvalue [] error properties error1
              eq_refl (Forall_nil_2 _) Hloop) as [Hsorted Hparsed].
  repeat split; assumption.
Qed.

Lemma PropType_FromJson_parsed prop value error p error' :
  created prop ->
  yields_parsed_on rec value ->
  PropType_FromJson_with rec prop value None error = (Some p, error') ->
  parsed p.
Proof.
  intros Hcreated Hvalue. unfold PropType_FromJson_with.
  cbv beta iota zeta delta [option_map].
  unfold bind at 1.
  match goal with
  | |- match ?kind error with _ => _ end = _ -> _ =>
      destruct (kind error) as [[k|] error1] eqn:Hkind; [|discriminate]
  end.
  unfold bind.
  destruct (ReadEnum (PropType_GetType prop) value None error1)
    as [[one_of|] error2] eqn:Henum; [|discriminate].
  destruct (ReadDefault (PropType_GetType prop) value None error2)
    as [[default|] error3] eqn:Hdefault; [|discriminate].
  intros [= <- _].
  apply ReadEnum_parsed in Henum. apply ReadDefault_parsed in Hdefault.
  assert (Hrequired : PropType_IsRequired prop = false).
  { destruct prop; simpl in Hcreated; destruct Hcreated as [-> _];
      reflexivity. }
  rewrite Hrequired.
  destruct prop as [a lo hi|a lo hi|a lo hi|a|a own_schema inh|a own_item inh];
    simpl in Hkind, Henum, Hdefault.
  - unfold bind in Hkind.
    destruct (ReadInteger commands.attributes.kNumeric_Min value None error)
      as [[lo'|] e1] eqn:Hlo; [|discriminate].
    destruct (ReadInteger commands.attributes.kNumeric_Max value None e1)
      as [[hi'|] e2] eqn:Hhi; [|discriminate].
    injection Hkind as <- _. simpl.
    apply ReadInteger_own in Hlo, Hhi. repeat split; assumption.
  - unfold bind in Hkind.
    destruct (ReadDouble commands.attributes.kNumeric_Min value None error)
      as [[lo'|] e1] eqn:Hlo; [|discriminate].
    destruct (ReadDouble commands.attributes.kNumeric_Max value None e1)
      as [[hi'|] e2] eqn:Hhi; [|discriminate].
    injection Hkind as <- _. simpl.
    apply ReadDouble_own in Hlo, Hhi. repeat split; assumption.
  - unfold bind in Hkind.
    destruct (ReadInteger commands.attributes.kString_MinLength value None error)
      as [[lo'|] e1] eqn:Hlo; [|discriminate].
    destruct (ReadInteger commands.attributes.kString_MaxLength value None e1)
      as [[hi'|] e2] eqn:Hhi; [|discriminate].
    injection Hkind as <- _. simpl.
    apply ReadInteger_own in Hlo, Hhi. repeat split; assumption.
  - injection Hkind as <- _. simpl. repeat split; assumption.
  - simpl in Hcreated. destruct Hcreated as [_ [-> ->]].
    assert (Hschema : exists schema,
               k = (fun attrs => ObjectPropType attrs schema false)
               /\ parsed_schema schema).
    { clear Henum Hdefault. revert Hkind.
      induction Hvalue as [|[key v] value [_ Hprops] _ IH]; simpl.
      - intros [= <- _]. eexists. split; [reflexivity|].
        repeat split. constructor.
      - destruct (String.eqb key commands.attributes.kObject_Properties);
          [|exact IH].
        destruct v; try discriminate. unfold bind.
        destruct (ObjectSchema_CreateFromJson_with rec dict None error)
          as [[schema|] e1] eqn:Hparse; [|discriminate].
        intros [= <- _]. exists schema. split; [reflexivity|].
        eapply CreateFromJson_parsed; [|exact Hparse].
        now apply Hprops. }
    destruct Hschema as (schema & -> & Hextra & Hsorted & Hparsed).
    simpl. repeat split; try assumption. now apply parsed_entries.
  - simpl in Hcreated. destruct Hcreated as [_ [-> Hitem]].
    assert (Hitem' : exists item,
               k = (fun attrs => ArrayPropType attrs (Some item) false)
               /\ parsed item).
    { clear Henum Hdefault. revert Hkind.
      induction Hvalue as [|[key v] value [Hrec _] _ IH]; simpl.
      - destruct own_item as [item|]; [|discriminate].
        intros [= <- _]. exists item. split; [reflexivity|].
        now apply created_parsed.
      - destruct (String.eqb key commands.attributes.kItems); [|exact IH].
        unfold bind.
        destruct (rec v None error) as [[item|] e1] eqn:Hparse; [|discriminate].
        intros [= <- _]. exists item. split; [reflexivity|].
        eapply Hrec. exact Hparse. }
    destruct Hitem' as (item & -> & Hparsed).
    simpl. repeat split; assumption.
Qed.

End ParsedRecursive.

(** A definition parsed with no base schema is a parsed property type. *)
Lemma PropFromJson_parsed_dictionary (value : Value) :
  (forall error p error',
      ObjectSchema_PropFromJson value None error = (Some p, error') ->
      parsed p)
  /\ forall props,
       value = TYPE_DICTIONARY props ->
       yields_parsed ObjectSchema_PropFromJson props.
Proof.
  induction value as [| | | |type_name| |dict IH|values IH] using Value_ind;
    (split; [intros error p error'|intros props Hprops;
                                    try discriminate Hprops]);
    try discriminate.
  - simpl. unfold PropFromJsonString_with, bind.
    destruct (CreatePropType type_name error) as [[prop|] error1] eqn:Hcreate;
      [|discriminate].
    apply PropType_FromJson_parsed; [|constructor].
    eapply created_CreatePropType_rec. exact Hcreate.
  - simpl. unfold PropFromJsonObject_with. unfold bind at 1.
    match goal with
    | |- match ?m error with _ => _ end = _ -> _ =>
        destruct (m error) as [[type_name|] error1]; [|discriminate]
    end.
    unfold bind at 1.
    match goal with
    | |- match ?m error1 with _ => _ end = _ -> _ =>
        destruct (m error1) as [[type_name'|] error2]; [|discriminate]
    end.
    unfold bind.
    destruct (CreatePropType type_name' error2) as [[prop|] error3] eqn:Hcreate;
      [|discriminate].
    apply PropType_FromJson_parsed; [|exact IH].
    eapply created_CreatePropType_rec. exact Hcreate.
  - injection Hprops as <-.
    eapply Forall_impl; [exact IH|]. intros entry [H _]. exact H.
  - simpl. unfold PropFromJsonArray_with.
    destruct (string_empty (DetectArrayType values None true));
      [discriminate|].
    unfold bind.
    destruct (CreatePropType _ error) as [[prop|] error1] eqn:Hcreate;
      [|discriminate].
    apply PropType_FromJson_parsed.
    + eapply created_CreatePropType_rec. exact Hcreate.
    + constructor; [|constructor]. split.
      * intros e q e'. discriminate.
      * intros props. discriminate.
Qed.

Lemma PropFromJson_parsed value error p error' :
  ObjectSchema_PropFromJson value None error = (Some p, error') -> parsed p.
Proof. apply PropFromJson_parsed_dictionary. Qed.

(** ** The full serialization, key by key *)

Lemma ToJson_full (p : PropType) (in_command_def : bool) :
  PropType_ToJson p true in_command_def
  = TYPE_DICTIONARY (FullObject p in_command_def).
Proof. destruct p as [| | | | |a [item|] inherited]; reflexivity. Qed.

Lemma find_emit_full {T : Type} (key : string) (to_json : T -> Value)
    (a : option (InheritableAttribute T)) (dict : list (string * Value))
    (n : string) :
  Dict.find n (emit true key to_json a dict)
  = match a with
    | Some x =>
        if String.eqb key n then Some (to_json (attr x)) else Dict.find n dict
    | None => Dict.find n dict
    end.
Proof. destruct a; simpl; [apply find_set|reflexivity]. Qed.

(** Evaluates the comparisons of two key names. *)
Ltac eval_keys :=
  repeat match goal with
         | |- context [String.eqb ?a ?b] =>
             let r := eval vm_compute in (String.eqb a b) in
             lazymatch r with
             | true => change (String.eqb a b) with true
             | false => change (String.eqb a b) with false
             end
         end.

(** Normalizes the lookups in a serialized property type. *)
Ltac find_keys :=
  unfold FullObject, KindObject;
  repeat first [rewrite find_emit_full | rewrite find_set];
  cbn [Dict.find]; eval_keys; cbn iota.

Lemma FullObject_type p in_command_def :
  Dict.find commands.attributes.kType (FullObject p in_command_def)
  = Some (TYPE_STRING (PropType_GetTypeAsString p)).
Proof.
  destruct p as [a lo hi|a lo hi|a lo hi|a|a schema inh|a [item|] inh];
    find_keys;
    repeat match goal with
           | |- context [match ?x with Some _ => _ | None => _ end] =>
               destruct x
           end; reflexivity.
Qed.

Lemma FullObject_enum p in_command_def :
  Dict.find commands.attributes.kOneOf_Enum (FullObject p in_command_def)
  = option_map (fun e => TYPE_LIST (attr e)) (one_of_ (PropType_GetAttrs p)).
Proof.
  destruct p as [a lo hi|a lo hi|a lo hi|a|a schema inh|a [item|] inh];
    find_keys;
    repeat match goal with
           | |- context [match ?x with Some _ => _ | None => _ end] =>
               destruct x
           end; reflexivity.
Qed.

Lemma FullObject_default p in_command_def :
  Dict.find commands.attributes.kDefault (FullObject p in_command_def)
  = option_map attr (default_ (PropType_GetAttrs p)).
Proof.
  destruct p as [a lo hi|a lo hi|a lo hi|a|a schema inh|a [item|] inh];
    find_keys;
    repeat match goal with
           | |- context [match ?x with Some _ => _ | None => _ end] =>
               destruct x
           end; reflexivity.
Qed.

(** Reading back the allowed values and the default. *)
Lemma ReadEnum_FullObject p in_command_def error :
  parsed_attrs (PropType_GetType p) (PropType_GetAttrs p) ->
  ReadEnum (PropType_GetType p) (FullObject p in_command_def) None error
  = (Some (one_of_ (PropType_GetAttrs p)), error).
Proof.
  intros (_ & _ & _ & Henum). unfold ReadEnum.
  rewrite FullObject_enum.
  destruct (one_of_ (PropType_GetAttrs p)) as [[values inh]|]; simpl in *;
    [|reflexivity].
  destruct Henum as [-> ->]. reflexivity.
Qed.

Lemma ReadDefault_FullObject p in_command_def error :
  parsed_attrs (PropType_GetType p) (PropType_GetAttrs p) ->
  ReadDefault (PropType_GetType p) (FullObject p in_command_def) None error
  = (Some (default_ (PropType_GetAttrs p)), error).
Proof.
  intros (_ & _ & Hdefault & _). unfold ReadDefault.
  rewrite FullObject_default.
  destruct (default_ (PropType_GetAttrs p)) as [[value inh]|]; simpl in *;
    [|reflexivity].
  destruct Hdefault as [-> ->]. reflexivity.
Qed.

(** Parsing the full serialization of [p] is [PropType::FromJson] on a new
    property type of the kind of [p]. *)
Lemma PropFromJson_ToJson_full p in_command_def error :
  ObjectSchema_PropFromJson (PropType_ToJson p true in_command_def) None error
  = PropType_FromJson_with ObjectSchema_PropFromJson
      (PropType_Create (PropType_GetType p)) (FullObject p in_command_def)
      None error.
Proof.
  rewrite ToJson_full. cbn [ObjectSchema_PropFromJson].
  unfold PropFromJsonObject_with, Dict.HasKey.
  rewrite FullObject_type. unfold PropType_GetTypeAsString.
  unfold bind at 1. unfold ret at 1. unfold bind at 1.
  replace (string_empty (PropType_GetTypeStringFromType (PropType_GetType p)))
    with false by (now destruct (PropType_GetType p)).
  unfold ret at 1. unfold bind. now rewrite CreatePropType_name.
Qed.

(** Reads a bound back from the full serialization. *)
Ltac read_bound :=
  intros Hown; unfold ReadInteger, ReadDouble; find_keys;
  repeat match goal with
         | x : option (InheritableAttribute _) |- _ =>
             destruct x as [[? ?]|]; simpl in *; subst
         end; reflexivity.

Lemma ReadInteger_Int_min a lo hi in_command_def error :
  own lo ->
  ReadInteger commands.attributes.kNumeric_Min
    (FullObject (IntPropType a lo hi) in_command_def) None error
  = (Some lo, error).
Proof. destruct a as [? ? dflt choices]. read_bound. Qed.

Lemma ReadInteger_Int_max a lo hi in_command_def error :
  own hi ->
  ReadInteger commands.attributes.kNumeric_Max
    (FullObject (IntPropType a lo hi) in_command_def) None error
  = (Some hi, error).
Proof. destruct a as [? ? dflt choices]. read_bound. Qed.

Lemma ReadDouble_Double_min a lo hi in_command_def error :
  own lo ->
  ReadDouble commands.attributes.kNumeric_Min
    (FullObject (DoublePropType a lo hi) in_command_def) None error
  = (Some lo, error).
Proof. destruct a as [? ? dflt choices]. read_bound. Qed.

Lemma ReadDouble_Double_max a lo hi in_command_def error :
  own hi ->
  ReadDouble commands.attributes.kNumeric_Max
    (FullObject (DoublePropType a lo hi) in_command_def) None error
  = (Some hi, error).
Proof. destruct a as [? ? dflt choices]. read_bound. Qed.

Lemma ReadInteger_String_min a lo hi in_command_def error :
  own lo ->
  ReadInteger commands.attributes.kString_MinLength
    (FullObject (StringPropType a lo hi) in_command_def) None error
  = (Some lo, error).
Proof. destruct a as [? ? dflt choices]. read_bound. Qed.

Lemma ReadInteger_String_max a lo hi in_command_def error :
  own hi ->
  ReadInteger commands.attributes.kString_MaxLength
    (FullObject (StringPropType a lo hi) in_command_def) None error
  = (Some hi, error).
Proof. destruct a as [? ? dflt choices]. read_bound. Qed.

Lemma FullObject_properties a schema inherited in_command_def :
  Dict.find commands.attributes.kObject_Properties
    (FullObject (ObjectPropType a schema inherited) in_command_def)
  = Some (ObjectSchema_ToJson schema true in_command_def).
Proof.
  destruct a as [? ? [?|] [?|]]; find_keys; reflexivity.
Qed.

Lemma FullObject_items a item inherited in_command_def :
  Dict.find commands.attributes.kItems
    (FullObject (ArrayPropType a (Some item) inherited) in_command_def)
  = Some (PropType_ToJson item true in_command_def).
Proof.
  destruct a as [? ? [?|] [?|]]; find_keys; reflexivity.
Qed.

(** ** Parsing the full serialization *)

Lemma FromJson_loop_ToJson in_command_def (d : list (string * PropType)) :
  forall acc error,
    Dict.sorted d = true ->
    (forall entry, In entry d -> below acc (fst entry)) ->
    Forall (fun entry => reparses (snd entry)) d ->
    ObjectSchema_FromJson_loop ObjectSchema_PropFromJson None
      (map (fun entry =>
              (fst entry, PropType_ToJson (snd entry) true in_command_def)) d)
      acc error
    = (Some (acc ++ d), error).
Proof.
  induction d as [|[k v] d IH]; intros acc error Hsorted Hbelow Hall; simpl.
  - now rewrite app_nil_r.
  - destruct (sorted_cons _ _ _ Hsorted) as [Habove Hsorted'].
    inversion Hall as [|? ? Hv Hd]; subst. simpl in Hv.
    rewrite Hv.
    rewrite emplace_below by (apply (Hbelow (k, v)); now left).
    rewrite IH; [now rewrite <- app_assoc|exact Hsorted'| |exact Hd].
    intros entry Hin. apply below_snoc.
    + apply (Hbelow (k, v)). now left.
    + unfold above in Habove. rewrite List.Forall_forall in Habove.
      exact (Habove entry Hin).
Qed.

Lemma find_properties_FullObject a inherited in_command_def schema :
  Dict.sorted (properties_ schema) = true ->
  Dict.find_with
    (fun props =>
       match props with
       | TYPE_DICTIONARY props =>
           Some (ObjectSchema_CreateFromJson_with ObjectSchema_PropFromJson
                   props None)
       | _ => None
       end)
    commands.attributes.kObject_Properties
    (FullObject (ObjectPropType a schema inherited) in_command_def)
  = Some (Some (ObjectSchema_CreateFromJson_with ObjectSchema_PropFromJson
                  (map (fun entry =>
                          (fst entry,
                           PropType_ToJson (snd entry) true in_command_def))
                     (properties_ schema))
                  None)).
Proof.
  intros Hsorted.
  rewrite find_with_find, FullObject_properties. simpl.
  now rewrite (fold_set_sorted
                 (fun prop => PropType_ToJson prop true in_command_def)
                 (properties_ schema) [] Hsorted)
    by (intros; constructor).
Qed.

Lemma CreateFromJson_ToJson in_command_def schema error :
  Dict.sorted (properties_ schema) = true ->
  extra_properties_allowed_ schema = false ->
  Forall (fun entry => reparses (snd entry)) (properties_ schema) ->
  ObjectSchema_CreateFromJson_with ObjectSchema_PropFromJson
    (map (fun entry =>
            (fst entry, PropType_ToJson (snd entry) true in_command_def))
       (properties_ schema))
    None error
  = (Some schema, error).
Proof.
  intros Hsorted Hextra Hall.
  unfold ObjectSchema_CreateFromJson_with, ObjectSchema_FromJson_with.
  rewrite (FromJson_loop_ToJson in_command_def (properties_ schema) [] error
             Hsorted) by (intros; constructor || assumption).
  destruct schema as [props extra]. simpl in *. now subst.
Qed.

(** A parsed property type in which every Array has its item type is parsed
    back from its full serialization. *)
Lemma ToJson_reparses (p : PropType) :
  parsed p -> complete p = true -> reparses p.
Proof.
  induction p as [a lo hi|a lo hi|a lo hi|a|a schema inherited IH
                 |a inherited|a item inherited IH] using PropType_ind;
    intros Hparsed Hcomplete in_command_def error;
    rewrite PropFromJson_ToJson_full;
    unfold PropType_FromJson_with.
  - destruct Hparsed as [Hattrs [Hlo Hhi]].
    cbn [PropType_GetType PropType_Create option_map].
    unfold bind. rewrite ReadInteger_Int_min by exact Hlo.
    rewrite ReadInteger_Int_max by exact Hhi. unfold ret.
    fold (PropType_GetType (IntPropType a lo hi)).
    rewrite ReadEnum_FullObject, ReadDefault_FullObject by exact Hattrs.
    destruct Hattrs as (Hbased & Hrequired & _).
    destruct a; simpl in *; now subst.
  - destruct Hparsed as [Hattrs [Hlo Hhi]].
    cbn [PropType_GetType PropType_Create option_map].
    unfold bind. rewrite ReadDouble_Double_min by exact Hlo.
    rewrite ReadDouble_Double_max by exact Hhi. unfold ret.
    fold (PropType_GetType (DoublePropType a lo hi)).
    rewrite ReadEnum_FullObject, ReadDefault_FullObject by exact Hattrs.
    destruct Hattrs as (Hbased & Hrequired & _).
    destruct a; simpl in *; now subst.
  - destruct Hparsed as [Hattrs [Hlo Hhi]].
    cbn [PropType_GetType PropType_Create option_map].
    unfold bind. rewrite ReadInteger_String_min by exact Hlo.
    rewrite ReadInteger_String_max by exact Hhi. unfold ret.
    fold (PropType_GetType (StringPropType a lo hi)).
    rewrite ReadEnum_FullObject, ReadDefault_FullObject by exact Hattrs.
    destruct Hattrs as (Hbased & Hrequired & _).
    destruct a; simpl in *; now subst.
  - destruct Hparsed as [Hattrs _].
    cbn [PropType_GetType PropType_Create option_map].
    unfold bind, ret.
    fold (PropType_GetType (BooleanPropType a)).
    rewrite ReadEnum_FullObject, ReadDefault_FullObject by exact Hattrs.
    destruct Hattrs as (Hbased & Hrequired & _).
    destruct a; simpl in *; now subst.
  - destruct Hparsed as [Hattrs (Hinherited & Hextra & Hsorted & Hentries)].
    cbn [PropType_GetType PropType_Create option_map].
    assert (Hall : Forall (fun entry => reparses (snd entry))
                     (properties_ schema)).
    { simpl in Hcomplete. clear Hsorted.
      induction IH as [|entry entries Hentry _ IHentries]; [constructor|].
      simpl in Hcomplete. apply andb_prop in Hcomplete.
      destruct Hcomplete as [Hc Hcs]. destruct Hentries as [Hp Hps].
      constructor; [now apply Hentry|now apply IHentries]. }
    rewrite (find_properties_FullObject a inherited in_command_def schema
               Hsorted).
    unfold bind.
    rewrite (CreateFromJson_ToJson in_command_def schema error
               Hsorted Hextra Hall).
    unfold ret.
    fold (PropType_GetType (ObjectPropType a schema inherited)).
    rewrite ReadEnum_FullObject, ReadDefault_FullObject by exact Hattrs.
    destruct Hattrs as (Hbased & Hrequired & _).
    destruct a; simpl in *; now subst.
  - discriminate Hcomplete.
  - destruct Hparsed as [Hattrs (Hinherited & Hitem)].
    cbn [PropType_GetType PropType_Create option_map].
    rewrite find_with_find, FullObject_items. cbn [option_map].
    unfold bind. rewrite (IH Hitem Hcomplete in_command_def error).
    unfold ret.
    fold (PropType_GetType (ArrayPropType a (Some item) inherited)).
    rewrite ReadEnum_FullObject, ReadDefault_FullObject by exact Hattrs.
    destruct Hattrs as (Hbased & Hrequired & _).
    destruct a; simpl in *; now subst.
Qed.

(** ** The round trip through the full serialization *)

(** The round trip of a definition parsed with no base schema into a property
    type every Array of which has its item type: the full serialization of
    the property type, for either value of [in_command_def], is parsed, on any
    error chain and with no error added, into the property type itself. *)
Lemma PropFromJson_roundtrip (d : Value) (p : PropType)
    (error error' : ErrorPtr) :
  ObjectSchema_PropFromJson d None error = (Some p, error') ->
  complete p = true ->
  forall (in_command_def : bool) (error'' : ErrorPtr),
    ObjectSchema_PropFromJson (PropType_ToJson p true in_command_def) None
      error''
    = (Some p, error'').
Proof.
  intros Hparse Hcomplete. apply ToJson_reparses; [|exact Hcomplete].
  exact (PropFromJson_parsed d error p error' Hparse).
Qed.

Lemma PropFromJson_roundtrip_example :
  exists p : PropType,
    ObjectSchema_PropFromJson example_definition None [] = (Some p, [])
    /\ complete p = true
    /\ ObjectSchema_PropFromJson (PropType_ToJson p true false) None []
       = (Some p, []).
Proof.
  eexists. split; [reflexivity|]. split; [reflexivity|].
  apply (PropFromJson_roundtrip example_definition _ [] []);
    reflexivity.
Qed.

(** ** Arrays of arrays *)


(** * Further properties of [object_schema.cc] *)

(** ** [CreatePropType] *)

Lemma SplitAtFirst_spec (str : string) :
  let '(found, left_part, right_part) := SplitAtFirst str "." in
  str = (if found then left_part ++ "." ++ right_part else left_part)%string
  /\ (found = false -> right_part = "")
  /\ contains_dot left_part = false.
Proof.
  induction str as [|c rest IH]; simpl; [repeat split|].
  destruct (Ascii.eqb c ".") eqn:Hc.
  - apply Ascii.eqb_eq in Hc. subst c. repeat split. discriminate.
  - destruct (SplitAtFirst rest ".") as [[found left_part] right_part].
    destruct IH as (Hstr & Hright & Hleft). repeat split.
    + destruct found; simpl; now rewrite Hstr at 1.
    + exact Hright.
    + simpl. now rewrite Hc.
Qed.

Lemma SplitAtFirst_length (str : string) :
  String.length (snd (SplitAtFirst str ".")) <= Nat.pred (String.length str).
Proof.
  induction str as [|c rest IH]; simpl; [lia|].
  destruct (Ascii.eqb c "."); simpl; [lia|].
  destruct (SplitAtFirst rest ".") as [[found left_part] right_part].
  simpl in *. lia.
Qed.

(** The nested calls of [CreatePropType] are on ever shorter names: the bound
    on their number is never reached. *)
Lemma CreatePropType_rec_fuel (fuel fuel' : nat) (type_name : string)
    (error : ErrorPtr) :
  String.length type_name <= fuel ->
  String.length type_name <= fuel' ->
  CreatePropType_rec fuel type_name error
  = CreatePropType_rec fuel' type_name error.
Proof.
  revert fuel' type_name error.
  induction fuel as [|fuel IH]; intros fuel' type_name error Hfuel Hfuel'.
  - destruct type_name; [|simpl in Hfuel; lia]. now destruct fuel'.
  - destruct fuel' as [|fuel'].
    + destruct type_name; [|simpl in Hfuel'; lia]. reflexivity.
    + simpl. pose proof (SplitAtFirst_length type_name) as Hlen.
      destruct (SplitAtFirst type_name ".") as [[found primary] array_type].
      simpl in Hlen.
      destruct (PropType_GetTypeFromTypeString primary) as [type|];
        [|reflexivity].
      destruct (ValueType.eqb type ValueType.Array
                && negb (string_empty array_type)); [|reflexivity].
      now rewrite (IH fuel' array_type error) by lia.
Qed.

Lemma CreatePropType_fuel (fuel : nat) (type_name : string) (error : ErrorPtr) :
  String.length type_name <= fuel ->
  CreatePropType_rec fuel type_name error = CreatePropType type_name error.
Proof. intros H. now apply CreatePropType_rec_fuel. Qed.

Lemma length_append (a b : string) :
  String.length (a ++ b) = String.length a + String.length b.
Proof. induction a as [|c a IH]; simpl; [reflexivity|now rewrite IH]. Qed.

Lemma GetTypeFromTypeString_Array (name : string) :
  PropType_GetTypeFromTypeString name = Some ValueType.Array -> name = "array".
Proof.
  unfold PropType_GetTypeFromTypeString.
  repeat match goal with
         | |- context [if String.eqb name ?literal then _ else _] =>
             destruct (String.eqb name literal) eqn:?; try discriminate
         end.
  intros _. now apply String.eqb_eq.
Qed.

(** The one error of a call of [CreatePropType] that returns nothing. *)
Lemma CreatePropType_rec_reports (error : ErrorPtr) (fuel : nat)
    (name : string) :
  String.length name <= fuel ->
  match CreatePropType_rec fuel name error with
  | (Some _, error') => error' = error
  | (None, error') =>
      exists n unknown,
        name = (array_prefix n ++ unknown)%string
        /\ PropType_GetTypeFromTypeString (primary_type unknown) = None
        /\ error'
           = mkError errors.commands.kDomain errors.commands.kUnknownType
               ("Unknown type " ++ c_str unknown) :: error
  end.
Proof.
  revert name. induction fuel as [|fuel IH]; intros name Hfuel.
  - destruct name; [|simpl in Hfuel; lia]. simpl.
    exists 0, "". now repeat split.
  - simpl. pose proof (SplitAtFirst_length name) as Hlen.
    pose proof (SplitAtFirst_spec name) as Hspec.
    unfold primary_type in *.
    destruct (SplitAtFirst name ".") as [[found primary] array_type] eqn:Hsplit.
    simpl in Hlen. destruct Hspec as (Hname & Hright & _).
    destruct (PropType_GetTypeFromTypeString primary) as [type|] eqn:Hprimary.
    + destruct (ValueType.eqb type ValueType.Array
                && negb (string_empty array_type)) eqn:Harray;
        [|reflexivity].
      apply andb_prop in Harray. destruct Harray as [Htype Hitems].
      apply ValueType_eqb_eq in Htype. subst type.
      apply GetTypeFromTypeString_Array in Hprimary. subst primary.
      specialize (IH array_type ltac:(lia)).
      destruct (CreatePropType_rec fuel array_type error)
        as [[items_type|] error']; [exact IH|].
      destruct IH as (n & unknown & Hsuffix & Hunknown & Herror).
      destruct found.
      * exists (S n), unknown. repeat split; [|exact Hunknown|exact Herror].
        rewrite Hname, Hsuffix. reflexivity.
      * rewrite (Hright eq_refl) in Hitems. discriminate Hitems.
    + exists 0, name. repeat split. simpl. now rewrite Hsplit.
Qed.

(** X1.  [CreatePropType] leaves the error chain as it is when it returns a
    property type.  When it returns none it adds exactly one error, whatever
    the number of ["array."] prefixes of the name: the name is then some
    number of prefixes ["array."] followed by a name whose first component
    (what precedes its first dot) is not the name of a type, and the error is
    [unknown_type] with that last name in its message, as [printf] prints it
    (up to its first NUL). *)
Theorem CreatePropType_reports_once (type_name : string) (error : ErrorPtr) :
  match CreatePropType type_name error with
  | (Some _, error') => error' = error
  | (None, error') =>
      exists n unknown,
        type_name = (array_prefix n ++ unknown)%string
        /\ PropType_GetTypeFromTypeString (primary_type unknown) = None
        /\ error'
           = mkError errors.commands.kDomain errors.commands.kUnknownType
               ("Unknown type " ++ c_str unknown) :: error
  end.
Proof.
  unfold CreatePropType. apply CreatePropType_rec_reports. reflexivity.
Qed.

Lemma type_name_no_dot (type : ValueType) :
  contains_dot (PropType_GetTypeStringFromType type) = false.
Proof. now destruct type. Qed.

(** X2.  Only an array looks at what follows the first dot of a type name:
    the name of another type followed by a dot and by anything is the name of
    that type for [CreatePropType], and no error is reported. *)
Theorem CreatePropType_ignores_suffix (type : ValueType) (suffix : string)
    (error : ErrorPtr) :
  type <> ValueType.Array ->
  CreatePropType (PropType_GetTypeStringFromType type ++ "." ++ suffix) error
  = (Some (PropType_Create type), error).
Proof.
  intros Htype. unfold CreatePropType.
  rewrite length_append. 
  replace (String.length (PropType_GetTypeStringFromType type)
           + String.length ("." ++ suffix))
    with (S (Nat.pred (String.length (PropType_GetTypeStringFromType type))
             + String.length ("." ++ suffix)))
    by (destruct type; simpl; lia).
  cbn [CreatePropType_rec].
  rewrite SplitAtFirst_qualified by apply type_name_no_dot.
  rewrite GetTypeFromTypeString_name.
  destruct type; try reflexivity. now destruct Htype.
Qed.

Lemma CreatePropType_ignores_suffix_witness :
  CreatePropType "integer.array.nothing" []
  = (Some (PropType_Create ValueType.Int), []).
Proof.
  apply (CreatePropType_ignores_suffix ValueType.Int "array.nothing" []).
  discriminate.
Defined.

(** The recursion of [CreatePropType] on the name of the item type. *)
Lemma CreatePropType_array_eq (item_name : string) (error : ErrorPtr) :
  CreatePropType ("array." ++ item_name) error
  = if string_empty item_name
    then (Some (ArrayPropType PropType_no_attrs None false), error)
    else
      match CreatePropType item_name error with
      | (Some items_type, error') =>
          (Some (ArrayPropType PropType_no_attrs (Some items_type) false),
           error')
      | (None, error') => (None, error')
      end.
Proof.
  unfold CreatePropType at 1.
  change (String.length ("array." ++ item_name))
    with (S (5 + String.length item_name)).
  cbn [CreatePropType_rec].
  change ("array." ++ item_name)%string
    with (PropType_GetTypeStringFromType ValueType.Array ++ "." ++ item_name)%string.
  rewrite SplitAtFirst_qualified by reflexivity.
  rewrite GetTypeFromTypeString_name.
  destruct (string_empty item_name); [reflexivity|].
  cbn [ValueType.eqb negb andb].
  rewrite CreatePropType_fuel by lia.
  now destruct (CreatePropType item_name error) as [[items_type|] error'].
Qed.

(** X3.  The type name ["array." ++ item_name]: with an empty [item_name] it
    is an Array that has no item type; otherwise [CreatePropType] is called on
    [item_name], the Array owns the property type it returns, as an item type
    of its own, and there is no Array when it returns none (the error is the
    one of that call). *)
Theorem CreatePropType_array (item_name : string) (error : ErrorPtr) :
  CreatePropType ("array." ++ item_name) error
  = if string_empty item_name
    then (Some (ArrayPropType PropType_no_attrs None false), error)
    else
      match CreatePropType item_name error with
      | (Some items_type, error') =>
          (Some (ArrayPropType PropType_no_attrs (Some items_type) false),
           error')
      | (None, error') => (None, error')
      end.
Proof. apply CreatePropType_array_eq. Qed.

(** ** Type detection and [CreatePropType] *)

Lemma string_empty_type_name (type : ValueType) :
  string_empty (PropType_GetTypeStringFromType type) = false.
Proof. now destruct type. Qed.

Lemma CreatePropType_array_of (type : ValueType) (error : ErrorPtr) :
  CreatePropType
    (PropType_GetTypeStringFromType ValueType.Array ++ "."
     ++ PropType_GetTypeStringFromType type) error
  = (Some (ArrayPropType PropType_no_attrs (Some (PropType_Create type)) false),
     error).
Proof.
  change (PropType_GetTypeStringFromType ValueType.Array ++ "."
          ++ PropType_GetTypeStringFromType type)%string
    with ("array." ++ PropType_GetTypeStringFromType type)%string.
  rewrite CreatePropType_array_eq, string_empty_type_name.
  now rewrite CreatePropType_name.
Qed.

(** What [DetectArrayType] names with no base schema is a type
    [CreatePropType] makes. *)
Lemma CreatePropType_DetectArrayType_first (first : Value) (allow_arrays : bool)
    (error : ErrorPtr) :
  string_empty (DetectArrayType_first first allow_arrays) = false ->
  exists p,
    CreatePropType (DetectArrayType_first first allow_arrays) error
    = (Some p, error)
    /\ complete p = true.
Proof.
  destruct first as [|b|i|d|s|bytes|dict|values]; try discriminate;
    try (intros _; cbn [DetectArrayType_first]; rewrite CreatePropType_name;
         eexists; split; reflexivity).
  destruct allow_arrays; [|simpl; discriminate].
  destruct values as [|inner rest]; [simpl; discriminate|].
  destruct inner; try (simpl; discriminate); intros _;
    cbn [DetectArrayType_first];
    rewrite string_empty_type_name, CreatePropType_array_of;
    eexists; split; reflexivity.
Qed.

Lemma CreatePropType_DetectArrayType (values : list Value)
    (base_schema : option PropType) (allow_arrays : bool) (error : ErrorPtr) :
  string_empty (DetectArrayType values base_schema allow_arrays) = false ->
  exists p,
    CreatePropType (DetectArrayType values base_schema allow_arrays) error
    = (Some p, error).
Proof.
  destruct base_schema as [base|]; simpl.
  - intros _. unfold PropType_GetTypeAsString. rewrite CreatePropType_name.
    now eexists.
  - destruct values as [|first rest]; [discriminate|]. intros H.
    destruct (CreatePropType_DetectArrayType_first first allow_arrays error H)
      as (p & Hp & _).
    now exists p.
Qed.

(** X4.  The array of a shorthand definition, with no base schema: when its
    first element is a boolean, an integer, a double, a string or an object,
    [DetectArrayType] names the kind of it and [CreatePropType] makes a new
    property type of that kind; when its first element is an array that starts
    with one of those, they make an Array whose item type is of that kind; for
    every other array (empty; starting with null, with binary data, with an
    empty array or with an array that starts with anything else) no type name
    is detected.  [CreatePropType] reports no error on a detected name. *)
Theorem DetectArrayType_creates (values : list Value) (error : ErrorPtr) :
  match DetectedType values with
  | Some p =>
      CreatePropType (DetectArrayType values None true) error = (Some p, error)
  | None => DetectArrayType values None true = ""
  end.
Proof.
  destruct values as [|first rest]; [reflexivity|].
  destruct first as [|b|i|d|s|bytes|dict|nested];
    try reflexivity;
    try (cbn [DetectedType element_kind DetectArrayType DetectArrayType_first];
         apply CreatePropType_name).
  destruct nested as [|inner nested]; [reflexivity|].
  destruct inner;
    try reflexivity;
    cbn [DetectedType element_kind option_map DetectArrayType
           DetectArrayType_first];
    rewrite string_empty_type_name; apply CreatePropType_array_of.
Qed.

(** X5.  Whatever [DetectObjectType] detects for a definition that states no
    ["type"], with or without a base schema, is a type name [CreatePropType]
    accepts, and it reports no error: a definition with no ["type"] is never
    refused as [unknown_type] when its property type is created. *)
Theorem DetectObjectType_creatable (dict : list (string * Value))
    (base_schema : option PropType) (error : ErrorPtr) :
  string_empty (DetectObjectType dict base_schema) = false ->
  exists p,
    CreatePropType (DetectObjectType dict base_schema) error = (Some p, error).
Proof.
  unfold DetectObjectType.
  repeat match goal with
         | |- context [if ?c then PropType_GetTypeStringFromType _ else _] =>
             destruct c;
               [intros _; rewrite CreatePropType_name; now eexists|]
         end.
  destruct (Dict.find commands.attributes.kOneOf_Enum dict)
    as [[| | | | | | |values]|];
    try apply CreatePropType_DetectArrayType;
    (destruct (Dict.find commands.attributes.kDefault dict)
       as [[| | | | | | |values']|];
     try discriminate;
     try (intros _; rewrite CreatePropType_name; now eexists));
    cbv zeta;
    (destruct (string_empty (DetectArrayType values' base_schema false))
       eqn:Hchild; [discriminate|]);
    intros _; cbn [negb];
    change (PropType_GetTypeStringFromType ValueType.Array ++ "."
            ++ DetectArrayType values' base_schema false)%string
      with ("array." ++ DetectArrayType values' base_schema false)%string;
    rewrite CreatePropType_array_eq, Hchild;
    destruct (CreatePropType_DetectArrayType values' base_schema false error
                Hchild) as [item ->];
    now eexists.
Qed.

Lemma DetectObjectType_creatable_witness :
  exists p,
    CreatePropType
      (DetectObjectType
         [("default", TYPE_LIST [TYPE_INTEGER 1])]
         (Some (ArrayPropType PropType_no_attrs None false))) []
    = (Some p, []).
Proof.
  apply (DetectObjectType_creatable
           [("default", TYPE_LIST [TYPE_INTEGER 1])]
           (Some (ArrayPropType PropType_no_attrs None false)) []).
  reflexivity.
Defined.

(** ** The three shapes of a definition *)

(** [PropType::FromJson] calls [ObjectSchema::PropFromJson] only for what
    ["properties"] and ["items"] hold. *)
Lemma PropType_FromJson_with_any
    (rec rec' : Value -> option PropType -> M PropType) (prop : PropType)
    (value : list (string * Value)) (base_schema : option PropType) :
  Dict.find commands.attributes.kObject_Properties value = None ->
  Dict.find commands.attributes.kItems value = None ->
  PropType_FromJson_with rec prop value base_schema
  = PropType_FromJson_with rec' prop value base_schema.
Proof.
  intros Hproperties Hitems. unfold PropType_FromJson_with.
  rewrite !find_with_find, Hproperties, Hitems. reflexivity.
Qed.

Lemma PropFromJsonString_with_any
    (rec rec' : Value -> option PropType -> M PropType) (type_name : string)
    (base_schema : option PropType) (error : ErrorPtr) :
  PropFromJsonString_with rec type_name base_schema error
  = PropFromJsonString_with rec' type_name base_schema error.
Proof.
  unfold PropFromJsonString_with, bind.
  destruct (CreatePropType type_name error) as [[prop|] error'];
    [|reflexivity].
  now rewrite (PropType_FromJson_with_any rec rec').
Qed.

Lemma PropFromJsonArray_with_any
    (rec rec' : Value -> option PropType -> M PropType) (values : list Value)
    (base_schema : option PropType) (error : ErrorPtr) :
  PropFromJsonArray_with rec values base_schema error
  = PropFromJsonArray_with rec' values base_schema error.
Proof.
  unfold PropFromJsonArray_with.
  destruct (string_empty (DetectArrayType values base_schema true));
    [reflexivity|].
  unfold bind.
  destruct (CreatePropType _ error) as [[prop|] error']; [|reflexivity].
  now rewrite (PropType_FromJson_with_any rec rec').
Qed.

(** X6.  The array shorthand is the object that has the array as its
    ["enum"] and nothing else: [ObjectSchema::PropFromJson] returns the same
    property type, or the same errors, for the one and for the other, with or
    without a base schema. *)
Theorem PropFromJson_array_is_enum (values : list Value)
    (base_schema : option PropType) (error : ErrorPtr) :
  ObjectSchema_PropFromJson (TYPE_LIST values) base_schema error
  = ObjectSchema_PropFromJson
      (TYPE_DICTIONARY [(commands.attributes.kOneOf_Enum, TYPE_LIST values)])
      base_schema error.
Proof.
  cbn [ObjectSchema_PropFromJson].
  rewrite (PropFromJsonArray_with_any no_nested_definition
             ObjectSchema_PropFromJson).
  unfold PropFromJsonArray_with, PropFromJsonObject_with.
  change (Dict.HasKey commands.attributes.kType
            [(commands.attributes.kOneOf_Enum, TYPE_LIST values)])
    with false.
  change (DetectObjectType
            [(commands.attributes.kOneOf_Enum, TYPE_LIST values)] base_schema)
    with (DetectArrayType values base_schema true).
  cbv iota. unfold bind at 2. unfold ret at 1.
  destruct (string_empty (DetectArrayType values base_schema true)) eqn:Hempty.
  - destruct base_schema as [base|]; [|reflexivity].
    simpl in Hempty. unfold PropType_GetTypeAsString in Hempty.
    now rewrite string_empty_type_name in Hempty.
  - unfold bind at 2. unfold ret at 1. reflexivity.
Qed.

(** X7.  A definition object whose ["type"] is not a string is refused with
    [no_type_info] and nothing else, whatever its other keys hold and whether
    or not a base schema could tell the type. *)
Theorem PropFromJsonObject_type_not_a_string (dict : list (string * Value))
    (base_schema : option PropType) (error : ErrorPtr) (type : Value) :
  Dict.find commands.attributes.kType dict = Some type ->
  (forall type_name, type <> TYPE_STRING type_name) ->
  ObjectSchema_PropFromJson (TYPE_DICTIONARY dict) base_schema error
  = (None,
     mkError errors.commands.kDomain errors.commands.kNoTypeInfo
       "Unable to determine parameter type" :: error).
Proof.
  intros Hfind Htype. cbn [ObjectSchema_PropFromJson].
  unfold PropFromJsonObject_with, Dict.HasKey. rewrite Hfind.
  destruct type as [| | | |type_name| | |]; try reflexivity.
  now destruct (Htype type_name).
Qed.

Lemma PropFromJsonObject_type_not_a_string_witness :
  ObjectSchema_PropFromJson
    (TYPE_DICTIONARY [("minimum", TYPE_INTEGER 0); ("type", TYPE_INTEGER 1)])
    (Some (PropType_Create ValueType.Int)) []
  = (None,
     [mkError "commands" "no_type_info" "Unable to determine parameter type"]).
Proof.
  apply (PropFromJsonObject_type_not_a_string
           [("minimum", TYPE_INTEGER 0); ("type", TYPE_INTEGER 1)]
           (Some (PropType_Create ValueType.Int)) [] (TYPE_INTEGER 1)).
  - reflexivity.
  - discriminate.
Defined.

(** ** [ObjectSchema::FromJson] *)

Lemma PropFromJson_success value base_schema error p error' :
  ObjectSchema_PropFromJson value base_schema error = (Some p, error') ->
  error' = error
  /\ forall error0,
       ObjectSchema_PropFromJson value base_schema error0 = (Some p, error0).
Proof.
  intros H. split.
  - exact (framed_success _ _ _ _ (framed_PropFromJson value base_schema) H).
  - intros error0.
    exact (framed_any _ _ _ error0 _ (framed_PropFromJson value base_schema) H).
Qed.

Lemma PropFromJson_failure value base_schema error error' :
  ObjectSchema_PropFromJson value base_schema error = (None, error') ->
  forall error0,
    fst (ObjectSchema_PropFromJson value base_schema error0) = None.
Proof.
  destruct (framed_PropFromJson value base_schema)
    as (result & added & Hm & _).
  intros H error0. rewrite Hm in H. rewrite Hm. now injection H as ->.
Qed.

(** What the loop of [ObjectSchema::FromJson] leaves in the local map when it
    runs to the end. *)
Lemma FromJson_loop_find object_schema iter :
  forall properties error properties' error',
    ObjectSchema_FromJson_loop ObjectSchema_PropFromJson object_schema iter
      properties error = (Some properties', error') ->
    error' = error
    /\ (Dict.sorted properties = true -> Dict.sorted properties' = true)
    /\ forall name,
         Dict.find name properties'
         = match Dict.find name properties with
           | Some p => Some p
           | None =>
               match Dict.find name iter with
               | Some value =>
                   fst (ObjectSchema_PropFromJson value
                          (base_of object_schema name) error)
               | None => None
               end
           end.
Proof.
  induction iter as [|[name0 value0] iter IH];
    intros properties error properties' error' Hloop; simpl in Hloop.
  - injection Hloop as <- <-. repeat split; [auto|].
    intros name. now destruct (Dict.find name properties).
  - fold (base_of object_schema name0) in Hloop.
    destruct (ObjectSchema_PropFromJson value0 (base_of object_schema name0)
                error) as [[prop_type|] error1] eqn:Hparse;
      [|discriminate Hloop].
    destruct (PropFromJson_success _ _ _ _ _ Hparse) as [-> _].
    destruct (IH _ _ _ _ Hloop) as (Herror & Hsorted & Hfind).
    split; [exact Herror|]. split.
    + intros H. apply Hsorted. now apply sorted_emplace.
    + intros name. rewrite Hfind, find_emplace. simpl.
      destruct (Dict.find name properties) as [p|]; [reflexivity|].
      destruct (String.eqb name0 name) eqn:Hname; [|reflexivity].
      apply String.eqb_eq in Hname. subst name0. now rewrite Hparse.
Qed.

Lemma FromJson_loop_succeeds object_schema iter :
  forall properties error,
    fst (ObjectSchema_FromJson_loop ObjectSchema_PropFromJson object_schema
           iter properties error) <> None
    <-> forallb (parses object_schema) iter = true.
Proof.
  induction iter as [|[name0 value0] iter IH]; intros properties error; simpl.
  - split; [reflexivity|discriminate].
  - fold (base_of object_schema name0). unfold parses at 1. simpl.
    destruct (ObjectSchema_PropFromJson value0 (base_of object_schema name0)
                error) as [[prop_type|] error1] eqn:Hparse.
    + destruct (PropFromJson_success _ _ _ _ _ Hparse) as [-> Hany].
      rewrite (Hany []). simpl. apply IH.
    + rewrite (PropFromJson_failure _ _ _ _ Hparse []). simpl.
      split; [congruence|discriminate].
Qed.

(** X8.  [ObjectSchema::FromJson] returns true exactly when each property
    definition of the dictionary parses on its own, against the property of
    its name in the base schema if there is one; whether it does depends
    neither on the properties the schema had nor on the error chain. *)
Theorem ObjectSchema_FromJson_succeeds_iff (this : ObjectSchema)
    (value : list (string * Value)) (object_schema : option ObjectSchema)
    (error : ErrorPtr) :
  fst (fst (ObjectSchema_FromJson this value object_schema error))
  = forallb (parses object_schema) value.
Proof.
  unfold ObjectSchema_FromJson, ObjectSchema_FromJson_with.
  pose proof (FromJson_loop_succeeds object_schema value [] error) as H.
  destruct (ObjectSchema_FromJson_loop ObjectSchema_PropFromJson object_schema
              value [] error) as [[properties|] error']; simpl in *.
  - symmetry. apply H. discriminate.
  - destruct (forallb (parses object_schema) value); [|reflexivity].
    now destruct (proj2 H eq_refl).
Qed.

(** X9.  When [ObjectSchema::FromJson] returns true, the error chain is as it
    was, the flag [extra_properties_allowed_] is as it was, and the properties
    of the schema are replaced: the schema has, at each key of the dictionary,
    the property type [ObjectSchema::PropFromJson] returns for the value of
    the key and the property of that name in the base schema, and it has no
    other property; neither the properties it had nor the properties of the
    base schema that the dictionary does not define are in it. *)
Theorem ObjectSchema_FromJson_replaces (this this' : ObjectSchema)
    (value : list (string * Value)) (object_schema : option ObjectSchema)
    (error error' : ErrorPtr) :
  ObjectSchema_FromJson this value object_schema error = (true, this', error') ->
  error' = error
  /\ extra_properties_allowed_ this' = extra_properties_allowed_ this
  /\ Dict.sorted (properties_ this') = true
  /\ forall name,
       ObjectSchema_GetProp this' name
       = match Dict.find name value with
         | Some definition =>
             fst (ObjectSchema_PropFromJson definition
                    (base_of object_schema name) error)
         | None => None
         end.
Proof.
  unfold ObjectSchema_FromJson, ObjectSchema_FromJson_with.
  destruct (ObjectSchema_FromJson_loop ObjectSchema_PropFromJson object_schema
              value [] error) as [[properties|] error1] eqn:Hloop;
    [|discriminate].
  intros [= <- <-].
  destruct (FromJson_loop_find _ _ _ _ _ _ Hloop) as (Herror & Hsorted & Hfind).
  repeat split; [exact Herror|now apply Hsorted|].
  intros name. unfold ObjectSchema_GetProp. simpl. now rewrite Hfind.
Qed.

Lemma ObjectSchema_FromJson_replaces_witness :
  let this :=
    mkObjectSchema [("old", PropType_Create ValueType.Boolean)] true in
  let base :=
    mkObjectSchema [("height", PropType_Create ValueType.Int);
                    ("width", PropType_Create ValueType.Int)] false in
  let value := [("height", TYPE_DICTIONARY [("minimum", TYPE_INTEGER 1)])] in
  exists this',
    ObjectSchema_FromJson this value (Some base) [] = (true, this', [])
    /\ extra_properties_allowed_ this' = true
    /\ ObjectSchema_GetProp this' "old" = None
    /\ ObjectSchema_GetProp this' "width" = None
    /\ option_map PropType_GetType (ObjectSchema_GetProp this' "height")
       = Some ValueType.Int.
Proof.
  intros this base value. eexists. split; [reflexivity|].
  match goal with
  | |- context [ObjectSchema_GetProp ?s "old"] =>
      destruct (ObjectSchema_FromJson_replaces this s value (Some base) [] []
                  eq_refl) as (_ & Hextra & _ & Hfind)
  end.
  split; [exact Hextra|]. rewrite !Hfind. repeat split.
Defined.

Lemma FromJson_loop_first_failure object_schema iter :
  forall properties error error',
    ObjectSchema_FromJson_loop ObjectSchema_PropFromJson object_schema iter
      properties error = (None, error') ->
    exists before name definition after inner,
      iter = before ++ (name, definition) :: after
      /\ forallb (parses object_schema) before = true
      /\ ObjectSchema_PropFromJson definition (base_of object_schema name) error
         = (None, inner)
      /\ error'
         = mkError errors.commands.kDomain errors.commands.kInvalidPropDef
             ("Error in definition of property '" ++ c_str name ++ "'") :: inner.
Proof.
  induction iter as [|[name0 value0] iter IH];
    intros properties error error' Hloop; simpl in Hloop; [discriminate|].
  fold (base_of object_schema name0) in Hloop.
  destruct (ObjectSchema_PropFromJson value0 (base_of object_schema name0)
              error) as [[prop_type|] error1] eqn:Hparse.
  - destruct (PropFromJson_success _ _ _ _ _ Hparse) as [-> Hany].
    destruct (IH _ _ _ Hloop)
      as (before & name & definition & after & inner & -> & Hbefore & Hfail
          & Herror).
    exists ((name0, value0) :: before), name, definition, after, inner.
    repeat split; try assumption.
    simpl. rewrite Hbefore. unfold parses. simpl. now rewrite (Hany []).
  - injection Hloop as <-.
    exists [], name0, value0, iter, error1. repeat split. exact Hparse.
Qed.

(** X10.  When [ObjectSchema::FromJson] returns false, the dictionary has a
    first property definition, in key order, that does not parse; the error
    chain is the chain [ObjectSchema::PropFromJson] leaves for that definition
    alone, under one more error, [invalid_parameter_definition], whose message
    quotes the name of the property as [printf] prints it (up to its first
    NUL).  The definitions after it are not looked at. *)
Theorem ObjectSchema_FromJson_first_failure (this this' : ObjectSchema)
    (value : list (string * Value)) (object_schema : option ObjectSchema)
    (error error' : ErrorPtr) :
  ObjectSchema_FromJson this value object_schema error = (false, this', error') ->
  exists before name definition after inner,
    value = before ++ (name, definition) :: after
    /\ forallb (parses object_schema) before = true
    /\ ObjectSchema_PropFromJson definition (base_of object_schema name) error
       = (None, inner)
    /\ error'
       = mkError errors.commands.kDomain errors.commands.kInvalidPropDef
           ("Error in definition of property '" ++ c_str name ++ "'") :: inner.
Proof.
  unfold ObjectSchema_FromJson, ObjectSchema_FromJson_with.
  destruct (ObjectSchema_FromJson_loop ObjectSchema_PropFromJson object_schema
              value [] error) as [[properties|] error1] eqn:Hloop;
    [discriminate|].
  intros [= _ <-]. exact (FromJson_loop_first_failure _ _ _ _ _ Hloop).
Qed.

Lemma ObjectSchema_FromJson_first_failure_witness :
  let value :=
    [("a", TYPE_STRING "integer"); ("b", TYPE_NULL); ("c", TYPE_NULL)] in
  exists before name definition after inner,
    value = before ++ (name, definition) :: after
    /\ forallb (parses None) before = true
    /\ ObjectSchema_PropFromJson definition (base_of None name) []
       = (None, inner)
    /\ [mkError "commands" "invalid_parameter_definition"
          "Error in definition of property 'b'";
        mkError "commands" "unknown_type" "Unexpected JSON value type: Null"]
       = mkError errors.commands.kDomain errors.commands.kInvalidPropDef
           ("Error in definition of property '" ++ c_str name ++ "'") :: inner.
Proof.
  intros value.
  apply (ObjectSchema_FromJson_first_failure ObjectSchema_Create
           ObjectSchema_Create value None []).
  reflexivity.
Defined.

(** X11.  A definition object that states no type name and from which none is
    detected (the empty object, or one whose ["type"] is the empty string):
    with no base schema it is refused with [no_type_info]; with a base schema
    it is a definition of the kind of the base schema:
    [PropType::FromJson] is run, with the object and the base schema, on a new
    property type of that kind. *)
Theorem PropFromJsonObject_no_type_name (dict : list (string * Value))
    (base_schema : option PropType) (error : ErrorPtr) :
  no_type_name dict base_schema = true ->
  ObjectSchema_PropFromJson (TYPE_DICTIONARY dict) base_schema error
  = match base_schema with
    | None =>
        (None,
         mkError errors.commands.kDomain errors.commands.kNoTypeInfo
           "Unable to determine parameter type" :: error)
    | Some base =>
        PropType_FromJson_with ObjectSchema_PropFromJson
          (PropType_Create (PropType_GetType base)) dict base_schema error
    end.
Proof.
  unfold no_type_name. cbn [ObjectSchema_PropFromJson].
  unfold PropFromJsonObject_with, Dict.HasKey.
  assert (Hempty : forall type_name,
             string_empty type_name = true ->
             bind
               (if string_empty type_name
                then match base_schema with
                     | None => fun error => (None, ErrorInvalidTypeInfo error)
                     | Some base => ret (PropType_GetTypeAsString base)
                     end
                else ret type_name)
               (fun type_name' =>
                  bind (CreatePropType type_name')
                    (fun prop =>
                       PropType_FromJson_with ObjectSchema_PropFromJson prop
                         dict base_schema)) error
             = match base_schema with
               | None =>
                   (None,
                    mkError errors.commands.kDomain errors.commands.kNoTypeInfo
                      "Unable to determine parameter type" :: error)
               | Some base =>
                   PropType_FromJson_with ObjectSchema_PropFromJson
                     (PropType_Create (PropType_GetType base)) dict base_schema
                     error
               end).
  { intros type_name ->. destruct base_schema as [base|]; [|reflexivity].
    unfold bind, ret, PropType_GetTypeAsString.
    now rewrite CreatePropType_name. }
  destruct (Dict.find commands.attributes.kType dict)
    as [[| | | |type_name| | |]|]; try discriminate; intros H;
    unfold bind at 1; unfold ret at 1; now apply Hempty.
Qed.

Lemma PropFromJsonObject_no_type_name_witness :
  ObjectSchema_PropFromJson (TYPE_DICTIONARY [("type", TYPE_STRING "")]) None []
  = (None,
     [mkError "commands" "no_type_info" "Unable to determine parameter type"])
  /\ ObjectSchema_PropFromJson (TYPE_DICTIONARY [])
       (Some (PropType_Create ValueType.String)) []
     = PropType_FromJson_with ObjectSchema_PropFromJson
         (PropType_Create ValueType.String) []
         (Some (PropType_Create ValueType.String)) [].
Proof.
  split.
  - apply (PropFromJsonObject_no_type_name [("type", TYPE_STRING "")] None []).
    reflexivity.
  - apply (PropFromJsonObject_no_type_name []
             (Some (PropType_Create ValueType.String)) []).
    reflexivity.
Defined.

(** ** [ObjectSchema::AddProp], [GetProp], [MarkPropRequired], [ToJson] *)

Lemma set_set {A : Type} (k : string) (v w : A) (d : list (string * A)) :
  Dict.set k v (Dict.set k w d) = Dict.set k v d.
Proof.
  induction d as [|[h x] d IH]; simpl.
  - now rewrite (proj2 (compare_eq k k) eq_refl).
  - destruct (String_as_OT.compare k h) eqn:Hcmp; simpl.
    + now rewrite (proj2 (compare_eq k k) eq_refl).
    + now rewrite (proj2 (compare_eq k k) eq_refl).
    + now rewrite Hcmp, IH.
Qed.

(** X12.  [AddProp] then [GetProp]: the schema has the new property type at
    the name, whether or not it had one there, and what it has at every other
    name is as before; adding twice at a name is adding the second property
    type alone; the flag [extra_properties_allowed_] and the key order of the
    map are kept. *)
Theorem ObjectSchema_AddProp_GetProp (this : ObjectSchema) (name : string)
    (prop : PropType) :
  (forall name',
      ObjectSchema_GetProp (ObjectSchema_AddProp this name prop) name'
      = if String.eqb name name' then Some prop
        else ObjectSchema_GetProp this name')
  /\ (forall prop',
        ObjectSchema_AddProp (ObjectSchema_AddProp this name prop') name prop
        = ObjectSchema_AddProp this name prop)
  /\ extra_properties_allowed_ (ObjectSchema_AddProp this name prop)
     = extra_properties_allowed_ this
  /\ (Dict.sorted (properties_ this) = true ->
      Dict.sorted (properties_ (ObjectSchema_AddProp this name prop)) = true).
Proof.
  repeat split.
  - intros name'. apply find_set.
  - intros prop'. unfold ObjectSchema_AddProp. simpl. now rewrite set_set.
  - apply sorted_set.
Qed.

Lemma map_fst_alter {A : Type} (f : A -> A) (k : string)
    (d : list (string * A)) :
  map fst (Dict.alter f k d) = map fst d.
Proof.
  induction d as [|[h x] d IH]; simpl; [reflexivity|].
  destruct (String.eqb h k); simpl; [reflexivity|now rewrite IH].
Qed.

(** X13.  [MarkPropRequired]: for a name the schema has no property of, it
    returns false, leaves the schema as it is and adds the one error
    [unknown_property], whose message quotes the name as [printf] prints it
    (up to its first NUL); for the name of a
    property, it returns true with no error, that property is required
    afterwards and is of the kind it was, the other properties are as they
    were, and so are the names and the flag of the schema. *)
Theorem ObjectSchema_MarkPropRequired_marks (this : ObjectSchema)
    (name : string) (error : ErrorPtr) :
  match ObjectSchema_GetProp this name with
  | None =>
      ObjectSchema_MarkPropRequired this name error
      = (false, this,
         mkError errors.commands.kDomain errors.commands.kUnknownProperty
           ("Unknown property '" ++ c_str name ++ "'") :: error)
  | Some prop =>
      exists this' prop',
        ObjectSchema_MarkPropRequired this name error = (true, this', error)
        /\ ObjectSchema_GetProp this' name = Some prop'
        /\ PropType_IsRequired prop' = true
        /\ PropType_GetType prop' = PropType_GetType prop
        /\ (forall name',
              name' <> name ->
              ObjectSchema_GetProp this' name' = ObjectSchema_GetProp this name')
        /\ map fst (properties_ this') = map fst (properties_ this)
        /\ extra_properties_allowed_ this' = extra_properties_allowed_ this
  end.
Proof.
  unfold ObjectSchema_MarkPropRequired, ObjectSchema_GetProp.
  destruct (Dict.find name (properties_ this)) as [prop|] eqn:Hfind;
    [|reflexivity].
  eexists. exists (PropType_MakeRequired true prop).
  split; [reflexivity|]. simpl. repeat split.
  - now rewrite find_alter, String.eqb_refl, Hfind.
  - now destruct prop.
  - now destruct prop.
  - intros name' Hname. rewrite find_alter.
    now rewrite (eqb_neq_false name name') by congruence.
  - apply map_fst_alter.
Qed.

Lemma find_map {A B : Type} (f : A -> B) (name : string)
    (d : list (string * A)) :
  Dict.find name (map (fun entry => (fst entry, f (snd entry))) d)
  = option_map f (Dict.find name d).
Proof.
  induction d as [|[h x] d IH]; simpl; [reflexivity|].
  now destruct (String.eqb h name).
Qed.

Lemma map_set {A B : Type} (f : A -> B) (k : string) (v : A)
    (d : list (string * A)) :
  map (fun entry => (fst entry, f (snd entry))) (Dict.set k v d)
  = Dict.set k (f v) (map (fun entry => (fst entry, f (snd entry))) d).
Proof.
  induction d as [|[h x] d IH]; simpl; [reflexivity|].
  destruct (String_as_OT.compare k h); simpl; [reflexivity|reflexivity|].
  now rewrite IH.
Qed.

Lemma ObjectSchema_ToJson_map (this : ObjectSchema)
    (full_schema in_command_def : bool) :
  Dict.sorted (properties_ this) = true ->
  ObjectSchema_ToJson this full_schema in_command_def
  = TYPE_DICTIONARY
      (map (fun pair =>
              (fst pair, PropType_ToJson (snd pair) full_schema in_command_def))
         (properties_ this)).
Proof.
  intros Hsorted. unfold ObjectSchema_ToJson, ObjectSchema_ToJson_with.
  now rewrite (fold_set_sorted
                 (fun prop => PropType_ToJson prop full_schema in_command_def)
                 (properties_ this) [] Hsorted)
    by (intros; constructor).
Qed.

(** X14.  [ObjectSchema::ToJson], in either mode, on a schema whose map is in
    key order: the JSON object has the names of the properties as its keys,
    in the same order and once each, and what it has at a name is the JSON of
    the property [GetProp] returns for the name. *)
Theorem ObjectSchema_ToJson_lookup (this : ObjectSchema)
    (full_schema in_command_def : bool) :
  Dict.sorted (properties_ this) = true ->
  exists dict,
    ObjectSchema_ToJson this full_schema in_command_def = TYPE_DICTIONARY dict
    /\ map fst dict = map fst (properties_ this)
    /\ forall name,
         Dict.find name dict
         = option_map
             (fun prop => PropType_ToJson prop full_schema in_command_def)
             (ObjectSchema_GetProp this name).
Proof.
  intros Hsorted. eexists. split; [now apply ObjectSchema_ToJson_map|].
  split.
  - rewrite map_map. reflexivity.
  - intros name.
    apply (find_map
             (fun prop => PropType_ToJson prop full_schema in_command_def)).
Qed.

Lemma ObjectSchema_ToJson_lookup_witness :
  let this :=
    ObjectSchema_AddProp
      (ObjectSchema_AddProp ObjectSchema_Create "width"
         (PropType_Create ValueType.Int))
      "height" (PropType_Create ValueType.Double) in
  exists dict,
    ObjectSchema_ToJson this false true = TYPE_DICTIONARY dict
    /\ map fst dict = ["height"; "width"]
    /\ Dict.find "height" dict = Some (TYPE_STRING "number")
    /\ Dict.find "depth" dict = None.
Proof.
  intros this.
  destruct (ObjectSchema_ToJson_lookup this false true eq_refl)
    as (dict & Hjson & Hkeys & Hfind).
  exists dict. split; [exact Hjson|]. split; [exact Hkeys|].
  now rewrite !Hfind.
Defined.

(** X15.  Serializing after [AddProp] is setting, in the serialization of the
    schema, the key of the name to the JSON of the property type added: the
    entry of the name is replaced if there was one, and the other entries are
    the ones of the schema. *)
Theorem ObjectSchema_ToJson_AddProp (this : ObjectSchema) (name : string)
    (prop : PropType) (full_schema in_command_def : bool) :
  Dict.sorted (properties_ this) = true ->
  ObjectSchema_ToJson (ObjectSchema_AddProp this name prop) full_schema
    in_command_def
  = TYPE_DICTIONARY
      (Dict.set name (PropType_ToJson prop full_schema in_command_def)
         (DefinitionObject
            (ObjectSchema_ToJson this full_schema in_command_def))).
Proof.
  intros Hsorted.
  rewrite !ObjectSchema_ToJson_map;
    [|exact Hsorted|now apply sorted_set].
  cbn [DefinitionObject ObjectSchema_AddProp properties_].
  now rewrite (map_set
                 (fun prop => PropType_ToJson prop full_schema in_command_def)).
Qed.

Lemma ObjectSchema_ToJson_AddProp_witness :
  let this :=
    mkObjectSchema [("height", PropType_Create ValueType.Int)] false in
  ObjectSchema_ToJson
    (ObjectSchema_AddProp this "height" (PropType_Create ValueType.Double))
    true false
  = TYPE_DICTIONARY
      [("height", TYPE_DICTIONARY [("type", TYPE_STRING "number")])].
Proof.
  intros this.
  rewrite (ObjectSchema_ToJson_AddProp this "height"
             (PropType_Create ValueType.Double) true false eq_refl).
  reflexivity.
Defined.

(** ** No failure without an error *)

Lemma reported_ret {A : Type} (a : A) : reported (ret a).
Proof.
  exists (Some a), []. split; [reflexivity|split; [trivial|discriminate]].
Qed.

Lemma reported_fail {A : Type} (domain code message : string) :
  reported (@fail A domain code message).
Proof.
  exists None, [mkError domain code message].
  split; [reflexivity|split; [congruence|discriminate]].
Qed.

Lemma reported_error {A : Type} (code message : string) :
  reported
    (fun error => (@None A, AddTo error errors.commands.kDomain code message)).
Proof. apply (reported_fail errors.commands.kDomain code message). Qed.

Lemma reported_bind {A B : Type} (m : M A) (k : A -> M B) :
  reported m -> (forall a, reported (k a)) -> reported (bind m k).
Proof.
  intros (r & added & Hm & Hok & Hfail) Hk.
  destruct r as [a|].
  - destruct (Hk a) as (r' & added' & Hk' & Hok').
    exists r', added'. split; [|exact Hok'].
    intros error. unfold bind. rewrite Hm, Hok by congruence. apply Hk'.
  - exists None, added. split; [|split; [congruence|intros _; now apply Hfail]].
    intros error. unfold bind. now rewrite Hm.
Qed.

Lemma reported_CreatePropType (type_name : string) :
  reported (CreatePropType type_name).
Proof.
  destruct (framed_CreatePropType type_name) as (r & added & Hm & Hok).
  exists r, added. split; [exact Hm|]. split; [exact Hok|].
  intros ->. pose proof (CreatePropType_rec_reports [] (String.length type_name)
                           type_name (le_n _)) as H.
  fold (CreatePropType type_name) in H. rewrite Hm in H.
  destruct H as (n & unknown & _ & _ & H). rewrite app_nil_r in H.
  now subst added.
Qed.

Lemma reported_ReadInteger key value base_attr :
  reported (ReadInteger key value base_attr).
Proof.
  unfold ReadInteger, type_mismatch.
  destruct (Dict.find key value) as [[]|];
    first [apply reported_ret | apply reported_fail].
Qed.

Lemma reported_ReadDouble key value base_attr :
  reported (ReadDouble key value base_attr).
Proof.
  unfold ReadDouble, type_mismatch.
  destruct (Dict.find key value) as [[]|];
    first [apply reported_ret | apply reported_fail].
Qed.

Lemma reported_ReadEnum type value base_attr :
  reported (ReadEnum type value base_attr).
Proof.
  unfold ReadEnum, type_mismatch.
  destruct (Dict.find commands.attributes.kOneOf_Enum value) as [[]|];
    try destruct (PropValue_FromJsonList type _);
    first [apply reported_ret | apply reported_fail].
Qed.

Lemma reported_ReadDefault type value base_attr :
  reported (ReadDefault type value base_attr).
Proof.
  unfold ReadDefault, type_mismatch.
  destruct (Dict.find commands.attributes.kDefault value) as [defval|];
    try destruct (PropValue_FromJson type defval);
    first [apply reported_ret | apply reported_fail].
Qed.

Create HintDb reported.
#[local] Hint Resolve reported_ret reported_fail reported_error
  reported_CreatePropType reported_ReadInteger reported_ReadDouble
  reported_ReadEnum reported_ReadDefault : reported.

Section ReportedRecursive.
Variable PropFromJson : Value -> option PropType -> M PropType.

Lemma reported_FromJson_loop object_schema iter :
  Forall (fun entry => forall base, reported (PropFromJson (snd entry) base))
    iter ->
  forall properties,
    reported
      (ObjectSchema_FromJson_loop PropFromJson object_schema iter properties).
Proof.
  induction 1 as [|[name value] iter Hvalue _ IH]; intros properties; simpl.
  - apply (reported_ret properties).
  - set (base_schema := match object_schema with
                        | Some schema => ObjectSchema_GetProp schema name
                        | None => None
                        end).
    destruct (Hvalue base_schema) as (r & added & Hm & Hok & _). simpl in Hm.
    destruct r as [prop|].
    + destruct (IH (Dict.emplace name prop properties))
        as (r' & added' & Hm' & Hok').
      exists r', added'. split; [|exact Hok'].
      intros error. rewrite Hm, Hok by congruence. apply Hm'.
    + eexists None, (_ :: added). split; [|split; [congruence|discriminate]].
      intros error. rewrite Hm. reflexivity.
Qed.

Lemma reported_CreateFromJson value object_schema :
  Forall (fun entry => forall base, reported (PropFromJson (snd entry) base))
    value ->
  reported (ObjectSchema_CreateFromJson_with PropFromJson value object_schema).
Proof.
  intros H.
  destruct (reported_FromJson_loop object_schema value H [])
    as (r & added & Hm & Hok & Hfail).
  unfold ObjectSchema_CreateFromJson_with, ObjectSchema_FromJson_with.
  destruct r as [properties|].
  - eexists (Some _), added.
    split; [|split; [intros _; apply Hok; congruence|discriminate]].
    intros error. rewrite Hm. reflexivity.
  - exists None, added.
    split; [|split; [congruence|intros _; now apply Hfail]].
    intros error. rewrite Hm. reflexivity.
Qed.

Lemma reported_PropType_FromJson prop value base_schema :
  reported_on PropFromJson value ->
  reported (PropType_FromJson_with PropFromJson prop value base_schema).
Proof.
  intros Hvalue. unfold PropType_FromJson_with.
  match goal with |- reported (if ?c then _ else _) => destruct c end;
    [apply reported_fail|].
  apply reported_bind.
  - destruct prop as [a lo hi|a lo hi|a lo hi|a|a own inh|a own inh].
    + destruct (match base_schema with
                | Some (IntPropType _ lo hi) => (lo, hi) | _ => (None, None)
                end) as [base_min base_max].
      repeat (apply reported_bind; [auto with reported|intros ?]).
      apply reported_ret.
    + destruct (match base_schema with
                | Some (DoublePropType _ lo hi) => (lo, hi) | _ => (None, None)
                end) as [base_min base_max].
      repeat (apply reported_bind; [auto with reported|intros ?]).
      apply reported_ret.
    + destruct (match base_schema with
                | Some (StringPropType _ lo hi) => (lo, hi) | _ => (None, None)
                end) as [base_min base_max].
      repeat (apply reported_bind; [auto with reported|intros ?]).
      apply reported_ret.
    + apply reported_ret.
    + set (base_object := match base_schema with
                          | Some (ObjectPropType _ schema _) => Some schema
                          | _ => None
                          end).
      clearbody base_object.
      induction Hvalue as [|[k v] value [_ Hprops] _ IH]; simpl.
      * destruct base_object; apply reported_ret.
      * destruct (String.eqb k commands.attributes.kObject_Properties);
          [|exact IH].
        destruct v; try apply reported_fail.
        apply reported_bind; [|intros ?; apply reported_ret].
        apply reported_CreateFromJson. now apply Hprops.
    + set (base_item := match base_schema with
                        | Some (ArrayPropType _ item _) => item
                        | _ => None
                        end).
      clearbody base_item.
      induction Hvalue as [|[k v] value [Hitem _] _ IH]; simpl.
      * destruct own, base_item;
          first [apply reported_ret | apply reported_fail].
      * destruct (String.eqb k commands.attributes.kItems); [|exact IH].
        apply reported_bind; [apply Hitem|intros ?; apply reported_ret].
  - intros kind.
    repeat (apply reported_bind; [auto with reported|intros ?]).
    apply reported_ret.
Qed.

Lemma reported_PropFromJsonObject dict base_schema :
  reported_on PropFromJson dict ->
  reported (PropFromJsonObject_with PropFromJson dict base_schema).
Proof.
  intros Hdict. unfold PropFromJsonObject_with.
  apply reported_bind.
  { destruct (Dict.HasKey commands.attributes.kType dict);
      [|apply reported_ret].
    destruct (Dict.find commands.attributes.kType dict) as [[]|];
      first [apply reported_ret | apply reported_error]. }
  intros type_name. apply reported_bind.
  { destruct (string_empty type_name); [|apply reported_ret].
    destruct base_schema; first [apply reported_ret | apply reported_error]. }
  intros type_name'. apply reported_bind; [auto with reported|intros prop].
  now apply reported_PropType_FromJson.
Qed.

Lemma reported_PropFromJsonString type_name base_schema :
  reported (PropFromJsonString_with PropFromJson type_name base_schema).
Proof.
  unfold PropFromJsonString_with.
  apply reported_bind; [auto with reported|intros prop].
  apply reported_PropType_FromJson. constructor.
Qed.

End ReportedRecursive.

Lemma reported_ext {A : Type} (m m' : M A) :
  (forall error, m error = m' error) -> reported m -> reported m'.
Proof.
  intros Heq (r & added & Hm & Hok). exists r, added.
  split; [|exact Hok]. intros error. rewrite <- Heq. apply Hm.
Qed.

Lemma reported_PropFromJsonArray rec values base_schema :
  reported (PropFromJsonArray_with rec values base_schema).
Proof.
  apply (reported_ext
           (PropFromJsonArray_with (fun _ _ => fail "" "" "") values
              base_schema)).
  { intros error. apply PropFromJsonArray_with_any. }
  unfold PropFromJsonArray_with.
  destruct (string_empty _); [apply reported_error|].
  apply reported_bind; [auto with reported|intros prop].
  apply reported_PropType_FromJson.
  constructor; [|constructor]. split.
  - intros base. apply reported_fail.
  - intros props. discriminate.
Qed.

Lemma reported_PropFromJson_dictionary (value : Value) :
  (forall base_schema, reported (ObjectSchema_PropFromJson value base_schema))
  /\ forall props, value = TYPE_DICTIONARY props ->
       Forall (fun entry =>
                 forall base,
                   reported (ObjectSchema_PropFromJson (snd entry) base))
         props.
Proof.
  induction value as [| | | | | |dict IH|values IH] using Value_ind;
    (split; [intros base_schema|intros props Hprops; try discriminate Hprops]);
    try apply reported_fail.
  - apply reported_PropFromJsonString.
  - simpl. apply reported_PropFromJsonObject. exact IH.
  - injection Hprops as <-.
    eapply Forall_impl; [exact IH|]. intros entry [H _]. exact H.
  - apply reported_PropFromJsonArray.
Qed.

(** X16.  [ObjectSchema::PropFromJson] and the error chain, for every JSON
    value and every base schema: the property type it returns and the errors
    it adds are the same whatever the chain it is given; when it returns a
    property type it adds no error; when it returns none it adds at least
    one. *)
Theorem PropFromJson_reports (value : Value) (base_schema : option PropType) :
  exists (result : option PropType) (added : ErrorPtr),
    (forall error,
        ObjectSchema_PropFromJson value base_schema error
        = (result, added ++ error))
    /\ (result <> None -> added = [])
    /\ (result = None -> added <> []).
Proof. apply reported_PropFromJson_dictionary. Qed.

(** ** Unknown type names *)

(** X17.  A type name whose first component (what precedes its first dot) is
    not the name of a type: the string shorthand that states it, the empty
    string included, and every definition object whose ["type"] is that name,
    if it is not empty, are refused with the one error [unknown_type], whose
    message quotes the name, dots included, as [printf] prints it (up to its
    first NUL); the base schema and the other keys of the object are not
    looked at. *)
Theorem PropFromJson_unknown_type (type_name : string)
    (base_schema : option PropType) (error : ErrorPtr) :
  PropType_GetTypeFromTypeString (primary_type type_name) = None ->
  ObjectSchema_PropFromJson (TYPE_STRING type_name) base_schema error
  = (None,
     mkError errors.commands.kDomain errors.commands.kUnknownType
       ("Unknown type " ++ c_str type_name) :: error)
  /\ forall dict,
       Dict.find commands.attributes.kType dict = Some (TYPE_STRING type_name) ->
       string_empty type_name = false ->
       ObjectSchema_PropFromJson (TYPE_DICTIONARY dict) base_schema error
       = (None,
          mkError errors.commands.kDomain errors.commands.kUnknownType
            ("Unknown type " ++ c_str type_name) :: error).
Proof.
  intros Hunknown.
  assert (Hcreate : CreatePropType type_name error
                    = (None,
                       mkError errors.commands.kDomain
                         errors.commands.kUnknownType
                         ("Unknown type " ++ c_str type_name) :: error)).
  { unfold CreatePropType, primary_type in *.
    destruct (String.length type_name); simpl;
      destruct (SplitAtFirst type_name ".") as [[found primary] array_type];
      simpl in Hunknown; now rewrite Hunknown. }
  split.
  - cbn [ObjectSchema_PropFromJson]. unfold PropFromJsonString_with, bind.
    now rewrite Hcreate.
  - intros dict Hfind Hname. cbn [ObjectSchema_PropFromJson].
    unfold PropFromJsonObject_with, Dict.HasKey. rewrite Hfind.
    unfold bind at 1. unfold ret at 1. unfold bind at 1. rewrite Hname.
    unfold ret at 1. unfold bind. now rewrite Hcreate.
Qed.

Lemma PropFromJson_unknown_type_witness :
  ObjectSchema_PropFromJson (TYPE_STRING "int.array")
    (Some (PropType_Create ValueType.Int)) []
  = (None, [mkError "commands" "unknown_type" "Unknown type int.array"])
  /\ ObjectSchema_PropFromJson
       (TYPE_DICTIONARY
          [("minimum", TYPE_STRING "low"); ("type", TYPE_STRING "int.array")])
       None []
     = (None, [mkError "commands" "unknown_type" "Unknown type int.array"])
  /\ ObjectSchema_PropFromJson
       (TYPE_STRING (String "i" (String "n" (String Ascii.zero "teger")))) None
       []
     = (None, [mkError "commands" "unknown_type" "Unknown type in"]).
Proof.
  destruct (PropFromJson_unknown_type "int.array"
              (Some (PropType_Create ValueType.Int)) [] eq_refl) as [Hstring _].
  destruct (PropFromJson_unknown_type "int.array" None [] eq_refl)
    as [_ Hobject].
  destruct (PropFromJson_unknown_type
              (String "i" (String "n" (String Ascii.zero "teger"))) None []
              eq_refl) as [Hnul _].
  split; [exact Hstring|]. split; [now apply Hobject|exact Hnul].
Defined.

(** ** The keys type detection reads *)

(** X18.  [DetectObjectType] reads eight keys of the definition, ["minimum"],
    ["maximum"], ["minLength"], ["maxLength"], ["properties"], ["items"],
    ["enum"] and ["default"], and nothing else: two objects that hold the same
    at each of them are detected as the same type, against every base
    schema. *)
Theorem DetectObjectType_reads (dict dict' : list (string * Value))
    (base_schema : option PropType) :
  Forall (fun key => Dict.find key dict = Dict.find key dict')
    detection_keys ->
  DetectObjectType dict base_schema = DetectObjectType dict' base_schema.
Proof.
  intros H. unfold detection_keys in H.
  repeat match goal with
         | H : Forall _ (_ :: _) |- _ =>
             let Hkey := fresh "Hkey" in
             inversion H as [|? ? Hkey H']; subst; clear H; rename H' into H
         end.
  unfold DetectObjectType, Dict.HasKey.
  now rewrite Hkey, Hkey0, Hkey1, Hkey2, Hkey3, Hkey4, Hkey5, Hkey6.
Qed.

Lemma DetectObjectType_reads_witness :
  DetectObjectType
    [("displayName", TYPE_STRING "Height"); ("maxLength", TYPE_INTEGER 5);
     ("type", TYPE_INTEGER 0)] None
  = DetectObjectType [("maxLength", TYPE_INTEGER 5)] None.
Proof.
  apply (DetectObjectType_reads
           [("displayName", TYPE_STRING "Height"); ("maxLength", TYPE_INTEGER 5);
            ("type", TYPE_INTEGER 0)]
           [("maxLength", TYPE_INTEGER 5)] None).
  repeat constructor.
Defined.

(** * The command handlers of [examples/daemon/light/light.cc] *)

(** X19.  Each of the three handlers of the light, in every state and for
    every command: when the command is gone it makes no call and changes no
    field; otherwise it ends the command exactly once, by [Complete] or by
    [Abort], and that is the last call it makes. *)
Theorem LightHandler_ends_command_once (handler : Handler)
    (this : LightHandler) (command : option Command) :
  let '(this', calls) := LightHandler_handle handler this command in
  match command with
  | None => this' = this /\ calls = []
  | Some _ =>
      exists before last,
        calls = before ++ [last]
        /\ ends_command last = true
        /\ forallb (fun call => negb (ends_command call)) before = true
  end.
Proof.
  destruct handler, command as [cmd|]; simpl; try (split; reflexivity).
  - unfold LightHandler_OnOnOffSetConfig.
    destruct (DictionaryValue_GetString _ _) as [requested_state|];
      [|now exists [], (Command_Abort invalid_parameters)].
    cbv zeta. destruct (negb _).
    + eexists [_], (Command_Complete []). split; [reflexivity|]. now split.
    + now exists [], (Command_Complete []).
  - unfold LightHandler_OnBrightnessSetConfig.
    destruct (DictionaryValue_GetInteger _ _) as [brightness_value|];
      [|now exists [], (Command_Abort invalid_parameters)].
    destruct (negb _).
    + eexists [_], (Command_Complete []). split; [reflexivity|]. now split.
    + now exists [], (Command_Complete []).
  - unfold LightHandler_OnColorXYSetConfig.
    destruct (DictionaryValue_GetDictionary _ _) as [colorXY|];
      [|now exists [], (Command_Abort invalid_parameters)].
    destruct (DictionaryValue_GetDouble "_colorX" colorXY),
      (DictionaryValue_GetDouble "_colorY" colorXY); cbv zeta iota beta;
      first [ now exists [], (Command_Complete [])
            | eexists [_], (Command_Complete []);
              split; [reflexivity|]; now split ].
Qed.

(** X20.  A handler of the light aborts a command only with the error
    [invalid_parameter_value] of the domain [example]; when it does, it has
    changed no field and handed no state to the device, and the abort is its
    only call. *)
Theorem LightHandler_abort_changes_nothing (handler : Handler)
    (this this' : LightHandler) (command : option Command)
    (calls : list HandlerCall) (error : ErrorPtr) :
  LightHandler_handle handler this command = (this', calls) ->
  In (Command_Abort error) calls ->
  this' = this
  /\ calls = [Command_Abort error]
  /\ error = [mkError "example" "invalid_parameter_value" "Invalid parameters"].
Proof.
  destruct handler, command as [cmd|]; simpl;
    try (intros [= <- <-] []).
  - unfold LightHandler_OnOnOffSetConfig.
    destruct (DictionaryValue_GetString _ _) as [requested_state|].
    + cbv zeta. destruct (negb _); intros [= <- <-] Hin; simpl in Hin;
        intuition discriminate.
    + intros [= <- <-] [[= <-]|[]]. now repeat split.
  - unfold LightHandler_OnBrightnessSetConfig.
    destruct (DictionaryValue_GetInteger _ _) as [brightness_value|].
    + destruct (negb _); intros [= <- <-] Hin; simpl in Hin;
        intuition discriminate.
    + intros [= <- <-] [[= <-]|[]]. now repeat split.
  - unfold LightHandler_OnColorXYSetConfig.
    destruct (DictionaryValue_GetDictionary _ _) as [colorXY|].
    + destruct (DictionaryValue_GetDouble "_colorX" colorXY),
        (DictionaryValue_GetDouble "_colorY" colorXY); cbv zeta iota beta;
        intros [= <- <-] Hin; simpl in Hin; intuition discriminate.
    + intros [= <- <-] [[= <-]|[]]. now repeat split.
Qed.

Lemma LightHandler_abort_changes_nothing_witness :
  let this := mkLightHandler true 50 (double_of_int 0) (double_of_int 0) in
  let cmd := mkCommand "brightness.setConfig"
               [("brightness", TYPE_STRING "high")] in
  fst (LightHandler_handle OnBrightnessSetConfig this (Some cmd)) = this
  /\ snd (LightHandler_handle OnBrightnessSetConfig this (Some cmd))
     = [Command_Abort invalid_parameters].
Proof.
  intros this cmd.
  destruct (LightHandler_abort_changes_nothing OnBrightnessSetConfig this
              (fst (LightHandler_handle OnBrightnessSetConfig this (Some cmd)))
              (Some cmd)
              (snd (LightHandler_handle OnBrightnessSetConfig this (Some cmd)))
              invalid_parameters eq_refl (or_introl eq_refl))
    as (Hthis & Hcalls & _).
  now split.
Defined.

Lemma UpdateLightState_published (this : LightHandler) :
  exists state,
    LightHandler_UpdateLightState this = [Device_SetStateProperties state]
    /\ DictionaryValue_Get "onOff.state" state
       = Some (TYPE_STRING (if light_status_ this then "on" else "standby"))
    /\ DictionaryValue_Get "brightness.brightness" state
       = Some (TYPE_INTEGER (brightness_state_ this))
    /\ DictionaryValue_Get "colorXY.colorSetting.colorX" state
       = Some (TYPE_DOUBLE (color_X_ this))
    /\ DictionaryValue_Get "colorXY.colorSetting.colorY" state
       = Some (TYPE_DOUBLE (color_Y_ this)).
Proof. eexists. split; [reflexivity|]. repeat split. Qed.

(** X21.  What a handler of the light hands to the device: at most one state
    dictionary for a command, and each one tells the fields the handler is
    left with, all four of them: ["onOff.state"] is ["on"] when the light is
    on and ["standby"] otherwise, ["brightness.brightness"] is the brightness,
    and ["colorXY.colorSetting"] holds the two coordinates. *)
Theorem LightHandler_publishes_new_state (handler : Handler)
    (this : LightHandler) (command : option Command) :
  let '(this', calls) := LightHandler_handle handler this command in
  length (published calls) <= 1
  /\ forall state,
       In state (published calls) ->
       DictionaryValue_Get "onOff.state" state
       = Some (TYPE_STRING (if light_status_ this' then "on" else "standby"))
       /\ DictionaryValue_Get "brightness.brightness" state
          = Some (TYPE_INTEGER (brightness_state_ this'))
       /\ DictionaryValue_Get "colorXY.colorSetting.colorX" state
          = Some (TYPE_DOUBLE (color_X_ this'))
       /\ DictionaryValue_Get "colorXY.colorSetting.colorY" state
          = Some (TYPE_DOUBLE (color_Y_ this')).
Proof.
  assert (Hupdate : forall this',
             length (published (LightHandler_UpdateLightState this'
                                ++ [Command_Complete []])) <= 1
             /\ forall state,
                  In state (published (LightHandler_UpdateLightState this'
                                       ++ [Command_Complete []])) ->
                  DictionaryValue_Get "onOff.state" state
                  = Some (TYPE_STRING
                            (if light_status_ this' then "on" else "standby"))
                  /\ DictionaryValue_Get "brightness.brightness" state
                     = Some (TYPE_INTEGER (brightness_state_ this'))
                  /\ DictionaryValue_Get "colorXY.colorSetting.colorX" state
                     = Some (TYPE_DOUBLE (color_X_ this'))
                  /\ DictionaryValue_Get "colorXY.colorSetting.colorY" state
                     = Some (TYPE_DOUBLE (color_Y_ this'))).
  { intros this'.
    destruct (UpdateLightState_published this') as (state' & -> & Hstate).
    split; [simpl; lia|]. intros state [<-|[]]. exact Hstate. }
  assert (Hnone : forall (this' : LightHandler) call,
             published [call] = [] ->
             length (published [call]) <= 1
             /\ forall state,
                  In state (published [call]) ->
                  DictionaryValue_Get "onOff.state" state
                  = Some (TYPE_STRING
                            (if light_status_ this' then "on" else "standby"))
                  /\ DictionaryValue_Get "brightness.brightness" state
                     = Some (TYPE_INTEGER (brightness_state_ this'))
                  /\ DictionaryValue_Get "colorXY.colorSetting.colorX" state
                     = Some (TYPE_DOUBLE (color_X_ this'))
                  /\ DictionaryValue_Get "colorXY.colorSetting.colorY" state
                     = Some (TYPE_DOUBLE (color_Y_ this'))).
  { intros this' call ->. split; [simpl; lia|]. intros state []. }
  destruct handler, command as [cmd|]; cbn [LightHandler_handle];
    try (split; [simpl; lia|intros state []]).
  - unfold LightHandler_OnOnOffSetConfig.
    destruct (DictionaryValue_GetString _ _) as [requested_state|];
      [|now apply Hnone].
    cbv zeta. destruct (negb _); [apply Hupdate|now apply Hnone].
  - unfold LightHandler_OnBrightnessSetConfig.
    destruct (DictionaryValue_GetInteger _ _) as [brightness_value|];
      [|now apply Hnone].
    destruct (negb _); [apply Hupdate|now apply Hnone].
  - unfold LightHandler_OnColorXYSetConfig.
    destruct (DictionaryValue_GetDictionary _ _) as [colorXY|];
      [|now apply Hnone].
    destruct (DictionaryValue_GetDouble "_colorX" colorXY),
      (DictionaryValue_GetDouble "_colorY" colorXY); cbv zeta iota beta;
      first [apply Hupdate | now apply Hnone].
Qed.

(** X22.  [OnOnOffSetConfig] on a command whose ["state"] is a string: the
    light is on afterwards exactly when the string is ["on"], so that every
    other string puts it on standby; the other fields are kept; the state is
    handed to the device exactly when the light changes, so that the same
    command a second time publishes nothing; and the command is completed. *)
Theorem LightHandler_OnOnOffSetConfig_sets (this : LightHandler)
    (cmd : Command) (requested_state : string) :
  DictionaryValue_GetString "state" (Command_GetParameters cmd)
  = Some requested_state ->
  let '(this', calls) := LightHandler_OnOnOffSetConfig this (Some cmd) in
  this'
  = mkLightHandler (String.eqb requested_state "on") (brightness_state_ this)
      (color_X_ this) (color_Y_ this)
  /\ length (published calls)
     = (if Bool.eqb (String.eqb requested_state "on") (light_status_ this)
        then 0 else 1)
  /\ last calls = Some (Command_Complete [])
  /\ LightHandler_OnOnOffSetConfig this' (Some cmd)
     = (this', [Command_Complete []]).
Proof.
  intros Hstate. unfold LightHandler_OnOnOffSetConfig. rewrite Hstate.
  cbv zeta.
  destruct (Bool.eqb (String.eqb requested_state "on") (light_status_ this))
    eqn:Hsame; cbn [negb].
  - apply Bool.eqb_prop in Hsame. rewrite Hsame, Bool.eqb_reflx.
    destruct this; simpl in *. now subst.
  - cbn [light_status_]. rewrite Bool.eqb_reflx. now repeat split.
Qed.

Lemma LightHandler_OnOnOffSetConfig_sets_witness :
  let this := mkLightHandler true 50 (double_of_int 0) (double_of_int 0) in
  let cmd := mkCommand "onOff.setConfig" [("state", TYPE_STRING "off")] in
  fst (LightHandler_OnOnOffSetConfig this (Some cmd))
  = mkLightHandler false 50 (double_of_int 0) (double_of_int 0)
  /\ length (published (snd (LightHandler_OnOnOffSetConfig this (Some cmd))))
     = 1.
Proof.
  intros this cmd.
  pose proof (LightHandler_OnOnOffSetConfig_sets this cmd "off" eq_refl) as H.
  destruct (LightHandler_OnOnOffSetConfig this (Some cmd)) as [this' calls].
  destruct H as (Hthis & Hpublished & _). now split.
Defined.

(** X23.  [OnBrightnessSetConfig] on a command whose ["brightness"] is an
    integer: the brightness is that integer afterwards and the other fields
    are kept; the state is handed to the device exactly when the brightness
    changes, so that the same command a second time publishes nothing; and
    the command is completed. *)
Theorem LightHandler_OnBrightnessSetConfig_sets (this : LightHandler)
    (cmd : Command) (brightness_value : Z) :
  DictionaryValue_GetInteger "brightness" (Command_GetParameters cmd)
  = Some brightness_value ->
  let '(this', calls) := LightHandler_OnBrightnessSetConfig this (Some cmd) in
  this'
  = mkLightHandler (light_status_ this) brightness_value (color_X_ this)
      (color_Y_ this)
  /\ length (published calls)
     = (if Z.eqb (brightness_state_ this) brightness_value then 0 else 1)
  /\ last calls = Some (Command_Complete [])
  /\ LightHandler_OnBrightnessSetConfig this' (Some cmd)
     = (this', [Command_Complete []]).
Proof.
  intros Hvalue. unfold LightHandler_OnBrightnessSetConfig. rewrite Hvalue.
  destruct (Z.eqb (brightness_state_ this) brightness_value) eqn:Hsame;
    cbn [negb].
  - apply Z.eqb_eq in Hsame. rewrite <- Hsame, Z.eqb_refl.
    destruct this; simpl in *. now subst.
  - cbn [brightness_state_]. rewrite Z.eqb_refl. now repeat split.
Qed.

Lemma LightHandler_OnBrightnessSetConfig_sets_witness :
  let this := mkLightHandler true 50 (double_of_int 0) (double_of_int 0) in
  let cmd := mkCommand "brightness.setConfig"
               [("brightness", TYPE_INTEGER 50)] in
  fst (LightHandler_OnBrightnessSetConfig this (Some cmd)) = this
  /\ length
       (published (snd (LightHandler_OnBrightnessSetConfig this (Some cmd))))
     = 0.
Proof.
  intros this cmd.
  pose proof (LightHandler_OnBrightnessSetConfig_sets this cmd 50 eq_refl) as H.
  destruct (LightHandler_OnBrightnessSetConfig this (Some cmd))
    as [this' calls].
  destruct H as (Hthis & Hpublished & _). now split.
Defined.

(** X24.  [OnColorXYSetConfig] on a command whose ["_colorSetting"] is an
    object: each coordinate the object gives as a number, an integer being
    read as a double, replaces the one of the handler, and a coordinate it
    does not give, or gives as something else, is kept; the state is handed
    to the device whenever one coordinate is read, even when neither changes,
    and not when none is; the command is completed in every case. *)
Theorem LightHandler_OnColorXYSetConfig_sets (this : LightHandler)
    (cmd : Command) (colorXY : list (string * Value)) :
  DictionaryValue_GetDictionary "_colorSetting" (Command_GetParameters cmd)
  = Some colorXY ->
  let X := DictionaryValue_GetDouble "_colorX" colorXY in
  let Y := DictionaryValue_GetDouble "_colorY" colorXY in
  let '(this', calls) := LightHandler_OnColorXYSetConfig this (Some cmd) in
  this'
  = mkLightHandler (light_status_ this) (brightness_state_ this)
      (match X with Some x => x | None => color_X_ this end)
      (match Y with Some y => y | None => color_Y_ this end)
  /\ length (published calls)
     = (match X, Y with None, None => 0 | _, _ => 1 end)
  /\ last calls = Some (Command_Complete []).
Proof.
  intros Hsetting. unfold LightHandler_OnColorXYSetConfig. rewrite Hsetting.
  destruct (DictionaryValue_GetDouble "_colorX" colorXY),
    (DictionaryValue_GetDouble "_colorY" colorXY); cbv zeta iota beta;
    repeat split.
  now destruct this.
Qed.

Lemma LightHandler_OnColorXYSetConfig_sets_witness :
  let this := mkLightHandler true 50 (double_of_int 1) (double_of_int 0) in
  let cmd :=
    mkCommand "_colorXY._setConfig"
      [("_colorSetting", TYPE_DICTIONARY [("_colorX", TYPE_INTEGER 1)])] in
  fst (LightHandler_OnColorXYSetConfig this (Some cmd)) = this
  /\ length (published (snd (LightHandler_OnColorXYSetConfig this (Some cmd))))
     = 1.
Proof.
  intros this cmd.
  pose proof (LightHandler_OnColorXYSetConfig_sets this cmd
                [("_colorX", TYPE_INTEGER 1)] eq_refl) as H.
  destruct (LightHandler_OnColorXYSetConfig this (Some cmd)) as [this' calls].
  destruct H as (Hthis & Hpublished & _). now split.
Defined.
